(** * Langgraph_dspy: a hybrid RAG + SQL agent

    A shallow embedding of the agent's Python sources
    ([agent/graph_hybrid.py], [agent/dspy_signatures.py],
    [agent/rag/retrieval.py], [agent/tools/sqlite_tool.py],
    [run_agent_hybrid.py]) and the properties of its specification, stated
    and settled against the code.

    Conventions of the embedding.
    - Python [str] is [string]; only code points below 128 are modelled
      (case folding and white space are the ASCII ones).
    - Python [int] is [Z]; a Python [float] and an entry of a numpy
      float64 array are binary64 [float]s, with the rounding of each
      operation and numpy's order, in which a NaN comes last.
    - A call that can raise returns an [outcome]; the external services
      (language model, database engine, scoring libraries) are arguments. *)

From Stdlib Require Import ZArith Uint63 Floats String Ascii List Bool Lia.
From Stdlib Require Import Sorting.Sorted Sorting.Permutation.
From stdpp Require Import gmap strings list pretty sorting.

Set Warnings "-inexact-float,-register-all".
Open Scope string_scope.
Open Scope Z_scope.

(** ** Results of calls that may raise *)

Inductive outcome (A : Type) : Type :=
| Returned (a : A)
| Raised (msg : string).
Arguments Returned {A} a.
Arguments Raised {A} msg.

(** ** Python values that cross the component boundaries *)

Inductive pyvalue : Type :=
| PNone
| PBool (b : bool)
| PInt (z : Z)
| PStr (s : string)
| PList (l : list pyvalue)
| PDict (d : list (string * pyvalue))
| POpaque (tag : string).

(** ** The fragment of Python's [str] and sequence operations the code uses *)

Module Py.

(** [str.isspace] on one character, also the class [\s] of [re]. *)
Definition isspace (c : ascii) : bool :=
  let n := nat_of_ascii c in
  ((9 <=? n)%nat && (n <=? 13)%nat) || ((28 <=? n)%nat && (n <=? 32)%nat).

Definition is_upper (c : ascii) : bool :=
  let n := nat_of_ascii c in (65 <=? n)%nat && (n <=? 90)%nat.
Definition is_lower (c : ascii) : bool :=
  let n := nat_of_ascii c in (97 <=? n)%nat && (n <=? 122)%nat.
Definition is_digit (c : ascii) : bool :=
  let n := nat_of_ascii c in (48 <=? n)%nat && (n <=? 57)%nat.

Definition lower_char (c : ascii) : ascii :=
  if is_upper c then ascii_of_nat (nat_of_ascii c + 32) else c.
Definition upper_char (c : ascii) : ascii :=
  if is_lower c then ascii_of_nat (nat_of_ascii c - 32) else c.

Fixpoint lower (s : string) : string :=
  match s with
  | EmptyString => EmptyString
  | String c s' => String (lower_char c) (lower s')
  end.
Fixpoint upper (s : string) : string :=
  match s with
  | EmptyString => EmptyString
  | String c s' => String (upper_char c) (upper s')
  end.

(** [s.lstrip()], [s.rstrip()], [s.strip()] *)
Fixpoint lstrip (s : string) : string :=
  match s with
  | EmptyString => EmptyString
  | String c s' => if isspace c then lstrip s' else s
  end.
Fixpoint rstrip (s : string) : string :=
  match s with
  | EmptyString => EmptyString
  | String c s' =>
      match rstrip s' with
      | EmptyString => if isspace c then EmptyString else String c EmptyString
      | r => String c r
      end
  end.
Definition strip (s : string) : string := rstrip (lstrip s).

(** Truth value of a [str], of an optional [str], of a list. *)
Definition truthy (s : string) : bool :=
  match s with EmptyString => false | _ => true end.
Definition truthy_opt (o : option string) : bool :=
  match o with Some s => truthy s | None => false end.
Definition truthy_list {A} (l : list A) : bool :=
  match l with [] => false | _ => true end.

(** [s.startswith(p)] *)
Definition startswith (p s : string) : bool := String.prefix p s.

(** [s.endswith(p)] *)
Definition endswith (p s : string) : bool :=
  String.prefix (String.rev p) (String.rev s).

(** [s.find(sub)]: the offset of the first occurrence. *)
Fixpoint find (sub s : string) : option nat :=
  if String.prefix sub s then Some 0%nat
  else match s with
       | EmptyString => None
       | String _ s' => S <$> find sub s'
       end.

(** [sub in s] *)
Definition contains (sub s : string) : bool :=
  match find sub s with Some _ => true | None => false end.

(** [s[:n]] and [s[n:]] for [n >= 0] *)
Definition take (n : nat) (s : string) : string := String.substring 0 n s.
Fixpoint drop (n : nat) (s : string) : string :=
  match n, s with
  | O, _ => s
  | S _, EmptyString => EmptyString
  | S n', String _ s' => drop n' s'
  end.

(** [s.rfind(sub)]: the offset of the last occurrence. *)
Fixpoint rfind (sub s : string) : option nat :=
  match s with
  | EmptyString => if String.prefix sub s then Some 0%nat else None
  | String _ s' =>
      match rfind sub s' with
      | Some i => Some (S i)
      | None => if String.prefix sub s then Some 0%nat else None
      end
  end.

(** [s.split(sep)] for a non-empty [sep]; [fuel] bounds the number of
    pieces and [String.length s] is always enough. *)
Fixpoint split_fuel (fuel : nat) (sep s : string) : list string :=
  match fuel with
  | O => [s]
  | S fuel' =>
      match find sep s with
      | None => [s]
      | Some i => take i s :: split_fuel fuel' sep (drop (i + String.length sep) s)
      end
  end.
Definition split (sep s : string) : list string :=
  split_fuel (String.length s) sep s.

(** [s.split(sep, maxsplit)] *)
Definition split_max (sep s : string) (maxsplit : nat) : list string :=
  split_fuel (Nat.min maxsplit (String.length s)) sep s.

(** [s.rsplit(sep, 1)[0]] *)
Definition rsplit1_head (sep s : string) : string :=
  match rfind sep s with
  | Some i => take i s
  | None => s
  end.

(** [s.replace(old, "")] for a non-empty [old] *)
Definition remove (old s : string) : string :=
  String.concat "" (split old s).

(** [s.split()]: the maximal runs of characters that are not white space. *)
Fixpoint split_ws_go (cur : option string) (s : string) : list string :=
  match s with
  | EmptyString => option_list (String.rev <$> cur)
  | String a s' =>
      if isspace a
      then option_list (String.rev <$> cur) ++ split_ws_go None s'
      else split_ws_go (Some (String a (default EmptyString cur))) s'
  end.
Definition split_ws (s : string) : list string := split_ws_go None s.

(** [l[:k]] for any integer [k]: a negative [k] counts from the end. *)
Definition slice_to {A} (k : Z) (l : list A) : list A :=
  if 0 <=? k then firstn (Z.to_nat k) l
  else firstn (length l - Z.to_nat (- k)) l.

(** [getattr(obj, name, default)], the attribute being present or not. *)
Definition getattr {A} (attr : option A) (dflt : A) : A :=
  match attr with Some a => a | None => dflt end.

End Py.

(** ** The fragment of Python's [re] the code uses

    A backtracking matcher with the priorities of [re]: alternatives are
    tried left to right, a greedy star tries the longest run first, a lazy
    star the shortest, and a search returns the match at the leftmost start.
    Every star of the source's patterns ranges over a character class, so
    stars take a class. *)

Module Re.

Inductive regex : Type :=
| Eps
| Chr (p : ascii -> bool)
| Seq (r1 r2 : regex)
| Alt (r1 r2 : regex)
| Star (p : ascii -> bool)
| LazyStar (p : ascii -> bool)
| Group (i : nat) (r : regex)
| Ahead (r : regex)
| EndZ
| EndDollar.

(** [p+] and [r?] *)
Definition Plus (p : ascii -> bool) : regex := Seq (Chr p) (Star p).
Definition Opt (r : regex) : regex := Alt r Eps.

Definition newline : ascii := "010"%char.

(** Character classes. Under [re.IGNORECASE] a literal letter matches both
    of its cases. *)
Definition any (c : ascii) : bool := true.
Definition is_chr (c x : ascii) : bool := bool_decide (x = c).
Definition ci (c x : ascii) : bool := bool_decide (Py.lower_char x = Py.lower_char c).

(** A literal text, matched without regard to case. *)
Fixpoint lit_i (s : string) : regex :=
  match s with
  | EmptyString => Eps
  | String c s' => Seq (Chr (ci c)) (lit_i s')
  end.

(** The texts captured by the groups that took part in a match. *)
Definition groups : Type := gmap nat string.

Fixpoint star_greedy {R} (p : ascii -> bool) (s : string)
    (k : string -> option R) : option R :=
  match s with
  | String c s' =>
      if p c
      then match star_greedy p s' k with
           | Some x => Some x
           | None => k s
           end
      else k s
  | EmptyString => k s
  end.

Fixpoint star_lazy {R} (p : ascii -> bool) (s : string)
    (k : string -> option R) : option R :=
  match k s with
  | Some x => Some x
  | None =>
      match s with
      | String c s' => if p c then star_lazy p s' k else None
      | EmptyString => None
      end
  end.

(** [run r s g k]: match [r] at the head of [s], then continue with [k] on
    what is left; [None] makes the matcher backtrack. *)
Fixpoint run {R} (r : regex) (s : string) (g : groups)
    (k : string -> groups -> option R) : option R :=
  match r with
  | Eps => k s g
  | Chr p =>
      match s with
      | String c s' => if p c then k s' g else None
      | EmptyString => None
      end
  | Seq r1 r2 => run r1 s g (fun s1 g1 => run r2 s1 g1 k)
  | Alt r1 r2 =>
      match run r1 s g k with
      | Some x => Some x
      | None => run r2 s g k
      end
  | Star p => star_greedy p s (fun s1 => k s1 g)
  | LazyStar p => star_lazy p s (fun s1 => k s1 g)
  | Group i r1 =>
      run r1 s g (fun s1 g1 =>
        k s1 (<[i := Py.take (String.length s - String.length s1) s]> g1))
  | Ahead r1 =>
      match run r1 s g (fun _ g1 => Some g1) with
      | Some g1 => k s g1
      | None => None
      end
  | EndZ =>
      match s with
      | EmptyString => k s g
      | _ => None
      end
  | EndDollar =>
      match s with
      | EmptyString => k s g
      | String c EmptyString => if is_chr newline c then k s g else None
      | _ => None
      end
  end.

(** A match: where it starts, how many characters it spans, its groups. *)
Record rmatch : Type := { m_start : nat; m_len : nat; m_groups : groups }.

(** [pattern.match(s)]: a match at the head of [s]. *)
Definition match_here (r : regex) (s : string) : option (nat * groups) :=
  run r s ∅ (fun s1 g => Some ((String.length s - String.length s1)%nat, g)).

(** [re.search(pattern, s)] *)
Fixpoint search_from (r : regex) (s : string) (pos : nat) : option rmatch :=
  match match_here r s with
  | Some (n, g) => Some {| m_start := pos; m_len := n; m_groups := g |}
  | None =>
      match s with
      | String _ s' => search_from r s' (S pos)
      | EmptyString => None
      end
  end.
Definition search (r : regex) (s : string) : option rmatch := search_from r s 0.

(** [m.group(i)] of a group that took part in the match. *)
Definition group (m : rmatch) (i : nat) : string := default EmptyString (m_groups m !! i).

(** [re.findall(pattern, s)] for a pattern with one group: the text of group
    1 of each match, the matches found left to right without overlap.
    [skip] counts the characters of the last match still to pass. *)
Fixpoint findall_from (r : regex) (s : string) (skip : nat) : list string :=
  match skip with
  | S n =>
      match s with
      | String _ s' => findall_from r s' n
      | EmptyString => []
      end
  | O =>
      match match_here r s with
      | Some (n, g) =>
          default EmptyString (g !! 1%nat) ::
          match s with
          | String _ s' => findall_from r s' (n - 1)
          | EmptyString => []
          end
      | None =>
          match s with
          | String _ s' => findall_from r s' 0
          | EmptyString => []
          end
      end
  end.
Definition findall (r : regex) (s : string) : list string := findall_from r s 0.

(** [re.split(pattern, s)] for a pattern that matches one character of a
    class: the pieces between the matching characters. *)
Fixpoint split_go (p : ascii -> bool) (cur : string) (s : string) : list string :=
  match s with
  | EmptyString => [String.rev cur]
  | String c s' =>
      if p c then String.rev cur :: split_go p EmptyString s'
      else split_go p (String c cur) s'
  end.
Definition split (p : ascii -> bool) (s : string) : list string :=
  split_go p EmptyString s.

End Re.

(** ** [agent/tools/sqlite_tool.py] *)

Module SQLiteTool.

(** The classes [[A-Za-z_]] and [[A-Za-z0-9_ ]] of the pattern: the second
    one holds the space. *)
Definition ident_start (c : ascii) : bool :=
  Py.is_upper c || Py.is_lower c || Re.is_chr "_"%char c.
Definition ident_rest (c : ascii) : bool :=
  Py.is_upper c || Py.is_lower c || Py.is_digit c || Re.is_chr "_"%char c || Re.is_chr " "%char c.

(** The pattern of [extract_tables_used], used with [re.IGNORECASE]: the
    keyword FROM or JOIN, then [\s+], then group 1, which is one character
    of the first class followed by a greedy star of the second class. *)
Definition pattern : Re.regex :=
  Re.Seq (Re.Alt (Re.lit_i "FROM") (Re.lit_i "JOIN"))
    (Re.Seq (Re.Plus Py.isspace)
       (Re.Group 1 (Re.Seq (Re.Chr ident_start) (Re.Star ident_rest)))).

Definition dquote : string := String "034"%char EmptyString.

(** [extract_tables_used]: [list(set(cleaned))] has no defined order, so the
    result is the set itself. *)
Definition extract_tables_used (query : string) : gset string :=
  let matches := Re.findall pattern query in
  let cleaned := map (fun m => Py.remove dquote (Py.strip m)) matches in
  list_to_set cleaned.

(** A result row, and what the database gives once [cur.execute(query)]
    has returned: the names of [cur.description], which is [None] for a
    statement that returns no rows; what [cur.fetchall()] does; and what
    [conn.commit()] followed by [conn.close()] does. Each call can raise
    by itself. *)
Definition row : Type := list pyvalue.
Record cursor : Type := {
  description : option (list string);
  fetchall : outcome (list row);
  commit : outcome unit
}.

(** The dictionary [run_sql] returns. *)
Record sql_result : Type := {
  r_columns : list string;
  r_rows : list row;
  r_tables_used : gset string;
  r_error : option string
}.

Definition set_r_columns (v : list string) (result : sql_result) : sql_result :=
  {| r_columns := v; r_rows := r_rows result;
     r_tables_used := r_tables_used result; r_error := r_error result |}.
Definition set_r_rows (v : list row) (result : sql_result) : sql_result :=
  {| r_columns := r_columns result; r_rows := v;
     r_tables_used := r_tables_used result; r_error := r_error result |}.
Definition set_r_error (v : option string) (result : sql_result) : sql_result :=
  {| r_columns := r_columns result; r_rows := r_rows result;
     r_tables_used := r_tables_used result; r_error := v |}.

(** What iterating over [None] raises. *)
Definition not_iterable : string := "'NoneType' object is not iterable".

(** [run_sql]: [engine query] stands for connecting, taking a cursor and
    executing the statement. The [except] clause stores the message of
    whatever the [try] block raises; what the block has assigned before
    stays in the result, next to the error. *)
Definition commit_and_close (cur : cursor) (result : sql_result) : sql_result :=
  match commit cur with
  | Returned _ => result
  | Raised e => set_r_error (Some e) result
  end.

Definition run_sql (engine : string -> outcome cursor) (query : string) : sql_result :=
  let result := {| r_columns := []; r_rows := [];
                   r_tables_used := extract_tables_used query;
                   r_error := None |} in
  match engine query with
  | Raised e => set_r_error (Some e) result
  | Returned cur =>
      if Py.startswith "select" (Py.lower (Py.strip query))
      then
        match description cur with
        | None => set_r_error (Some not_iterable) result
        | Some columns =>
            let result := set_r_columns columns result in
            match fetchall cur with
            | Raised e => set_r_error (Some e) result
            | Returned rows => commit_and_close cur (set_r_rows rows result)
            end
        end
      else commit_and_close cur result
  end.

End SQLiteTool.

(** ** [agent/rag/retrieval.py] *)

Module Retrieval.

(** An indexed chunk and a retrieved one (the dictionaries of the source). *)
Record Chunk : Type := { c_id : string; c_text : string; c_source : string }.
Record RetrievedChunk : Type := {
  id : string; text : string; score : float; source : string
}.

(** The scoring libraries, as far as [retrieve] depends on them.
    - [bm25_doc_score corpus tokens i]: entry [i] of rank_bm25's
      [get_scores(tokens)] for the index built over [corpus];
    - [tfidf_fit texts]: scikit-learn's [fit_transform], which raises on a
      collection without vocabulary;
    - [tfidf_similarity texts query i]: entry [i] of the product of the
      fitted matrix with the transformed query. *)
Class ScoringLibs : Type := {
  bm25_doc_score : list (list string) -> list string -> nat -> float;
  tfidf_fit : list string -> outcome unit;
  tfidf_similarity : list string -> string -> nat -> float
}.

(** numpy's order on float64, by which it sorts: [a] comes before [b]
    when [a < b], or when [b] is a NaN and [a] is not. *)
Definition np_lt (a b : float) : bool :=
  (a <? b)%float || (PrimFloat.is_nan b && negb (PrimFloat.is_nan a)).

(** numpy's [argsort] with its default kind: the indices that put the
    array in ascending order. The default kind promises no order among
    equal entries, so only this much is required of it. *)
Definition ascending (a : list float) (i j : nat) : Prop :=
  np_lt (nth j a 0%float) (nth i a 0%float) = false.

Class ArgSort : Type := {
  argsort : list float -> list nat;
  argsort_perm : forall a, Permutation (argsort a) (seq 0 (length a));
  argsort_sorted : forall a, StronglySorted (ascending a) (argsort a)
}.

(** An [argsort] that is stable, as numpy's is on short arrays (runs of at
    most 16 entries are sorted by insertion): the index [i] is put before
    the first index whose entry is greater. *)
Fixpoint insert_index (a : list float) (i : nat) (sorted : list nat) : list nat :=
  match sorted with
  | [] => [i]
  | j :: rest =>
      if np_lt (nth i a 0%float) (nth j a 0%float)
      then i :: sorted
      else j :: insert_index a i rest
  end.
Definition stable_argsort (a : list float) : list nat :=
  fold_left (fun sorted i => insert_index a i sorted) (seq 0 (length a)) [].

Definition double_newline : string := String Re.newline (String Re.newline EmptyString).

(** [_load_docs]: [listing] is the directory listing, each name with the
    content of its file. *)
Definition paragraphs (content : string) : list string :=
  filter (fun p => Is_true (Py.truthy p)) (map Py.strip (Py.split double_newline content)).

Definition file_chunks (filename content : string) : list Chunk :=
  imap (fun i paragraph =>
          {| c_id := Py.remove ".md" filename +:+ "::chunk" +:+ pretty i;
             c_text := paragraph;
             c_source := filename |})
       (paragraphs content).

Definition _load_docs (listing : list (string * string)) : list Chunk :=
  flat_map (fun entry =>
              if Py.endswith ".md" entry.1 then file_chunks entry.1 entry.2 else [])
           listing.

(** rank_bm25's index, as far as [retrieve] reads it. Its constructor
    ends [_initialize] with [self.avgdl = num_doc / self.corpus_size] and
    [_calc_idf] with [self.average_idf = idf_sum / len(self.idf)], which
    raise when the divisor is 0: over no document, and over documents
    without a token. *)
Record BM25Okapi : Type := {
  corpus_size : nat;
  corpus : list (list string)
}.

Definition BM25Okapi_init (tokenized : list (list string)) : outcome BM25Okapi :=
  let size := length tokenized in
  if (size =? 0)%nat then Raised "division by zero"
  else if forallb (fun d => (length d =? 0)%nat) tokenized then Raised "division by zero"
  else Returned {| corpus_size := size; corpus := tokenized |}.

(** The retriever once [__init__] is through. *)
Record LocalDocRetriever : Type := {
  chunks : list Chunk;
  tokenized_chunks : list (list string);
  bm25 : BM25Okapi;
  tfidf : list string
}.

Definition _build_indexes {libs : ScoringLibs} (chks : list Chunk) : outcome LocalDocRetriever :=
  let tokenized := map (fun chunk => Py.split_ws (Py.lower (c_text chunk))) chks in
  match BM25Okapi_init tokenized with
  | Raised e => Raised e
  | Returned index =>
      let texts := map c_text chks in
      match tfidf_fit texts with
      | Raised e => Raised e
      | Returned _ =>
          Returned {| chunks := chks; tokenized_chunks := tokenized;
                      bm25 := index; tfidf := texts |}
      end
  end.

Definition __init__ {libs : ScoringLibs} (listing : list (string * string)) : outcome LocalDocRetriever :=
  _build_indexes (_load_docs listing).

(** [self.bm25.get_scores(query_tokens)]: one entry per indexed document. *)
Definition get_scores {libs : ScoringLibs} (index : BM25Okapi) (query_tokens : list string) : list float :=
  map (bm25_doc_score (corpus index) query_tokens) (seq 0 (corpus_size index)).

(** [(self.tfidf @ tfidf_query.T).toarray().squeeze()]: one entry per text. *)
Definition tfidf_scores {libs : ScoringLibs} (texts : list string) (query : string) : list float :=
  map (tfidf_similarity texts query) (seq 0 (length texts)).

(** [0.7 * bm25_scores + 0.3 * tfidf_scores], entry by entry: two
    products and a sum, each rounded to binary64. *)
Definition combine (bm25_scores tfidf_scores : list float) : list float :=
  zip_with (fun b t => 0.7 * b + 0.3 * t)%float bm25_scores tfidf_scores.

Definition combined_scores {libs : ScoringLibs} (r : LocalDocRetriever) (query : string) : list float :=
  let query_tokens := Py.split_ws (Py.lower query) in
  combine (get_scores (bm25 r) query_tokens) (tfidf_scores (tfidf r) query).

(** One result of the loop over [top_idx]; [None] is an index out of range. *)
Definition result_at (r : LocalDocRetriever) (combined : list float) (idx : nat)
  : option RetrievedChunk :=
  match chunks r !! idx, combined !! idx with
  | Some c, Some sc =>
      Some {| id := c_id c; text := c_text c; score := sc; source := c_source c |}
  | _, _ => None
  end.

(** [top_idx = combined.argsort()[::-1][:k]] *)
Definition top_idx {sorter : ArgSort} {libs : ScoringLibs}
    (r : LocalDocRetriever) (query : string) (k : Z) : list nat :=
  Py.slice_to k (rev (argsort (combined_scores r query))).

(** [retrieve]: one result per index of [top_idx]. *)
Definition retrieve {sorter : ArgSort} {libs : ScoringLibs}
    (r : LocalDocRetriever) (query : string) (k : Z) : option (list RetrievedChunk) :=
  mapM (result_at r (combined_scores r query)) (top_idx r query k).

(** Building the retriever and asking it once, as the module does on import
    and [node_retrieve] on each question. *)
Definition build_and_retrieve {sorter : ArgSort} {libs : ScoringLibs}
    (listing : list (string * string)) (query : string) (k : Z)
  : outcome (list RetrievedChunk) :=
  match __init__ listing with
  | Raised e => Raised e
  | Returned r =>
      match retrieve r query k with
      | Some results => Returned results
      | None => Raised "index out of range"
      end
  end.

End Retrieval.

(** ** [agent/dspy_signatures.py]: what [basic_request] does with the text
    of a completion *)

Module Normalizer.

(** What a parser makes of a text: a mapping, or some other value. *)
Inductive parsed_value : Type :=
| ParsedDict (d : gmap string pyvalue)
| ParsedOther (v : pyvalue).

(** The parsers and printers of the Python library: [json.loads] and
    [ast.literal_eval] ([None] when they raise), and [repr], which is what
    [str] gives for a value that is not a [str]. *)
Class Parsers : Type := {
  json_loads : string -> option parsed_value;
  literal_eval : string -> option parsed_value;
  repr : pyvalue -> string
}.

(** What [basic_request] returns: the text of [json.dumps] of a mapping,
    kept as the mapping, or a text as it is. *)
Inductive completion : Type :=
| Json (fields : gmap string pyvalue)
| Raw (text : string).

(** [json.dumps] raises on a value it cannot serialise. *)
Fixpoint serialisable (v : pyvalue) : bool :=
  match v with
  | POpaque _ => false
  | PList l => forallb serialisable l
  | PDict d => forallb (fun kv => match kv with (_, x) => serialisable x end) d
  | _ => true
  end.
Definition dumps_ok (d : gmap string pyvalue) : bool :=
  forallb (fun kv => serialisable kv.2) (map_to_list d).

Definition str {parsers : Parsers} (v : pyvalue) : string :=
  match v with
  | PStr s => s
  | _ => repr v
  end.

(** [key in d] *)
Definition has_key (d : gmap string pyvalue) (key : string) : bool :=
  bool_decide (is_Some (d !! key)).

(** [d[key] = v] unless [key] is in [d]. *)
Definition setdefault (key : string) (v : pyvalue) (d : gmap string pyvalue)
  : gmap string pyvalue :=
  if has_key d key then d else <[key := v]> d.

(** Lines 73-85: the text is parsed only when it starts with a brace. *)
Definition parse {parsers : Parsers} (text : string) : option parsed_value :=
  if Py.startswith "{" (Py.strip text)
  then match json_loads text with
       | Some v => Some v
       | None => literal_eval text
       end
  else None.

Definition wanted : list string := ["final_answer"; "explanation"; "citations"; "sql"].

(** Lines 88-109: a parsed mapping either gives the text to go on with
    (its [text] entry), or is returned with its missing fields filled in,
    or is dropped. *)
Definition from_parsed (parsed : option parsed_value) (text : string)
  : completion + string :=
  match parsed with
  | Some (ParsedDict d) =>
      match d !! "text" with
      | Some (PStr t) => inr t
      | _ =>
          if existsb (has_key d) wanted
          then
            let d1 := setdefault "final_answer" (default (PStr EmptyString) (d !! "sql")) d in
            let d2 := setdefault "explanation" (PStr EmptyString) d1 in
            let d3 := setdefault "citations" (PList []) d2 in
            if dumps_ok d3 then inl (Json d3) else inr text
          else inr text
      end
  | _ => inr text
  end.

(** Lines 112-117: a text that opens with a fence and has a second one is
    replaced by [parts[2]], the part after the second fence, cut at its
    last fence and stripped. *)
Definition fence : string := "```".

Definition strip_fence (text : string) : string :=
  if Py.startswith fence text && Py.contains fence (Py.drop 3 text)
  then
    let parts := Py.split_max fence text 2 in
    if (3 <=? length parts)%nat
    then match parts !! 2%nat with
         | Some inner => Py.strip (Py.rsplit1_head fence inner)
         | None => text
         end
    else text
  else text.

(** Lines 123-128: the marker pattern of [extract_marker], compiled with
    [re.S | re.I]: [\[+], [\s*], [##], [\s*], the field name, [\s*],
    [##], [\s*], [\]+], [\s*], group 1 a lazy star of any character, and a
    look-ahead for a newline and a bracket, or the end of the text. *)
Definition newline_bracket : string := String Re.newline "[".

Definition marker_pattern (field_name : string) : Re.regex :=
  Re.Seq (Re.Plus (Re.is_chr "["%char))
  (Re.Seq (Re.Star Py.isspace)
  (Re.Seq (Re.lit_i "##")
  (Re.Seq (Re.Star Py.isspace)
  (Re.Seq (Re.lit_i field_name)
  (Re.Seq (Re.Star Py.isspace)
  (Re.Seq (Re.lit_i "##")
  (Re.Seq (Re.Star Py.isspace)
  (Re.Seq (Re.Plus (Re.is_chr "]"%char))
  (Re.Seq (Re.Star Py.isspace)
  (Re.Seq (Re.Group 1 (Re.LazyStar Re.any))
          (Re.Ahead (Re.Group 2 (Re.Alt (Re.lit_i newline_bracket) Re.EndZ))))))))))))).

Definition extract_marker (field_name txt : string) : option string :=
  match Re.search (marker_pattern field_name) txt with
  | Some m => Some (Py.strip (Re.group m 1))
  | None => None
  end.

(** Lines 130-133 *)
Definition add_marker (text : string) (out : gmap string pyvalue) (fld : string)
  : gmap string pyvalue :=
  match extract_marker fld text with
  | Some val => if Py.truthy val then <[fld := PStr val]> out else out
  | None => out
  end.

Definition markers (text : string) : gmap string pyvalue :=
  foldl (add_marker text) ∅ wanted.

(** Lines 136-152: the heading patterns, compiled with [re.I | re.S]. Each
    ends with group 1, a lazy star of any character, and group 2: [$], or
    two newlines, or a newline and a bracket. *)
Definition heading_tail : Re.regex :=
  Re.Seq (Re.Star Py.isspace)
  (Re.Seq (Re.Group 1 (Re.LazyStar Re.any))
          (Re.Group 2 (Re.Alt Re.EndDollar
                      (Re.Alt (Re.lit_i Retrieval.double_newline)
                              (Re.lit_i newline_bracket))))).

Definition final_answer_heading : Re.regex :=
  Re.Seq (Re.lit_i "Final Answer:") heading_tail.

Definition explanation_heading : Re.regex :=
  Re.Seq (Re.lit_i "Explanation")
  (Re.Seq (Re.Opt (Re.Chr (fun c => Re.is_chr ":"%char c || Re.is_chr "-"%char c)))
          heading_tail).

Definition citations_heading : Re.regex :=
  Re.Seq (Re.lit_i "Citation")
  (Re.Seq (Re.Opt (Re.Chr (Re.ci "s"%char)))
  (Re.Seq (Re.Chr (Re.is_chr ":"%char)) heading_tail)).

Definition heading (pattern : Re.regex) (text : string) : option string :=
  match Re.search pattern text with
  | Some m => Some (Py.strip (Re.group m 1))
  | None => None
  end.

(** The items of a citations text: it is split at newlines, semicolons and
    commas, and the stripped pieces that are not empty are kept. *)
Definition citation_items (ctext : string) : list string :=
  let pieces :=
    Re.split (fun c => Re.is_chr Re.newline c || Re.is_chr ";"%char c || Re.is_chr ","%char c)
             ctext in
  let items := filter (fun ln => Is_true (Py.truthy ln)) (map Py.strip pieces) in
  if Py.truthy_list items then items else [ctext].

Definition headings (text : string) (out : gmap string pyvalue) : gmap string pyvalue :=
  let out1 :=
    if has_key out "final_answer" then out
    else match heading final_answer_heading text with
         | Some v => <["final_answer" := PStr v]> out
         | None => out
         end in
  let out2 :=
    if has_key out1 "explanation" then out1
    else match heading explanation_heading text with
         | Some v => <["explanation" := PStr v]> out1
         | None => out1
         end in
  if has_key out2 "citations" then out2
  else match heading citations_heading text with
       | Some ctext => <["citations" := PList (map PStr (citation_items ctext))]> out2
       | None => out2
       end.

(** Lines 155-163 *)
Definition keywords : list string :=
  ["SELECT"; "WITH"; "INSERT"; "UPDATE"; "DELETE"; "CREATE"].

Definition sql_like (text : string) : bool :=
  match Py.split_ws (Py.strip text) with
  | first :: _ => bool_decide (Py.upper first ∈ keywords)
  | [] => false
  end.

Definition sniff (text : string) (out : gmap string pyvalue) : gmap string pyvalue :=
  if sql_like text && negb (has_key out "sql")
  then <["sql" := PStr (Py.strip text)]> out
  else out.

(** The fields extracted from a text: markers, then headings, then the
    leading keyword. *)
Definition extract (text : string) : gmap string pyvalue :=
  sniff text (headings text (markers text)).

(** Lines 171-180: the route is the first of rag, sql, hybrid found in the
    first candidate field that holds one. *)
Definition route_types : list string := ["rag"; "sql"; "hybrid"].

Definition route_in (val : string) : option string :=
  List.find (fun route_type => Py.contains route_type val) route_types.

Fixpoint infer_route {parsers : Parsers} (candidates : list string) (mapped : gmap string pyvalue)
  : gmap string pyvalue :=
  match candidates with
  | [] => mapped
  | candidate_key :: rest =>
      match mapped !! candidate_key with
      | Some v =>
          match route_in (Py.lower (str v)) with
          | Some route_type => <["route" := PStr route_type]> mapped
          | None => infer_route rest mapped
          end
      | None => infer_route rest mapped
      end
  end.

(** Lines 182-186 *)
Fixpoint infer_sql {parsers : Parsers} (candidates : list string) (mapped : gmap string pyvalue)
  : gmap string pyvalue :=
  match candidates with
  | [] => mapped
  | candidate_key :: rest =>
      match mapped !! candidate_key with
      | Some v =>
          if Py.contains "select" (Py.lower (str v))
          then <["sql" := v]> mapped
          else infer_sql rest mapped
      | None => infer_sql rest mapped
      end
  end.

(** Lines 166-202 *)
Definition fill {parsers : Parsers} (text : string) (out : gmap string pyvalue)
  : gmap string pyvalue :=
  let mapped := out in
  let mapped :=
    if has_key mapped "route" then mapped
    else infer_route ["explanation"; "final_answer"; "plan"] mapped in
  let mapped :=
    if has_key mapped "sql" then mapped
    else infer_sql ["explanation"; "final_answer"] mapped in
  let mapped :=
    setdefault "final_answer"
      (default (default (PStr (Py.take 200 (Py.strip text))) (mapped !! "explanation"))
               (mapped !! "sql"))
      mapped in
  let mapped := setdefault "explanation" (PStr EmptyString) mapped in
  let mapped := setdefault "citations" (PList []) mapped in
  let mapped := setdefault "route" (PStr "hybrid") mapped in
  let mapped := setdefault "sql" (PStr EmptyString) mapped in
  setdefault "plan" (PDict []) mapped.

(** Lines 72-205 of [basic_request], from the text of the response on. *)
Definition normalize {parsers : Parsers} (response_text : string) : completion :=
  match from_parsed (parse response_text) response_text with
  | inl result => result
  | inr text =>
      let text := strip_fence text in
      let out := extract text in
      if bool_decide (out = ∅) then Raw text else Json (fill text out)
  end.

End Normalizer.

(** ** [agent/graph_hybrid.py] *)

Module Workflow.

(** The value under [sql_result]: the empty dictionary of the input, a
    dictionary with an error only, or what [run_sql] returned. *)
Inductive sql_result_value : Type :=
| NoResult
| ErrorOnly (msg : string)
| RunResult (r : SQLiteTool.sql_result).

(** [AgentState]: [run_hybrid_agent] gives every key a value, so a record. *)
Record AgentState : Type := {
  question : string;
  format_hint : string;
  route : string;
  retrieved_docs : list Retrieval.RetrievedChunk;
  plan : pyvalue;
  sql : string;
  sql_result : sql_result_value;
  rows : list SQLiteTool.row;
  columns : list string;
  tables_used : gset string;
  error : option string;
  citations : pyvalue;
  final_answer : string;
  explanation : string;
  repairs : Z
}.

(** [state[key] = v], one definition per key that some node assigns. *)
Definition set_route (v : string) (state : AgentState) : AgentState :=
  {| question := question state;
     format_hint := format_hint state;
     route := v;
     retrieved_docs := retrieved_docs state;
     plan := plan state;
     sql := sql state;
     sql_result := sql_result state;
     rows := rows state;
     columns := columns state;
     tables_used := tables_used state;
     error := error state;
     citations := citations state;
     final_answer := final_answer state;
     explanation := explanation state;
     repairs := repairs state |}.
Definition set_retrieved_docs (v : list Retrieval.RetrievedChunk) (state : AgentState) : AgentState :=
  {| question := question state;
     format_hint := format_hint state;
     route := route state;
     retrieved_docs := v;
     plan := plan state;
     sql := sql state;
     sql_result := sql_result state;
     rows := rows state;
     columns := columns state;
     tables_used := tables_used state;
     error := error state;
     citations := citations state;
     final_answer := final_answer state;
     explanation := explanation state;
     repairs := repairs state |}.
Definition set_plan (v : pyvalue) (state : AgentState) : AgentState :=
  {| question := question state;
     format_hint := format_hint state;
     route := route state;
     retrieved_docs := retrieved_docs state;
     plan := v;
     sql := sql state;
     sql_result := sql_result state;
     rows := rows state;
     columns := columns state;
     tables_used := tables_used state;
     error := error state;
     citations := citations state;
     final_answer := final_answer state;
     explanation := explanation state;
     repairs := repairs state |}.
Definition set_sql (v : string) (state : AgentState) : AgentState :=
  {| question := question state;
     format_hint := format_hint state;
     route := route state;
     retrieved_docs := retrieved_docs state;
     plan := plan state;
     sql := v;
     sql_result := sql_result state;
     rows := rows state;
     columns := columns state;
     tables_used := tables_used state;
     error := error state;
     citations := citations state;
     final_answer := final_answer state;
     explanation := explanation state;
     repairs := repairs state |}.
Definition set_sql_result (v : sql_result_value) (state : AgentState) : AgentState :=
  {| question := question state;
     format_hint := format_hint state;
     route := route state;
     retrieved_docs := retrieved_docs state;
     plan := plan state;
     sql := sql state;
     sql_result := v;
     rows := rows state;
     columns := columns state;
     tables_used := tables_used state;
     error := error state;
     citations := citations state;
     final_answer := final_answer state;
     explanation := explanation state;
     repairs := repairs state |}.
Definition set_rows (v : list SQLiteTool.row) (state : AgentState) : AgentState :=
  {| question := question state;
     format_hint := format_hint state;
     route := route state;
     retrieved_docs := retrieved_docs state;
     plan := plan state;
     sql := sql state;
     sql_result := sql_result state;
     rows := v;
     columns := columns state;
     tables_used := tables_used state;
     error := error state;
     citations := citations state;
     final_answer := final_answer state;
     explanation := explanation state;
     repairs := repairs state |}.
Definition set_columns (v : list string) (state : AgentState) : AgentState :=
  {| question := question state;
     format_hint := format_hint state;
     route := route state;
     retrieved_docs := retrieved_docs state;
     plan := plan state;
     sql := sql state;
     sql_result := sql_result state;
     rows := rows state;
     columns := v;
     tables_used := tables_used state;
     error := error state;
     citations := citations state;
     final_answer := final_answer state;
     explanation := explanation state;
     repairs := repairs state |}.
Definition set_tables_used (v : gset string) (state : AgentState) : AgentState :=
  {| question := question state;
     format_hint := format_hint state;
     route := route state;
     retrieved_docs := retrieved_docs state;
     plan := plan state;
     sql := sql state;
     sql_result := sql_result state;
     rows := rows state;
     columns := columns state;
     tables_used := v;
     error := error state;
     citations := citations state;
     final_answer := final_answer state;
     explanation := explanation state;
     repairs := repairs state |}.
Definition set_error (v : option string) (state : AgentState) : AgentState :=
  {| question := question state;
     format_hint := format_hint state;
     route := route state;
     retrieved_docs := retrieved_docs state;
     plan := plan state;
     sql := sql state;
     sql_result := sql_result state;
     rows := rows state;
     columns := columns state;
     tables_used := tables_used state;
     error := v;
     citations := citations state;
     final_answer := final_answer state;
     explanation := explanation state;
     repairs := repairs state |}.
Definition set_citations (v : pyvalue) (state : AgentState) : AgentState :=
  {| question := question state;
     format_hint := format_hint state;
     route := route state;
     retrieved_docs := retrieved_docs state;
     plan := plan state;
     sql := sql state;
     sql_result := sql_result state;
     rows := rows state;
     columns := columns state;
     tables_used := tables_used state;
     error := error state;
     citations := v;
     final_answer := final_answer state;
     explanation := explanation state;
     repairs := repairs state |}.
Definition set_final_answer (v : string) (state : AgentState) : AgentState :=
  {| question := question state;
     format_hint := format_hint state;
     route := route state;
     retrieved_docs := retrieved_docs state;
     plan := plan state;
     sql := sql state;
     sql_result := sql_result state;
     rows := rows state;
     columns := columns state;
     tables_used := tables_used state;
     error := error state;
     citations := citations state;
     final_answer := v;
     explanation := explanation state;
     repairs := repairs state |}.
Definition set_explanation (v : string) (state : AgentState) : AgentState :=
  {| question := question state;
     format_hint := format_hint state;
     route := route state;
     retrieved_docs := retrieved_docs state;
     plan := plan state;
     sql := sql state;
     sql_result := sql_result state;
     rows := rows state;
     columns := columns state;
     tables_used := tables_used state;
     error := error state;
     citations := citations state;
     final_answer := final_answer state;
     explanation := v;
     repairs := repairs state |}.
Definition set_repairs (v : Z) (state : AgentState) : AgentState :=
  {| question := question state;
     format_hint := format_hint state;
     route := route state;
     retrieved_docs := retrieved_docs state;
     plan := plan state;
     sql := sql state;
     sql_result := sql_result state;
     rows := rows state;
     columns := columns state;
     tables_used := tables_used state;
     error := error state;
     citations := citations state;
     final_answer := final_answer state;
     explanation := explanation state;
     repairs := v |}.

(** What the language-model modules give back. A prediction is known by
    its attributes, each present or not; [None] for the whole prediction
    is Python's [None]. *)
Record synth_prediction : Type := {
  p_final_answer : option string;
  p_explanation : option string;
  p_citations : option pyvalue
}.

(** The collaborators of the graph, as they answer during one step: the
    four language-model modules, the retriever, and the database (its
    schema snapshot and its engine). *)
Record Services : Type := {
  router : string -> outcome (option string);
  retriever_retrieve : string -> Z -> outcome (list Retrieval.RetrievedChunk);
  planner : string -> list Retrieval.RetrievedChunk -> outcome pyvalue;
  get_schema_snapshot : list (string * list string);
  nl2sql : string -> pyvalue -> list (string * list string) -> outcome (option (option string));
  engine : string -> outcome SQLiteTool.cursor;
  synth : AgentState -> outcome (option synth_prediction)
}.

(** [node_router] *)
Definition node_router (sv : Services) (state : AgentState) : AgentState :=
  let q := question state in
  match router sv q with
  | Returned out =>
      let route := Py.getattr out "hybrid" in
      if Py.truthy route
      then set_route (Py.lower (Py.strip route)) state
      else set_route "hybrid" state
  | Raised e =>
      set_error (Some ("Router failed: " +:+ Py.take 100 e)) (set_route "hybrid" state)
  end.

(** [node_retrieve]: nothing catches what the retriever raises. *)
Definition node_retrieve (sv : Services) (state : AgentState) : outcome AgentState :=
  let k := 6 in
  let q := question state in
  match retriever_retrieve sv q k with
  | Returned docs => Returned (set_retrieved_docs docs state)
  | Raised e => Raised e
  end.

(** [node_planner]: nothing catches what the planner raises. *)
Definition node_planner (sv : Services) (state : AgentState) : outcome AgentState :=
  let q := question state in
  let docs := retrieved_docs state in
  match planner sv q docs with
  | Returned plan_out => Returned (set_plan plan_out state)
  | Raised e => Raised e
  end.

(** [node_sqlgen] *)
Definition node_sqlgen (sv : Services) (state : AgentState) : AgentState :=
  let q := question state in
  let plan := plan state in
  let schema := get_schema_snapshot sv in
  match nl2sql sv q plan schema with
  | Raised e =>
      set_error (Some e)
        (set_sql_result (ErrorOnly ("NL2SQL call failed: " +:+ e))
           (set_sql EmptyString state))
  | Returned None =>
      set_error (Some "NL2SQL produced no output")
        (set_sql_result (ErrorOnly "NL2SQL produced no output")
           (set_sql EmptyString state))
  | Returned (Some sql_attr) =>
      match sql_attr with
      | Some sql_text =>
          if Py.truthy sql_text
          then set_sql (Py.strip sql_text) state
          else
            set_error (Some "NL2SQL returned empty SQL")
              (set_sql_result (ErrorOnly "NL2SQL returned empty SQL")
                 (set_sql EmptyString state))
      | None =>
          set_error (Some "NL2SQL returned empty SQL")
            (set_sql_result (ErrorOnly "NL2SQL returned empty SQL")
               (set_sql EmptyString state))
      end
  end.

(** [node_sqlexec] *)
Definition node_sqlexec (sv : Services) (state : AgentState) : AgentState :=
  let query := sql state in
  if bool_decide (query = EmptyString)
  then set_sql_result (ErrorOnly "Empty SQL.") state
  else
    let result := SQLiteTool.run_sql (engine sv) query in
    set_error (SQLiteTool.r_error result)
      (set_tables_used (SQLiteTool.r_tables_used result)
         (set_columns (SQLiteTool.r_columns result)
            (set_rows (SQLiteTool.r_rows result)
               (set_sql_result (RunResult result) state)))).

(** [node_synthesize] *)
Definition node_synthesize (sv : Services) (state : AgentState) : AgentState :=
  match synth sv state with
  | Raised e =>
      set_error (Some e)
        (set_citations (PList [])
           (set_explanation "The synthesis step encountered an error."
              (set_final_answer ("Unable to synthesize answer: " +:+ Py.take 100 e) state)))
  | Returned None =>
      set_citations (PList [])
        (set_explanation EmptyString
           (set_final_answer "No synthesis output" state))
  | Returned (Some out) =>
      set_citations (Py.getattr (p_citations out) (PList []))
        (set_explanation (Py.getattr (p_explanation out) EmptyString)
           (set_final_answer (Py.getattr (p_final_answer out) EmptyString) state))
  end.

(** [node_validate_or_repair] *)
Definition node_validate_or_repair (state : AgentState) : AgentState :=
  let error := error state in
  if Py.truthy_opt error
  then
    if 2 <=? repairs state
    then state
    else
      let state := set_repairs (repairs state + 1) state in
      let new_state := state in
      set_sql EmptyString new_state
  else state.

(** [should_repair] *)
Definition should_repair (state : AgentState) : string :=
  if Py.truthy_opt (error state)
  then
    let repairs := repairs state in
    if repairs <? 2 then "repair" else "end"
  else "end".

(** [min(a, b)] on floats: [b] when it is the smaller one, else [a]. *)
Definition py_min (a b : float) : float :=
  if PrimFloat.ltb b a then b else a.

(** [compute_confidence] *)
Definition compute_confidence (state : AgentState) : float :=
  let conf := 0.1%float in
  let conf := if negb (Py.truthy_opt (error state)) then (conf + 0.4)%float else conf in
  let repairs := repairs state in
  let conf := if repairs =? 0 then (conf + 0.3)%float else conf in
  let docs := retrieved_docs state in
  let conf := if Py.truthy_list docs then (conf + 0.3)%float else conf in
  py_min conf 1.0%float.

(** [build_graph]: the nodes, the edges and the conditional edge after
    the synthesizer. *)
Inductive node : Type :=
| Router | Retrieve | Planner | SqlGen | SqlExec | Synthesize | Repair | END.

Definition conditional_edge (decision : string) : node :=
  if bool_decide (decision = "repair") then Repair else END.

(** A run is at a node with a state, or it was ended by an exception that
    no node caught. *)
Inductive config : Type :=
| At (n : node) (state : AgentState)
| Aborted (msg : string).

(** One step of the compiled graph: the node runs, the edge is taken. *)
Definition step (sv : Services) (c : config) : config :=
  match c with
  | At Router state => At Retrieve (node_router sv state)
  | At Retrieve state =>
      match node_retrieve sv state with
      | Returned state' => At Planner state'
      | Raised e => Aborted e
      end
  | At Planner state =>
      match node_planner sv state with
      | Returned state' => At SqlGen state'
      | Raised e => Aborted e
      end
  | At SqlGen state => At SqlExec (node_sqlgen sv state)
  | At SqlExec state => At Synthesize (node_sqlexec sv state)
  | At Synthesize state =>
      let state' := node_synthesize sv state in
      At (conditional_edge (should_repair state')) state'
  | At Repair state => At SqlGen (node_validate_or_repair state)
  | At END state => c
  | Aborted e => c
  end.

(** An execution: the collaborators may answer differently at each step,
    so a run takes their behaviour step by step. *)
Definition run (trace : list Services) (c : config) : config :=
  foldl (fun c sv => step sv c) c trace.

(** The input of [run_hybrid_agent]. *)
Definition inputs (question format_hint : string) : AgentState :=
  {| question := question; format_hint := format_hint; route := EmptyString;
     retrieved_docs := []; plan := PDict []; sql := EmptyString;
     sql_result := NoResult; rows := []; columns := []; tables_used := ∅;
     error := None; citations := PList []; final_answer := EmptyString;
     explanation := EmptyString; repairs := 0 |}.

Definition initial (question format_hint : string) : config :=
  At Router (inputs question format_hint).

(** The states an execution goes through. *)
Definition reachable (question format_hint : string) (c : config) : Prop :=
  exists trace, run trace (initial question format_hint) = c.

End Workflow.

(** ** [agent/tools/sqlite_tool.py]: schema introspection *)

Module SQLiteIntrospection.

(** What the database answers to the two introspection statements: the
    names in [sqlite_master], and for a table the column names of its
    [table_info]; each of them may raise. *)
Record database : Type := {
  master_tables : outcome (list string);
  table_info : string -> outcome (list string)
}.

(** [get_tables] *)
Definition get_tables (db : database) : list string :=
  match master_tables db with
  | Returned tables => tables
  | Raised _ => []
  end.

(** [get_table_columns] *)
Definition get_table_columns (db : database) (table : string) : list string :=
  match table_info db table with
  | Returned cols => cols
  | Raised _ => []
  end.

(** [get_schema_snapshot] *)
Definition get_schema_snapshot (db : database) : gmap string (list string) :=
  foldl (fun schema t => <[t := get_table_columns db t]> schema) ∅ (get_tables db).

End SQLiteIntrospection.

(** ** [agent/dspy_signatures.py]: the calls of [OllamaDSPyWrapper] *)

Module Ollama.

(** What the exchange with the service gives (lines 36-70 of
    [basic_request]): the text of the response, a read timeout, or any
    other exception. *)
Inductive reply : Type :=
| Text (text : string)
| ReadTimeout (e : string)
| Failed (e : string).

(** [basic_request] *)
Definition basic_request {parsers : Normalizer.Parsers}
    (service : string -> reply) (prompt : string) : outcome Normalizer.completion :=
  match service prompt with
  | Text text => Returned (Normalizer.normalize text)
  | ReadTimeout e => Raised ("Ollama read timeout: " +:+ e)
  | Failed e => Raised ("Ollama connection failed: " +:+ e)
  end.

(** A message of a chat: a dictionary, with or without the keys role and
    content, or some other value, known by its text. *)
Inductive message : Type :=
| RoleContent (role content : option string)
| Other (text : string).

Definition line_end : string := String Re.newline EmptyString.

(** The line that the loop of [__call__] adds for a message. *)
Definition message_line (msg : message) : string :=
  match msg with
  | RoleContent role content =>
      Py.upper (Py.getattr role EmptyString) +:+ ": "
        +:+ Py.getattr content EmptyString +:+ line_end
  | Other text => text +:+ line_end
  end.

Definition prompt_of_messages (messages : list message) : string :=
  foldl (fun prompt_text msg => prompt_text +:+ message_line msg) EmptyString messages.

(** [__call__] *)
Definition __call__ {parsers : Normalizer.Parsers} (service : string -> reply)
    (prompt : option string) (messages : list message)
  : outcome (list Normalizer.completion) :=
  let prompt :=
    if Py.truthy_list messages then Some (prompt_of_messages messages) else prompt in
  match prompt with
  | Some prompt_text =>
      if Py.truthy prompt_text
      then match basic_request service prompt_text with
           | Returned response_text => Returned [response_text]
           | Raised e => Raised e
           end
      else Raised "Either 'prompt' or 'messages' must be provided"
  | None => Raised "Either 'prompt' or 'messages' must be provided"
  end.

(** [forward] *)
Definition forward {parsers : Normalizer.Parsers} (service : string -> reply)
    (prompt : string) : outcome Normalizer.completion :=
  basic_request service prompt.

End Ollama.

(** ** [agent/graph_hybrid.py]: [run_hybrid_agent] *)

Module Agent.
Import Workflow.

(** The record that [run_hybrid_agent] returns. *)
Record final : Type := {
  f_id : pyvalue;
  f_final_answer : string;
  f_sql : string;
  f_confidence : float;
  f_explanation : string;
  f_citations : pyvalue
}.

(** LangGraph stops a run after this many steps (its default limit). *)
Definition recursion_limit : nat := 25.

(** [agent_graph.invoke]: the graph runs from the router until END;
    [answers i] is how the collaborators answer at step [i]. *)
Definition invoke (answers : nat -> Services) (inputs : AgentState) : outcome AgentState :=
  match run (map answers (seq 0 recursion_limit)) (At Router inputs) with
  | At END out => Returned out
  | At _ _ => Raised "GraphRecursionError"
  | Aborted e => Raised e
  end.

Definition final_of (out : AgentState) : final :=
  {| f_id := PStr EmptyString;
     f_final_answer := final_answer out;
     f_sql := sql out;
     f_confidence := compute_confidence out;
     f_explanation := explanation out;
     f_citations := citations out |}.

(** [run_hybrid_agent] *)
Definition run_hybrid_agent (answers : nat -> Services) (question format_hint : string)
  : outcome final :=
  match invoke answers (inputs question format_hint) with
  | Returned out => Returned (final_of out)
  | Raised e => Raised e
  end.

End Agent.

(** ** [run_agent_hybrid.py] *)

Module Driver.

(** A record of the batch, as far as [main] reads it: the values under
    id, question and format_hint, each present or not. *)
Record item : Type := {
  item_id : option pyvalue;
  item_question : option string;
  item_format_hint : option string
}.

(** What [json.loads] makes of a line: it raises, or gives a dictionary,
    or some other value. *)
Inductive parsed_line : Type :=
| Invalid
| Dict (it : item)
| NotDict.

(** The first loop of [main]: the lines that are not blank and parse to
    a dictionary. *)
Definition read_inputs (json_loads : string -> parsed_line) (lines : list string) : list item :=
  foldl (fun inputs line =>
           let line := Py.strip line in
           if Py.truthy line
           then match json_loads line with
                | Dict it => (inputs ++ [it])%list
                | _ => inputs
                end
           else inputs)
        [] lines.

Definition set_id (qid : pyvalue) (result : Agent.final) : Agent.final :=
  {| Agent.f_id := qid;
     Agent.f_final_answer := Agent.f_final_answer result;
     Agent.f_sql := Agent.f_sql result;
     Agent.f_confidence := Agent.f_confidence result;
     Agent.f_explanation := Agent.f_explanation result;
     Agent.f_citations := Agent.f_citations result |}.

(** The second loop of [main]: [agent question format_hint qid] is the
    call of [run_hybrid_agent] for one record, with the thread of [qid];
    an exception of a call ends the loop. *)
Fixpoint process (agent : string -> string -> pyvalue -> outcome Agent.final)
    (inputs : list item) (outputs : list Agent.final) : outcome (list Agent.final) :=
  match inputs with
  | [] => Returned outputs
  | it :: rest =>
      let qid := Py.getattr (item_id it) (PStr "unknown_id") in
      let question := item_question it in
      let format_hint := Py.getattr (item_format_hint it) "text" in
      match question with
      | Some q =>
          if Py.truthy q
          then match agent q format_hint qid with
               | Returned result => process agent rest ((outputs ++ [set_id qid result])%list)
               | Raised e => Raised e
               end
          else process agent rest outputs
      | None => process agent rest outputs
      end
  end.

(** [main] up to the point where it opens the output file: the records
    collected for it; [None] when [main] returns before that, for want
    of inputs. *)
Definition main (json_loads : string -> parsed_line)
    (agent : string -> string -> pyvalue -> outcome Agent.final)
    (lines : list string) : outcome (option (list Agent.final)) :=
  let inputs := read_inputs json_loads lines in
  if Py.truthy_list inputs
  then match process agent inputs [] with
       | Returned outputs => Returned (Some outputs)
       | Raised e => Raised e
       end
  else Returned None.

End Driver.

(** * Vocabulary of the properties and inputs of the examples *)

(** ** The SQL tool *)

Section SQLiteToolSpec.
Import SQLiteTool.

(** The scenario of the specification: a store with a Products table, on
    which the engine runs the statement and the cursor has one column and
    one row. *)
Definition products_query : string := "SELECT ProductName FROM Products LIMIT 1".

Definition products_engine (query : string) : outcome cursor :=
  Returned {| description := Some ["ProductName"];
              fetchall := Returned [[PStr "Chai"]];
              commit := Returned tt |}.

End SQLiteToolSpec.

(** ** The completion normalizer *)

Section NormalizerSpec.
Import Normalizer.
Context {parsers : Parsers}.

(** No candidate field holds a route type, resp. the word select. *)
Definition no_route_word (candidates : list string) (mapped : gmap string pyvalue) : Prop :=
  forall key v, In key candidates -> mapped !! key = Some v ->
    route_in (Py.lower (str v)) = None.

Definition no_select_word (candidates : list string) (mapped : gmap string pyvalue) : Prop :=
  forall key v, In key candidates -> mapped !! key = Some v ->
    Py.contains "select" (Py.lower (str v)) = false.

(** The extraction steps store under the four wanted keys only. *)
Definition keys_wanted (m : gmap string pyvalue) : Prop :=
  forall key, is_Some (m !! key) -> In key wanted.

(** A text in which nothing is recognised: no parsed mapping, and in the
    text that the fence step leaves, no marker, no heading and no leading
    query keyword. *)
Definition no_mapping (text : string) : Prop :=
  forall d, parse text <> Some (ParsedDict d).

Definition unrecognised (text : string) : Prop :=
  no_mapping text /\
  (forall fld, In fld wanted -> extract_marker fld (strip_fence text) = None) /\
  heading final_answer_heading (strip_fence text) = None /\
  heading explanation_heading (strip_fence text) = None /\
  heading citations_heading (strip_fence text) = None /\
  sql_like (strip_fence text) = false.

(** C8 as the specification states it: a text in which nothing is
    recognised gives a record with an empty sql and the route hybrid. *)
Definition defaults_when_unrecognised (text : string) : Prop :=
  unrecognised text ->
  exists fields, normalize text = Json fields /\
    fields !! "sql" = Some (PStr EmptyString) /\
    fields !! "route" = Some (PStr "hybrid").

End NormalizerSpec.

(** Parsers that reject every text. *)
Definition strict_parsers : Normalizer.Parsers :=
  {| Normalizer.json_loads := fun _ => None;
     Normalizer.literal_eval := fun _ => None;
     Normalizer.repr := fun _ => "?" |}.

(** ** The retriever *)

Section RetrievalSpec.
Import Retrieval.

(** The stable argsort is ascending in the index among entries of which
    neither comes before the other. *)
Definition ascending_then_index (a : list float) (i j : nat) : Prop :=
  np_lt (nth i a 0%float) (nth j a 0%float) = true \/
  (np_lt (nth j a 0%float) (nth i a 0%float) = false /\ (i < j)%nat).

(** The place of a float in numpy's order: triples, compared one
    component after the other. *)
Definition sf_nan (x : spec_float) : bool := negb (SFeqb x x).
Definition sf_lt (x y : spec_float) : bool := SFltb x y || (sf_nan y && negb (sf_nan x)).

Definition place (x : spec_float) : Z * Z * Z :=
  match x with
  | S754_nan => (3, 0, 0)
  | S754_infinity false => (2, 0, 0)
  | S754_finite false m e => (1, e, Z.pos m)
  | S754_zero _ => (0, 0, 0)
  | S754_finite true m e => (-1, - e, - Z.pos m)
  | S754_infinity true => (-2, 0, 0)
  end.

Definition lex_lt (p q : Z * Z * Z) : Prop :=
  let '(a1, a2, a3) := p in
  let '(b1, b2, b3) := q in
  a1 < b1 \/ (a1 = b1 /\ (a2 < b2 \/ (a2 = b2 /\ a3 < b3))).

Section WithLibraries.
Context {sorter : ArgSort} {libs : ScoringLibs}.

(** The combined score of the chunk at an index, by the formula. *)
Definition chunk_score (r : LocalDocRetriever) (query : string) (idx : nat) : float :=
  (0.7 * bm25_doc_score (corpus (bm25 r)) (Py.split_ws (Py.lower query)) idx
   + 0.3 * tfidf_similarity (tfidf r) query idx)%float.

(** The scores of a list of results do not increase: no result comes
    before an earlier one in numpy's order, so a later score is never
    greater, and results whose score is a NaN come first. *)
Definition not_increasing (results : list RetrievedChunk) : Prop :=
  StronglySorted (fun x y => np_lt (score x) (score y) = false) results.

(** The result that the loop of [retrieve] makes of an index. *)
Definition result_of (r : LocalDocRetriever) (query : string) (idx : nat)
    (res : RetrievedChunk) : Prop :=
  exists c, chunks r !! idx = Some c /\
    id res = c_id c /\ text res = c_text c /\ source res = c_source c /\
    score res = chunk_score r query idx.

(** A retriever whose indexes cover its chunks, as [_build_indexes] makes. *)
Definition indexed (r : LocalDocRetriever) : Prop :=
  corpus_size (bm25 r) = length (chunks r) /\ length (tfidf r) = length (chunks r).

(** C2 as the specification states it: at most [k] results, scores that
    do not increase, and of two results with equal scores the one of the
    smaller index first. *)
Definition ties_in_index_order (r : LocalDocRetriever) (query : string)
    (results : list RetrievedChunk) : Prop :=
  forall p q i j x y,
    (p < q)%nat -> results !! p = Some x -> results !! q = Some y ->
    result_of r query i x -> result_of r query j y ->
    (score x =? score y)%float = true -> (i < j)%nat.

Definition retrieve_as_specified (r : LocalDocRetriever) (query : string) (k : Z) : Prop :=
  exists results,
    retrieve r query k = Some results /\
    Z.of_nat (length results) <= k /\
    StronglySorted (fun x y => (score y <=? score x)%float = true) results /\
    ties_in_index_order r query results.

(** C4 as the specification states it: over an empty corpus every call
    returns the empty list and nothing is raised. *)
Definition empty_corpus_returns_empty (listing : list (string * string)) : Prop :=
  _load_docs listing = [] ->
  forall query k, build_and_retrieve listing query k = Returned [].

End WithLibraries.

(** Scoring libraries for the examples: the BM25 score of a document is
    the number of query tokens it holds, the TF-IDF similarity is 0, and
    fitting raises on an empty collection. *)
Definition overlap_score (tokenized : list (list string)) (query_tokens : list string)
    (i : nat) : float :=
  PrimFloat.of_uint63
    (Uint63.of_Z
       (Z.of_nat (length (filter (fun t => t ∈ default [] (tokenized !! i)) query_tokens)))).

Definition overlap_libs : ScoringLibs :=
  {| bm25_doc_score := overlap_score;
     tfidf_fit := fun texts =>
       match texts with
       | [] => Raised "empty vocabulary"
       | _ => Returned tt
       end;
     tfidf_similarity := fun _ _ _ => 0%float |}.

(** Scoring libraries whose scores combine to equal numbers exactly and
    to different ones in binary64: 1.2 and 0.7 for the first chunk, 1.5
    and 0 for every other one. *)
Definition rounding_libs : ScoringLibs :=
  {| bm25_doc_score := fun _ _ i => if (i =? 0)%nat then 1.2%float else 1.5%float;
     tfidf_fit := fun _ => Returned tt;
     tfidf_similarity := fun _ _ i => if (i =? 0)%nat then 0.7%float else 0%float |}.

(** The corpus of the specification's scenario, and its retriever. *)
Definition two_files : list (string * string) :=
  [("A.md", "Beverages return within 30 days."); ("B.md", "Widgets ship in 5 days.")].

Definition two_files_retriever : LocalDocRetriever :=
  {| chunks := [ {| c_id := "A::chunk0"; c_text := "Beverages return within 30 days.";
                    c_source := "A.md" |};
                 {| c_id := "B::chunk0"; c_text := "Widgets ship in 5 days.";
                    c_source := "B.md" |} ];
     tokenized_chunks := [ ["beverages"; "return"; "within"; "30"; "days."];
                           ["widgets"; "ship"; "in"; "5"; "days."] ];
     bm25 := {| corpus_size := 2;
                corpus := [ ["beverages"; "return"; "within"; "30"; "days."];
                            ["widgets"; "ship"; "in"; "5"; "days."] ] |};
     tfidf := ["Beverages return within 30 days."; "Widgets ship in 5 days."] |}.

(** A directory without markdown files. *)
Definition no_markdown : list (string * string) :=
  [("notes.txt", "Beverages return within 30 days.")].

(** Indexes over zero chunks, which [__init__] never makes. *)
Definition no_chunks_retriever : LocalDocRetriever :=
  {| chunks := []; tokenized_chunks := [];
     bm25 := {| corpus_size := 0; corpus := [] |};
     tfidf := [] |}.

End RetrievalSpec.

(** ** The workflow controller *)

Section WorkflowSpec.
Import Workflow.

(** The repair counter stays within its bounds: the invariant of a run. *)
Definition repairs_bounded (c : config) : Prop :=
  match c with
  | At _ state => 0 <= repairs state <= 2
  | Aborted _ => True
  end.

(** Past the router no node assigns the route. *)
Definition route_kept (r : string) (c : config) : Prop :=
  match c with
  | At n state => n <> Router /\ route state = r
  | Aborted _ => True
  end.

(** What the router node stores as the route. *)
Definition routed (sv : Services) (question : string) : string :=
  match router sv question with
  | Returned out =>
      if Py.truthy (Py.getattr out "hybrid")
      then Py.lower (Py.strip (Py.getattr out "hybrid"))
      else "hybrid"
  | Raised _ => "hybrid"
  end.

Definition route_values : list string := ["rag"; "sql"; "hybrid"].

(** C9 as the specification states it: past the router, the route of a
    reachable state is one of rag, sql, hybrid. *)
Definition route_is_enumerated : Prop :=
  forall question format_hint n state,
    reachable question format_hint (At n state) -> n <> Router ->
    route state ∈ route_values.

(** C6 as the specification states it: whatever the state, the repair
    node adds one to repairs and empties sql. *)
Definition repair_is_unconditional : Prop :=
  forall state,
    repairs (node_validate_or_repair state) = repairs state + 1 /\
    sql (node_validate_or_repair state) = EmptyString.

(** C7 as the specification states it: on a [None] output the three
    synthesis fields get empty values and the error is left alone. *)
Definition synthesize_none_gives_empty (sv : Services) (state : AgentState) : Prop :=
  synth sv state = Returned None ->
  final_answer (node_synthesize sv state) = EmptyString /\
  explanation (node_synthesize sv state) = EmptyString /\
  citations (node_synthesize sv state) = PList [] /\
  error (node_synthesize sv state) = error state.

(** The three conditions of the confidence estimate, as the code tests
    them: an error is unset when it is [None] or the empty text. *)
Definition error_unset (state : AgentState) : bool := negb (Py.truthy_opt (error state)).
Definition no_repairs (state : AgentState) : bool := repairs state =? 0.
Definition has_docs (state : AgentState) : bool := Py.truthy_list (retrieved_docs state).

Definition bonus (b : bool) (x : float) : float := if b then x else 0%float.

(** The three conditions in plain terms: the error is [None] or the
    empty text; the counter is 0; a document was retrieved. *)
Definition error_absent (state : AgentState) : bool :=
  match error state with
  | None => true
  | Some EmptyString => true
  | Some (String _ _) => false
  end.
Definition repairs_zero (state : AgentState) : bool := bool_decide (repairs state = 0).
Definition docs_found (state : AgentState) : bool :=
  match retrieved_docs state with
  | [] => false
  | _ :: _ => true
  end.

(** C5 as the specification states it. The error is unset when it is
    null: the estimate is 0.1, plus 0.4 if the error is [None], plus 0.3
    if repairs is 0, plus 0.3 if a document was retrieved, and at most
    1.0; this in every final state of the pipeline. *)
Definition error_null (state : AgentState) : bool :=
  match error state with
  | None => true
  | Some _ => false
  end.
Definition at_most_one (x : float) : float := if (1.0 <? x)%float then 1.0%float else x.
Definition confidence_as_specified (state : AgentState) : float :=
  at_most_one (0.1 + (if error_null state then 0.4 else 0)
                   + (if repairs_zero state then 0.3 else 0)
                   + (if docs_found state then 0.3 else 0))%float.
Definition confidence_is_as_specified : Prop :=
  forall question format_hint state,
    reachable question format_hint (At END state) ->
    compute_confidence state = confidence_as_specified state.

(** Collaborators for the examples: a database without the table asked
    for, so that every execution fails, with a language model that
    answers the router with a route of its own; and the same with a
    language model that cannot be reached by the router. *)
Definition failing_services : Services :=
  {| router := fun _ => Returned (Some " Banana ");
     retriever_retrieve := fun _ _ => Returned [];
     planner := fun _ _ => Returned (PDict []);
     get_schema_snapshot := [];
     nl2sql := fun _ _ _ => Returned (Some (Some "SELECT * FROM Missing"));
     engine := fun _ => Raised "no such table: Missing";
     synth := fun _ => Returned None |}.

Definition router_down : Services :=
  {| router := fun _ => Raised "Ollama connection failed: refused";
     retriever_retrieve := retriever_retrieve failing_services;
     planner := planner failing_services;
     get_schema_snapshot := [];
     nl2sql := nl2sql failing_services;
     engine := engine failing_services;
     synth := synth failing_services |}.

Definition failing_trace : list Services := replicate 14 failing_services.

(** A state with an error and no repair yet, and one whose repairs are
    used up. *)
Definition failed_state : AgentState :=
  set_error (Some "no such table: Missing")
    (set_sql "SELECT * FROM Missing" (inputs "How many?" "int")).

Definition exhausted_state : AgentState := set_repairs 2 failed_state.

End WorkflowSpec.

(** ** Executions of the workflow *)

Section WorkflowRunSpec.
Import Workflow.

(** A run is over: it is at END, or an exception ended it. *)
Definition terminal (c : config) : Prop :=
  match c with
  | At END _ => True
  | At _ _ => False
  | Aborted _ => True
  end.

(** The steps a run can still take: the nodes up to the decision after
    the synthesizer, and four more for each repair that is left. *)
Definition node_steps (n : node) : nat :=
  match n with
  | Router => 6 | Retrieve => 5 | Planner => 4 | SqlGen => 3
  | SqlExec => 2 | Synthesize => 1 | Repair => 0 | END => 0
  end.

Definition steps_left (c : config) : nat :=
  match c with
  | At END _ => 0
  | At n state => node_steps n + 4 * Z.to_nat (2 - repairs state)
  | Aborted _ => 0
  end.

(** What holds of every configuration of a run: the counter is within
    its bounds, the repair node is entered with an error and a repair
    left, and END is entered when the decision says so. *)
Definition run_invariant (c : config) : Prop :=
  match c with
  | At Repair state =>
      0 <= repairs state < 2 /\ Py.truthy_opt (error state) = true
  | At END state =>
      0 <= repairs state <= 2 /\ should_repair state = "end"
  | At _ state => 0 <= repairs state <= 2
  | Aborted _ => True
  end.

(** Collaborators of which the retriever and the planner do not raise. *)
Definition steady (sv : Services) : Prop :=
  (forall q k, exists docs, retriever_retrieve sv q k = Returned docs) /\
  (forall q docs, exists plan_out, planner sv q docs = Returned plan_out).

Definition aborted (c : config) : Prop :=
  match c with
  | Aborted _ => True
  | At _ _ => False
  end.

(** The state in which the run of the failing collaborators ends. *)
Definition failing_end_state : AgentState :=
  Eval vm_compute in
    match run failing_trace (initial "How many?" "int") with
    | At _ state => state
    | Aborted _ => inputs EmptyString EmptyString
    end.

(** Collaborators whose SQL generator answers with white space. *)
Definition blank_sql_services : Services :=
  {| router := router failing_services;
     retriever_retrieve := retriever_retrieve failing_services;
     planner := planner failing_services;
     get_schema_snapshot := [];
     nl2sql := fun _ _ _ => Returned (Some (Some "  "));
     engine := engine failing_services;
     synth := synth failing_services |}.

(** Collaborators whose database executes the statement and describes
    one column, and then fails to fetch the rows. *)
Definition overflowing_services : Services :=
  {| router := router failing_services;
     retriever_retrieve := retriever_retrieve failing_services;
     planner := planner failing_services;
     get_schema_snapshot := [];
     nl2sql := nl2sql failing_services;
     engine := fun _ => Returned {| SQLiteTool.description := Some ["c"];
                                    SQLiteTool.fetchall := Raised "integer overflow";
                                    SQLiteTool.commit := Returned tt |};
     synth := synth failing_services |}.

End WorkflowRunSpec.

Section ErrorSpec.
Import Workflow.

(** Collaborators whose database executes every query, and whose
    synthesizer raises an exception that has no message. *)
Definition executing_services : Services :=
  {| router := router failing_services;
     retriever_retrieve := retriever_retrieve failing_services;
     planner := planner failing_services;
     get_schema_snapshot := [];
     nl2sql := nl2sql failing_services;
     engine := products_engine;
     synth := fun _ => Raised EmptyString |}.

(** The state in which their run ends, after six steps. *)
Definition silent_end_state : AgentState :=
  Eval vm_compute in
    match run (replicate 6 executing_services) (initial "How many?" "int") with
    | At _ state => state
    | Aborted _ => inputs EmptyString EmptyString
    end.

End ErrorSpec.

(** ** Texts *)

Section TextSpec.

(** A text that does not begin with white space. *)
Definition starts_clean (s : string) : Prop :=
  match s with
  | EmptyString => True
  | String c _ => Py.isspace c = false
  end.

(** Every character of a text is in a class. *)
Fixpoint forall_chars (p : ascii -> bool) (s : string) : bool :=
  match s with
  | EmptyString => true
  | String c s' => p c && forall_chars p s'
  end.

(** A line end. *)
Definition newline_text : string := String Re.newline EmptyString.

End TextSpec.

(** ** The chunks and the ranking of the retriever *)

Section RankingSpec.
Import Retrieval.
Context {sorter : ArgSort} {libs : ScoringLibs}.

(** The id of the chunk at position [i] of a file. *)
Definition chunk_id_of (filename : string) (i : nat) : string :=
  Py.remove ".md" filename +:+ "::chunk" +:+ pretty i.

(** The whole ranking: the argsort of the combined scores, reversed. *)
Definition ranking (r : LocalDocRetriever) (query : string) : list nat :=
  rev (argsort (combined_scores r query)).

(** How many indices the slice keeps. *)
Definition kept (k : Z) (n : nat) : nat :=
  if 0 <=? k then Nat.min (Z.to_nat k) n else (n - Z.to_nat (- k))%nat.

End RankingSpec.

(** ** The records of the normalizer *)

Section NormalizerMoreSpec.
Import Normalizer.

(** The keys of a record that [fill] returns. *)
Definition record_keys : gset string :=
  {["final_answer"; "explanation"; "citations"; "route"; "sql"; "plan"]}.

(** Every value of a mapping can be serialised. *)
Definition all_serialisable (d : gmap string pyvalue) : Prop :=
  forall key x, d !! key = Some x -> serialisable x = true.

End NormalizerMoreSpec.

Section ParsedSpec.
Import Normalizer.

(** The three fields that the parsed path fills in. *)
Definition backfilled : list string := ["final_answer"; "explanation"; "citations"].

(** A completion in JSON with an sql field only, and parsers that read it. *)
Definition sql_only_text : string :=
  "{" +:+ SQLiteTool.dquote +:+ "sql" +:+ SQLiteTool.dquote +:+ ": "
      +:+ SQLiteTool.dquote +:+ "SELECT 1" +:+ SQLiteTool.dquote +:+ "}".

Definition sql_only_parsers : Parsers :=
  {| json_loads := fun s =>
       if bool_decide (s = sql_only_text)
       then Some (ParsedDict {["sql" := PStr "SELECT 1"]})
       else None;
     literal_eval := fun _ => None;
     repr := fun _ => "?" |}.

End ParsedSpec.

(** ** The entry points *)

Section EntryPointsSpec.

(** A record of the batch has a question to ask. *)
Definition answerable (it : Driver.item) : bool :=
  match Driver.item_question it with
  | Some q => Py.truthy q
  | None => false
  end.

Definition qid_of (it : Driver.item) : pyvalue :=
  Py.getattr (Driver.item_id it) (PStr "unknown_id").

(** The call of the agent that [main] makes for a record with the
    question [q], and the record it keeps of it. *)
Definition call (agent : string -> string -> pyvalue -> outcome Agent.final)
    (it : Driver.item) : outcome Agent.final :=
  match agent (Py.getattr (Driver.item_question it) EmptyString)
              (Py.getattr (Driver.item_format_hint it) "text") (qid_of it) with
  | Returned result => Returned (Driver.set_id (qid_of it) result)
  | Raised e => Raised e
  end.

(** A batch of four lines: a record with a question, a blank line, a
    line that is no JSON, and a record without a question. *)
Definition batch_lines : list string := ["first"; "   "; "oops"; "second"].

Definition batch_loads (line : string) : Driver.parsed_line :=
  if bool_decide (line = "first")
  then Driver.Dict {| Driver.item_id := Some (PStr "q1");
                      Driver.item_question := Some "How many?";
                      Driver.item_format_hint := None |}
  else if bool_decide (line = "second")
  then Driver.Dict {| Driver.item_id := None;
                      Driver.item_question := None;
                      Driver.item_format_hint := Some "int" |}
  else Driver.Invalid.

(** An agent that answers with its question, and one that raises. *)
Definition echo_agent (q format_hint : string) (qid : pyvalue) : outcome Agent.final :=
  Returned {| Agent.f_id := PStr EmptyString; Agent.f_final_answer := q;
              Agent.f_sql := EmptyString; Agent.f_confidence := 0.5%float;
              Agent.f_explanation := format_hint; Agent.f_citations := PList [] |}.

Definition raising_agent (q format_hint : string) (qid : pyvalue) : outcome Agent.final :=
  Raised "no documents".

End EntryPointsSpec.

(** * Properties *)

(** ** The string operations on the texts of the examples *)

Example py_strip_ex : Py.strip "  Products LIMIT 1 " = "Products LIMIT 1".
Proof. reflexivity. Qed.
Example py_lower_ex : Py.lower " SQL Query" = " sql query".
Proof. reflexivity. Qed.
Example py_split_ex :
  Py.split "```" "```sql|SELECT 1|```" = [""; "sql|SELECT 1|"; ""].
Proof. reflexivity. Qed.
Example py_split_max_ex :
  Py.split_max "```" "```a```b```c" 2 = [""; "a"; "b```c"].
Proof. reflexivity. Qed.
Example py_split_ws_ex :
  Py.split_ws "  Beverages  return days " = ["Beverages"; "return"; "days"].
Proof. reflexivity. Qed.
Example py_remove_ex : Py.remove ".md" "policy.md" = "policy".
Proof. reflexivity. Qed.
Example py_slice_neg_ex : Py.slice_to (-1) [1; 2; 3] = [1; 2].
Proof. reflexivity. Qed.
Example py_rsplit_ex : Py.rsplit1_head "```" "a```b```c" = "a```b".
Proof. reflexivity. Qed.

(** ** The SQL tool *)

Section SQLiteToolFacts.
Import SQLiteTool.

(** [tables_used] does not depend on what the engine does. *)
Lemma run_sql_tables_used engine query :
  r_tables_used (run_sql engine query) = extract_tables_used query.
Proof.
  unfold run_sql, commit_and_close. destruct (engine query) as [cur|e]; [|reflexivity].
  destruct (Py.startswith _ _), (description cur), (fetchall cur), (commit cur); reflexivity.
Qed.

(** The scan does not look at the case of the keywords and the set drops
    what is found twice. *)
Example extract_tables_used_join :
  extract_tables_used "select * from orders join[customers] from orders"
  = {["orders join"; "orders"]}.
Proof. vm_compute. reflexivity. Qed.

(** C3, the code at the scenario's input. The row and the column are as
    the scenario says; [tables_used] is the set of one text, which runs
    from the table name to the end of the statement, and not the set of
    the table name: the class of the identifier's tail holds the space. *)
Theorem run_sql_products :
  let result := run_sql products_engine products_query in
  r_rows result = [[PStr "Chai"]] /\
  r_columns result = ["ProductName"] /\
  r_error result = None /\
  r_tables_used result = {["Products LIMIT 1"]} /\
  r_tables_used result <> {["Products"]}.
Proof.
  cbv zeta. repeat split; try (vm_compute; reflexivity).
  intros H.
  assert (Hin : "Products" ∈ r_tables_used (run_sql products_engine products_query)).
  { rewrite H. apply elem_of_singleton. reflexivity. }
  vm_compute in Hin. discriminate Hin.
Qed.

End SQLiteToolFacts.

(** ** The completion normalizer *)

Section NormalizerFacts.
Import Normalizer.

(** *** Lookups through the steps of [fill] *)

Lemma has_key_false (d : gmap string pyvalue) key : has_key d key = false <-> d !! key = None.
Proof.
  unfold has_key. rewrite bool_decide_eq_false, <- eq_None_not_Some. reflexivity.
Qed.

Lemma lookup_setdefault_eq key v (d : gmap string pyvalue) :
  setdefault key v d !! key = Some (default v (d !! key)).
Proof.
  unfold setdefault, has_key. case_bool_decide as Hk.
  - destruct Hk as [x Hx]. rewrite Hx. reflexivity.
  - apply eq_None_not_Some in Hk. rewrite Hk. apply lookup_insert_eq.
Qed.

Lemma lookup_setdefault_ne key key' v (d : gmap string pyvalue) :
  key <> key' -> setdefault key v d !! key' = d !! key'.
Proof.
  intros Hne. unfold setdefault. destruct (has_key d key); [reflexivity|].
  apply lookup_insert_ne, Hne.
Qed.

Section WithParsers.
Context {parsers : Parsers}.

Lemma infer_route_other candidates (mapped : gmap string pyvalue) key :
  key <> "route" -> infer_route candidates mapped !! key = mapped !! key.
Proof.
  intros Hne. induction candidates as [|c rest IH]; [reflexivity|]. simpl.
  destruct (mapped !! c) as [v|]; [|exact IH].
  destruct (route_in _); [|exact IH]. apply lookup_insert_ne. congruence.
Qed.

Lemma infer_sql_other candidates (mapped : gmap string pyvalue) key :
  key <> "sql" -> infer_sql candidates mapped !! key = mapped !! key.
Proof.
  intros Hne. induction candidates as [|c rest IH]; [reflexivity|]. simpl.
  destruct (mapped !! c) as [v|]; [|exact IH].
  destruct (Py.contains _ _); [|exact IH]. apply lookup_insert_ne. congruence.
Qed.

Lemma route_in_types val r : route_in val = Some r -> r ∈ route_types.
Proof.
  unfold route_in. intros Hf. apply find_some in Hf as [Hin _].
  apply list_elem_of_In, Hin.
Qed.

(** The route that [infer_route] stores is one of the three route types. *)
Lemma infer_route_route candidates (mapped : gmap string pyvalue) :
  mapped !! "route" = None ->
  infer_route candidates mapped !! "route" = None \/
  exists r, infer_route candidates mapped !! "route" = Some (PStr r) /\ r ∈ route_types.
Proof.
  intros Hm. induction candidates as [|c rest IH]; [left; exact Hm|]. simpl.
  destruct (mapped !! c) as [v|]; [|exact IH].
  destruct (route_in _) as [r|] eqn:Hr; [|exact IH].
  right. exists r. split; [apply lookup_insert_eq|]. eapply route_in_types, Hr.
Qed.

Lemma infer_route_none candidates mapped :
  no_route_word candidates mapped -> infer_route candidates mapped = mapped.
Proof.
  induction candidates as [|c rest IH]; intros Hn; [reflexivity|]. simpl.
  destruct (mapped !! c) as [v|] eqn:Hc.
  - rewrite (Hn c v (or_introl eq_refl) Hc). apply IH.
    intros key w Hin. apply Hn. right. exact Hin.
  - apply IH. intros key w Hin. apply Hn. right. exact Hin.
Qed.

Lemma infer_sql_none candidates mapped :
  no_select_word candidates mapped -> infer_sql candidates mapped = mapped.
Proof.
  induction candidates as [|c rest IH]; intros Hn; [reflexivity|]. simpl.
  destruct (mapped !! c) as [v|] eqn:Hc.
  - rewrite (Hn c v (or_introl eq_refl) Hc). apply IH.
    intros key w Hin. apply Hn. right. exact Hin.
  - apply IH. intros key w Hin. apply Hn. right. exact Hin.
Qed.

(** The route of a filled mapping that had none: one of the three route
    types, and hybrid when no candidate field holds one. *)
Lemma fill_route text (out : gmap string pyvalue) :
  out !! "route" = None ->
  (exists r, fill text out !! "route" = Some (PStr r) /\ r ∈ route_types) /\
  (no_route_word ["explanation"; "final_answer"; "plan"] out ->
   fill text out !! "route" = Some (PStr "hybrid")).
Proof.
  intros Hr. unfold fill.
  rewrite (proj2 (has_key_false out "route") Hr).
  set (m1 := infer_route _ out).
  set (m2 := if has_key m1 "sql" then m1 else infer_sql _ m1).
  assert (H12 : m2 !! "route" = m1 !! "route").
  { subst m2. destruct (has_key m1 "sql"); [reflexivity|]. apply infer_sql_other. discriminate. }
  rewrite !(lookup_setdefault_ne _ "route") by discriminate.
  rewrite lookup_setdefault_eq.
  rewrite !(lookup_setdefault_ne _ "route") by discriminate.
  rewrite H12. split.
  - destruct (infer_route_route ["explanation"; "final_answer"; "plan"] out Hr)
      as [Hn|(r & Hs & Hin)]; fold m1 in Hn || fold m1 in Hs.
    + rewrite Hn. exists "hybrid". split; [reflexivity|]. unfold route_types. set_solver.
    + rewrite Hs. exists r. split; [reflexivity|exact Hin].
  - intros Hn. subst m1. rewrite (infer_route_none _ _ Hn), Hr. reflexivity.
Qed.

(** The sql of a filled mapping that had none is empty when no candidate
    field holds the word select. *)
Lemma fill_sql text (out : gmap string pyvalue) :
  out !! "sql" = None ->
  no_select_word ["explanation"; "final_answer"] out ->
  fill text out !! "sql" = Some (PStr EmptyString).
Proof.
  intros Hs Hn. unfold fill.
  set (m1 := if has_key out "route" then out else infer_route _ out).
  assert (H1 : forall key, key <> "route" -> m1 !! key = out !! key).
  { intros key Hk. subst m1. destruct (has_key out "route"); [reflexivity|].
    apply infer_route_other, Hk. }
  assert (Hs1 : m1 !! "sql" = None) by (rewrite H1 by discriminate; exact Hs).
  rewrite (proj2 (has_key_false m1 "sql") Hs1).
  assert (Hn1 : no_select_word ["explanation"; "final_answer"] m1).
  { intros key v Hin Hv. apply (Hn key v Hin). rewrite <- H1; [exact Hv|].
    simpl in Hin. intuition (subst; discriminate). }
  rewrite (infer_sql_none _ _ Hn1).
  rewrite !(lookup_setdefault_ne _ "sql") by discriminate.
  rewrite lookup_setdefault_eq.
  rewrite !(lookup_setdefault_ne _ "sql") by discriminate.
  rewrite Hs1. reflexivity.
Qed.

(** *** What the extraction steps can store *)

Lemma keys_wanted_insert key v m :
  In key wanted -> keys_wanted m -> keys_wanted (<[key := v]> m).
Proof.
  intros Hk Hm key' Hs. destruct (decide (key = key')) as [<-|Hne]; [exact Hk|].
  rewrite lookup_insert_ne in Hs by exact Hne. apply Hm, Hs.
Qed.

Lemma keys_wanted_empty : keys_wanted ∅.
Proof. intros key [x Hx]. rewrite lookup_empty in Hx. discriminate. Qed.

Lemma add_marker_keys text out fld :
  In fld wanted -> keys_wanted out -> keys_wanted (add_marker text out fld).
Proof.
  intros Hf Ho. unfold add_marker. destruct (extract_marker fld text) as [val|]; [|exact Ho].
  destruct (Py.truthy val); [|exact Ho]. apply keys_wanted_insert; assumption.
Qed.

Lemma markers_keys text : keys_wanted (markers text).
Proof.
  unfold markers, wanted. simpl.
  repeat (apply add_marker_keys; [simpl; tauto|]). apply keys_wanted_empty.
Qed.

Lemma headings_keys text out : keys_wanted out -> keys_wanted (headings text out).
Proof.
  intros Ho. unfold headings.
  repeat match goal with
  | |- keys_wanted (if ?b then _ else _) => destruct b
  | |- keys_wanted (match ?o with Some _ => _ | None => _ end) => destruct o
  | |- keys_wanted (<[_ := _]> _) => apply keys_wanted_insert; [simpl; tauto|]
  end; exact Ho.
Qed.

Lemma extract_keys text : keys_wanted (extract text).
Proof.
  unfold extract, sniff. destruct (_ && _).
  - apply keys_wanted_insert; [simpl; tauto|]. apply headings_keys, markers_keys.
  - apply headings_keys, markers_keys.
Qed.

Lemma extract_no_route text : extract text !! "route" = None.
Proof.
  apply eq_None_not_Some. intros Hs. apply extract_keys in Hs.
  simpl in Hs. intuition discriminate.
Qed.

(** *** Texts in which nothing is recognised *)

Lemma from_parsed_no_mapping text : no_mapping text -> from_parsed (parse text) text = inr text.
Proof.
  intros Hn. unfold from_parsed. destruct (parse text) as [[d|v]|] eqn:Hp; try reflexivity.
  exfalso. exact (Hn d Hp).
Qed.

Lemma unrecognised_extract text : unrecognised text -> extract (strip_fence text) = ∅.
Proof.
  intros (_ & Hm & Hf & He & Hc & Hs). unfold extract.
  assert (Hmk : markers (strip_fence text) = ∅).
  { unfold markers, wanted. simpl. unfold add_marker.
    rewrite !Hm by (simpl; tauto). reflexivity. }
  rewrite Hmk. unfold headings.
  replace (has_key ∅ "final_answer") with false by reflexivity. rewrite Hf.
  replace (has_key ∅ "explanation") with false by reflexivity. rewrite He.
  replace (has_key ∅ "citations") with false by reflexivity. rewrite Hc.
  unfold sniff. rewrite Hs. reflexivity.
Qed.

(** C8, amended. For a text that gives no parsed mapping: when nothing is
    recognised in it, [normalize] returns the text (as the fence step
    leaves it) and no record, so there is no sql and no route field; when
    some field is extracted, the record returned has a route, one of rag,
    sql, hybrid, and hybrid if no candidate field holds one, and has an
    sql field, the empty text if none was extracted and no candidate
    field holds the word select. *)
Theorem normalize_unrecognised text :
  no_mapping text ->
  (unrecognised text -> normalize text = Raw (strip_fence text)) /\
  (extract (strip_fence text) <> ∅ ->
   exists fields,
     normalize text = Json fields /\
     (exists r, fields !! "route" = Some (PStr r) /\ r ∈ route_types) /\
     is_Some (fields !! "sql") /\
     (no_route_word ["explanation"; "final_answer"; "plan"] (extract (strip_fence text)) ->
      fields !! "route" = Some (PStr "hybrid")) /\
     (extract (strip_fence text) !! "sql" = None ->
      no_select_word ["explanation"; "final_answer"] (extract (strip_fence text)) ->
      fields !! "sql" = Some (PStr EmptyString))).
Proof.
  intros Hn. unfold normalize. rewrite (from_parsed_no_mapping _ Hn). split.
  - intros Hu. rewrite (unrecognised_extract _ Hu).
    rewrite bool_decide_eq_true_2 by reflexivity. reflexivity.
  - intros Hne. rewrite bool_decide_eq_false_2 by exact Hne.
    eexists. split; [reflexivity|].
    destruct (fill_route (strip_fence text) _ (extract_no_route (strip_fence text)))
      as [Hr Hh].
    split; [exact Hr|]. split; [|split; [exact Hh|]].
    + unfold fill. rewrite !(lookup_setdefault_ne _ "sql") by discriminate.
      rewrite lookup_setdefault_eq. eexists. reflexivity.
    + apply fill_sql.
Qed.

End WithParsers.

Lemma hello_unrecognised : unrecognised (parsers := strict_parsers) "hello".
Proof.
  split; [intros d Hd; discriminate Hd|]. split; [|repeat split].
  intros fld Hin. simpl in Hin.
  destruct Hin as [<-|[<-|[<-|[<-|[]]]]]; reflexivity.
Qed.

(** C8, counterexample. Nothing is recognised in the text hello, and
    [normalize] returns it as it is. *)
Lemma normalize_hello_is_raw :
  unrecognised (parsers := strict_parsers) "hello" /\
  normalize (parsers := strict_parsers) "hello" = Raw "hello" /\
  ~ defaults_when_unrecognised (parsers := strict_parsers) "hello".
Proof.
  split; [exact hello_unrecognised|]. split; [reflexivity|].
  intros Hd. destruct (Hd hello_unrecognised) as (fields & Hf & _). discriminate Hf.
Qed.

Lemma normalize_unrecognised_witness :
  normalize (parsers := strict_parsers) "hello" = Raw "hello" /\
  exists fields,
    normalize (parsers := strict_parsers) "Final Answer: 12" = Json fields /\
    fields !! "route" = Some (PStr "hybrid") /\
    fields !! "sql" = Some (PStr EmptyString).
Proof.
  split.
  - apply (proj1 (normalize_unrecognised (parsers := strict_parsers) "hello"
                    ltac:(intros d Hd; discriminate Hd))).
    exact hello_unrecognised.
  - destruct (proj2 (normalize_unrecognised (parsers := strict_parsers) "Final Answer: 12"
                       ltac:(intros d Hd; discriminate Hd)))
      as (fields & Hf & _ & _ & Hr & Hs).
    { vm_compute. discriminate. }
    exists fields. split; [exact Hf|]. split.
    + apply Hr. intros key v Hin Hv. vm_compute in Hv.
      simpl in Hin. destruct Hin as [<-|[<-|[<-|[]]]]; vm_compute in Hv;
        try discriminate Hv; injection Hv as <-; reflexivity.
    + apply Hs; [reflexivity|]. intros key v Hin Hv.
      simpl in Hin. destruct Hin as [<-|[<-|[]]]; vm_compute in Hv;
        try discriminate Hv; injection Hv as <-; reflexivity.
Defined.

End NormalizerFacts.

(** ** The retriever *)

Section RetrievalFacts.
Import Retrieval.

(** *** numpy's order on binary64 *)

Lemma np_lt_spec a b : np_lt a b = sf_lt (Prim2SF a) (Prim2SF b).
Proof.
  unfold np_lt, sf_lt, sf_nan, PrimFloat.is_nan.
  now rewrite FloatAxioms.ltb_spec, !FloatAxioms.eqb_spec.
Qed.

Lemma compare_cont_spec m1 m2 :
  CompareSpec (m1 = m2) (Z.pos m1 < Z.pos m2) (Z.pos m2 < Z.pos m1)
    (PosDef.Pos.compare_cont Eq m1 m2).
Proof.
  change (PosDef.Pos.compare_cont Eq m1 m2) with (Pos.compare m1 m2).
  destruct (Pos.compare_spec m1 m2); constructor; [assumption|lia|lia].
Qed.

Lemma sf_nan_spec x : sf_nan x = match x with S754_nan => true | _ => false end.
Proof.
  unfold sf_nan, SFeqb. destruct x as [s|s| |s m e]; try destruct s; cbn; try reflexivity.
  - rewrite Z.compare_refl.
    change (PosDef.Pos.compare_cont Eq m m) with (Pos.compare m m).
    now rewrite Pos.compare_refl.
  - rewrite Z.compare_refl.
    change (PosDef.Pos.compare_cont Eq m m) with (Pos.compare m m).
    now rewrite Pos.compare_refl.
Qed.

Lemma sf_lt_place x y : sf_lt x y = true <-> lex_lt (place x) (place y).
Proof.
  unfold sf_lt. rewrite !sf_nan_spec. unfold SFltb.
  destruct x as [sx|sx| |sx mx ex], y as [sy|sy| |sy my ey];
    try destruct sx; try destruct sy; cbn -[Z.lt Z.opp];
    try (split; [discriminate|lia]); try (split; [lia|reflexivity]);
    try (split; [intros _; lia|reflexivity]).
  all: destruct (Z.compare_spec ex ey); subst;
    try destruct (compare_cont_spec mx my); subst; cbn -[Z.lt Z.opp];
    split; try discriminate; try reflexivity; try lia; intros _; lia.
Qed.

Lemma sf_lt_asym x y : sf_lt x y = true -> sf_lt y x = false.
Proof.
  intros H. apply not_true_is_false. intros H'.
  apply sf_lt_place in H, H'. unfold lex_lt in *.
  destruct (place x) as [[a1 a2] a3], (place y) as [[b1 b2] b3]. lia.
Qed.

Lemma sf_lt_cotrans x y z : sf_lt x z = true -> sf_lt x y = true \/ sf_lt y z = true.
Proof.
  intros H. apply sf_lt_place in H.
  assert (Hd : lex_lt (place x) (place y) \/ lex_lt (place y) (place z)).
  { unfold lex_lt in *.
    destruct (place x) as [[a1 a2] a3], (place y) as [[b1 b2] b3], (place z) as [[c1 c2] c3].
    lia. }
  destruct Hd as [Hd|Hd]; [left|right]; apply sf_lt_place, Hd.
Qed.

Lemma sf_leb_place x y :
  sf_nan x = false -> sf_nan y = false ->
  ~ lex_lt (place x) (place y) -> SFleb y x = true.
Proof.
  rewrite !sf_nan_spec. unfold SFleb.
  destruct x as [sx|sx| |sx mx ex], y as [sy|sy| |sy my ey];
    try destruct sx; try destruct sy; cbn -[Z.lt Z.opp];
    try discriminate; try reflexivity; intros _ _ H; try (exfalso; apply H; lia).
  all: destruct (Z.compare_spec ey ex); subst;
    try destruct (compare_cont_spec my mx); subst; cbn -[Z.lt Z.opp];
    try reflexivity; exfalso; apply H; lia.
Qed.

(** The order is strict and total up to ties. *)
Lemma np_lt_asym a b : np_lt a b = true -> np_lt b a = false.
Proof. rewrite !np_lt_spec. apply sf_lt_asym. Qed.

Lemma np_lt_cotrans a b c : np_lt a c = true -> np_lt a b = true \/ np_lt b c = true.
Proof. rewrite !np_lt_spec. apply sf_lt_cotrans. Qed.

Lemma np_lt_trans a b c : np_lt a b = true -> np_lt b c = true -> np_lt a c = true.
Proof.
  intros Hab Hbc. destruct (np_lt_cotrans a c b Hab) as [H|H]; [exact H|].
  apply np_lt_asym in Hbc. congruence.
Qed.

(** Without a NaN it is the order of [<=]. *)
Lemma np_lt_false_leb a b :
  np_lt a b = false -> PrimFloat.is_nan a = false -> (b <=? a)%float = true.
Proof.
  rewrite np_lt_spec, FloatAxioms.leb_spec. unfold PrimFloat.is_nan.
  rewrite FloatAxioms.eqb_spec. intros H Hx. fold (sf_nan (Prim2SF a)) in Hx.
  apply negb_false_iff in Hx.
  assert (Hx' : sf_nan (Prim2SF a) = false).
  { unfold sf_nan. now rewrite Hx. }
  assert (Hy : sf_nan (Prim2SF b) = false).
  { unfold sf_lt in H. rewrite Hx' in H. apply orb_false_iff in H as [_ H].
    now rewrite andb_true_r in H. }
  apply sf_leb_place; [exact Hx'|exact Hy|].
  intros Hl. apply sf_lt_place in Hl. congruence.
Qed.

(** The rounding shows in the order: of the score pairs 1.2, 0.7 and
    1.5, 0 the exact combinations are equal, and the computed ones are
    not. *)
Example combine_rounds :
  combine [1.2; 1.5]%float [0.7; 0]%float = [1.05; 1.0499999999999998]%float /\
  np_lt 1.0499999999999998 1.05 = true.
Proof. split; reflexivity. Qed.

(** *** The stable argsort meets what is required of [argsort] *)

Section InsertIndex.
Variable a : list float.

Lemma ascending_trans i j k : ascending a i j -> ascending a j k -> ascending a i k.
Proof.
  unfold ascending. intros Hji Hkj. apply not_true_is_false. intros Hki.
  destruct (np_lt_cotrans _ (nth j a 0%float) _ Hki); congruence.
Qed.

Lemma insert_index_perm i sorted : Permutation (insert_index a i sorted) (i :: sorted).
Proof.
  induction sorted as [|j rest IH]; simpl; [reflexivity|].
  destruct (np_lt _ _); [reflexivity|].
  rewrite IH. apply perm_swap.
Qed.

Lemma insert_index_sorted i sorted :
  StronglySorted (ascending a) sorted ->
  StronglySorted (ascending a) (insert_index a i sorted).
Proof.
  induction sorted as [|j rest IH]; simpl; intros Hs.
  - repeat constructor.
  - apply StronglySorted_inv in Hs as [Hrest Hj].
    destruct (np_lt (nth i a 0%float) (nth j a 0%float)) eqn:Hlt.
    + assert (Hij : ascending a i j) by (apply np_lt_asym, Hlt).
      constructor; [constructor; assumption|].
      constructor; [exact Hij|].
      eapply Forall_impl; [exact Hj|]. intros k Hk. eapply ascending_trans; eassumption.
    + constructor; [apply IH, Hrest|].
      apply (Permutation_Forall (Permutation_sym (insert_index_perm i rest))).
      constructor; [|exact Hj]. exact Hlt.
Qed.

Lemma fold_insert_perm indices : forall acc,
  Permutation (fold_left (fun sorted i => insert_index a i sorted) indices acc)
              (indices ++ acc).
Proof.
  induction indices as [|i rest IH]; intros acc; simpl; [reflexivity|].
  rewrite IH, insert_index_perm. symmetry. apply Permutation_middle.
Qed.

Lemma fold_insert_sorted indices : forall acc,
  StronglySorted (ascending a) acc ->
  StronglySorted (ascending a)
    (fold_left (fun sorted i => insert_index a i sorted) indices acc).
Proof.
  induction indices as [|i rest IH]; intros acc Hacc; simpl; [exact Hacc|].
  apply IH, insert_index_sorted, Hacc.
Qed.

End InsertIndex.

Lemma stable_argsort_perm a : Permutation (stable_argsort a) (seq 0 (length a)).
Proof. unfold stable_argsort. rewrite fold_insert_perm, app_nil_r. reflexivity. Qed.

Lemma stable_argsort_sorted a : StronglySorted (ascending a) (stable_argsort a).
Proof. apply fold_insert_sorted. constructor. Qed.

(** The stable argsort is also ascending in the index among equal entries. *)
Lemma insert_index_stable a i sorted :
  StronglySorted (ascending_then_index a) sorted ->
  Forall (fun j => (j < i)%nat) sorted ->
  StronglySorted (ascending_then_index a) (insert_index a i sorted).
Proof.
  induction sorted as [|j rest IH]; simpl; intros Hs Hlt.
  - repeat constructor.
  - apply StronglySorted_inv in Hs as [Hrest Hj].
    apply Forall_cons in Hlt as [Hji Hlt].
    destruct (np_lt (nth i a 0%float) (nth j a 0%float)) eqn:Hij.
    + constructor; [constructor; assumption|].
      constructor; [left; exact Hij|].
      eapply Forall_impl; [exact Hj|]. intros x [Hx|[Hx _]]; left.
      * eapply np_lt_trans; eassumption.
      * destruct (np_lt_cotrans _ (nth x a 0%float) _ Hij); congruence.
    + constructor; [apply IH; assumption|].
      apply (Permutation_Forall (Permutation_sym (insert_index_perm a i rest))).
      constructor; [|exact Hj]. right. split; assumption.
Qed.

Lemma fold_insert_stable a len : forall start acc,
  StronglySorted (ascending_then_index a) acc ->
  Forall (fun j => (j < start)%nat) acc ->
  StronglySorted (ascending_then_index a)
    (fold_left (fun sorted i => insert_index a i sorted) (seq start len) acc).
Proof.
  induction len as [|len IH]; intros start acc Hs Hlt; simpl; [exact Hs|].
  apply IH.
  - apply insert_index_stable; assumption.
  - apply (Permutation_Forall (Permutation_sym (insert_index_perm a start acc))).
    constructor; [lia|]. eapply Forall_impl; [exact Hlt|]. simpl. intros; lia.
Qed.

Lemma stable_argsort_stable a : StronglySorted (ascending_then_index a) (stable_argsort a).
Proof. apply fold_insert_stable; constructor. Qed.

#[local] Instance stable : ArgSort :=
  {| argsort := stable_argsort;
     argsort_perm := stable_argsort_perm;
     argsort_sorted := stable_argsort_sorted |}.


(** *** Orders carried through the reversal, the slice and the loop *)

Lemma StronglySorted_rev {A} (R : A -> A -> Prop) l :
  StronglySorted R l -> StronglySorted (fun x y => R y x) (rev l).
Proof.
  induction 1 as [|x l Hl IH Hx]; simpl; [constructor|].
  apply StronglySorted_app_2; [|exact IH|repeat constructor].
  intros y z Hy Hz. apply list_elem_of_singleton in Hz as ->.
  rewrite Forall_forall in Hx. apply Hx, list_elem_of_In.
  apply list_elem_of_In, in_rev in Hy. exact Hy.
Qed.

Lemma StronglySorted_firstn {A} (R : A -> A -> Prop) n l :
  StronglySorted R l -> StronglySorted R (firstn n l).
Proof.
  intros Hs. revert n. induction Hs as [|x l Hl IH Hx]; intros [|n]; simpl; try constructor.
  - apply IH.
  - rewrite Forall_forall in *. intros y Hy. apply Hx.
    apply elem_of_take in Hy as (i & Hi & _). eapply list_elem_of_lookup_2, Hi.
Qed.

Lemma slice_to_nonneg {A} k (l : list A) :
  0 <= k -> Py.slice_to k l = firstn (Z.to_nat k) l.
Proof. intros Hk. unfold Py.slice_to. destruct (Z.leb_spec 0 k); [reflexivity|lia]. Qed.

Lemma StronglySorted_Forall2 {A B} (P : A -> B -> Prop) (R1 : A -> A -> Prop)
    (R2 : B -> B -> Prop) l1 l2 :
  (forall x1 x2 y1 y2, P x1 y1 -> P x2 y2 -> R1 x1 x2 -> R2 y1 y2) ->
  Forall2 P l1 l2 -> StronglySorted R1 l1 -> StronglySorted R2 l2.
Proof.
  intros HR. induction 1 as [|x y l1 l2 Hxy Hl IH]; intros Hs; [constructor|].
  apply StronglySorted_inv in Hs as [Hs Hx]. constructor; [apply IH, Hs|].
  clear IH Hs. induction Hl as [|x' y' l1 l2 Hxy' Hl IH]; [constructor|].
  apply Forall_cons in Hx as [Hx Hx']. constructor; [|apply IH, Hx'].
  eapply HR; eassumption.
Qed.

Section WithLibraries.
Context {sorter : ArgSort} {libs : ScoringLibs}.

Lemma BM25Okapi_init_size tokenized index :
  BM25Okapi_init tokenized = Returned index ->
  corpus_size index = length tokenized /\ tokenized <> [].
Proof.
  unfold BM25Okapi_init. destruct tokenized as [|d rest]; [discriminate|].
  simpl. destruct (_ && _); [discriminate|]. intros [= <-]. split; [reflexivity|discriminate].
Qed.

Lemma build_indexes_indexed chks r :
  _build_indexes chks = Returned r -> chunks r = chks /\ indexed r /\ chks <> [].
Proof.
  unfold _build_indexes.
  destruct (BM25Okapi_init _) as [index|e] eqn:Hb; [|discriminate].
  destruct (tfidf_fit _) as [u|e]; [|discriminate]. intros [= <-].
  apply BM25Okapi_init_size in Hb as [Hsize Hne]. unfold indexed. simpl.
  rewrite Hsize, !length_map. repeat split. intros ->. apply Hne. reflexivity.
Qed.

Lemma combined_scores_length r query :
  indexed r -> length (combined_scores r query) = length (chunks r).
Proof.
  intros [Hb Ht]. unfold combined_scores, combine, get_scores, tfidf_scores.
  rewrite length_zip_with, !length_map, !length_seq, Hb, Ht. lia.
Qed.

Lemma combined_scores_lookup r query idx :
  indexed r -> (idx < length (chunks r))%nat ->
  combined_scores r query !! idx = Some (chunk_score r query idx).
Proof.
  intros [Hb Ht] Hlt. unfold combined_scores, combine, get_scores, tfidf_scores, chunk_score.
  rewrite lookup_zip_with.
  rewrite !list_lookup_fmap, !lookup_seq_lt by lia. reflexivity.
Qed.

Lemma argsort_lt a idx : In idx (argsort a) -> (idx < length a)%nat.
Proof.
  intros Hin. apply (Permutation_in _ (argsort_perm a)) in Hin.
  apply in_seq in Hin. lia.
Qed.

Lemma result_at_in_range r query idx :
  indexed r -> (idx < length (chunks r))%nat ->
  exists res, result_at r (combined_scores r query) idx = Some res /\
    result_of r query idx res.
Proof.
  intros Hix Hlt. destruct (lookup_lt_is_Some_2 (chunks r) idx Hlt) as [c Hc].
  unfold result_at. rewrite Hc, (combined_scores_lookup _ _ _ Hix Hlt).
  eexists. split; [reflexivity|]. exists c. repeat split. exact Hc.
Qed.

(** The loop of [retrieve] succeeds on indices within range. *)
Lemma results_of_indices r query indices :
  indexed r -> Forall (fun idx => (idx < length (chunks r))%nat) indices ->
  exists results,
    mapM (result_at r (combined_scores r query)) indices = Some results /\
    Forall2 (result_of r query) indices results.
Proof.
  intros Hix Hall.
  assert (Hex : exists results,
    Forall2 (fun idx res => result_at r (combined_scores r query) idx = Some res /\
                            result_of r query idx res) indices results).
  { induction Hall as [|idx rest Hlt Hrest IH]; [exists []; constructor|].
    destruct IH as (results & Hf).
    destruct (result_at_in_range r query idx Hix Hlt) as (res & Hres).
    exists (res :: results). constructor; assumption. }
  destruct Hex as (results & Hf). exists results. split.
  - apply mapM_Some. eapply Forall2_impl; [exact Hf|]. intros idx res [Hr _]. exact Hr.
  - eapply Forall2_impl; [exact Hf|]. intros idx res [_ Hr]. exact Hr.
Qed.


Lemma nth_combined r query idx :
  indexed r -> (idx < length (chunks r))%nat ->
  nth idx (combined_scores r query) 0%float = chunk_score r query idx.
Proof.
  intros Hix Hlt. apply nth_lookup_Some with (d := 0%float).
  apply combined_scores_lookup; assumption.
Qed.

Lemma not_increasing_leb results :
  not_increasing results ->
  Forall (fun x => PrimFloat.is_nan (score x) = false) results ->
  StronglySorted (fun x y => (score y <=? score x)%float = true) results.
Proof.
  induction 1 as [|x l Hl IH Hx]; intros Hn; [constructor|].
  apply Forall_cons in Hn as [Hnx Hn]. constructor; [apply IH, Hn|].
  eapply Forall_impl; [exact Hx|]. intros y Hy. apply np_lt_false_leb; assumption.
Qed.

(** C2, amended. For a retriever built by [__init__] (so over a corpus
    that is not empty), every query and every [k >= 0], whatever order
    [argsort] gives to equal scores: [retrieve] returns the chunks of
    [min k n] distinct indices, so at most [k]; each result carries the
    chunk's id, text and source and the combined score of that chunk,
    0.7 * BM25 score + 0.3 * TF-IDF similarity as binary64 computes it;
    and the scores do not increase along the results, in numpy's order
    and, when no score is a NaN, in the order of [<=]. The order among
    chunks of equal score is that of the reversed [argsort], which the
    code does not fix. *)
Theorem retrieve_ranked listing r query k :
  __init__ listing = Returned r -> 0 <= k ->
  exists results,
    retrieve r query k = Some results /\
    Forall2 (result_of r query) (top_idx r query k) results /\
    NoDup (top_idx r query k) /\
    Z.of_nat (length results) <= k /\
    length results = Nat.min (Z.to_nat k) (length (chunks r)) /\
    not_increasing results /\
    (Forall (fun x => PrimFloat.is_nan (score x) = false) results ->
     StronglySorted (fun x y => (score y <=? score x)%float = true) results).
Proof.
  intros Hinit Hk. apply build_indexes_indexed in Hinit as (_ & Hix & _).
  unfold retrieve, top_idx. rewrite (slice_to_nonneg _ _ Hk).
  set (combined := combined_scores r query).
  set (indices := firstn (Z.to_nat k) (rev (argsort combined))).
  assert (Hlen : length combined = length (chunks r))
    by apply combined_scores_length, Hix.
  assert (Hin : forall idx, idx ∈ indices -> (idx < length (chunks r))%nat).
  { intros idx Hidx. rewrite <- Hlen. apply argsort_lt.
    apply elem_of_take in Hidx as (i & Hi & _).
    apply in_rev, list_elem_of_In. eapply list_elem_of_lookup_2, Hi. }
  destruct (results_of_indices r query indices Hix) as (results & Hm & Hf).
  { apply Forall_forall. exact Hin. }
  assert (Hlr : length results = length indices)
    by (symmetry; eapply Forall2_length, Hf).
  assert (Hli : length indices = Nat.min (Z.to_nat k) (length (chunks r))).
  { subst indices. rewrite length_take, length_rev, (Permutation_length (argsort_perm combined)).
    rewrite length_seq, Hlen. reflexivity. }
  assert (Hni : not_increasing results).
  { assert (Hsorted : StronglySorted (fun i j => ascending combined j i) indices).
    { apply StronglySorted_firstn, StronglySorted_rev, argsort_sorted. }
    eapply (StronglySorted_Forall2 (result_of r query)); [|exact Hf|exact Hsorted].
    intros i j x y (ci & Hci & _ & _ & _ & Hsi) (cj & Hcj & _ & _ & _ & Hsj) Hasc.
    apply lookup_lt_Some in Hci, Hcj.
    rewrite Hsi, Hsj. unfold ascending in Hasc. subst combined.
    rewrite !nth_combined in Hasc by assumption. exact Hasc. }
  exists results. split; [exact Hm|]. split; [exact Hf|]. split; [|split; [|split; [|split]]].
  - subst indices. eapply sublist_NoDup; [|apply sublist_take].
    apply NoDup_ListNoDup, List.NoDup_rev.
    eapply Permutation_NoDup; [symmetry; apply argsort_perm|]. apply List.seq_NoDup.
  - lia.
  - lia.
  - exact Hni.
  - apply not_increasing_leb, Hni.
Qed.


(** C4, amended. Over an empty corpus the retriever cannot be built: the
    BM25 index divides by the number of chunks, so [__init__] raises and
    no call of [retrieve] is reached. The body of [retrieve] itself, on
    indexes that cover zero chunks, yields the empty list for every query
    and every [k]. *)
Theorem empty_corpus listing query k :
  _load_docs listing = [] ->
  __init__ listing = Raised "division by zero" /\
  build_and_retrieve listing query k = Raised "division by zero" /\
  (forall r, chunks r = [] -> indexed r -> retrieve r query k = Some []).
Proof.
  intros Hl. assert (Hi : __init__ listing = Raised "division by zero").
  { unfold __init__. rewrite Hl. reflexivity. }
  split; [exact Hi|]. split; [unfold build_and_retrieve; rewrite Hi; reflexivity|].
  intros r Hc Hix. unfold retrieve, top_idx.
  assert (Hlen : length (combined_scores r query) = 0%nat)
    by (rewrite combined_scores_length, Hc by exact Hix; reflexivity).
  assert (Ha : argsort (combined_scores r query) = []).
  { apply Permutation_nil. symmetry.
    pose proof (argsort_perm (combined_scores r query)) as Hp.
    rewrite Hlen in Hp. exact Hp. }
  rewrite Ha. unfold Py.slice_to. simpl rev. destruct (0 <=? k); rewrite firstn_nil; reflexivity.
Qed.

End WithLibraries.

(** With the stable argsort the results are listed by decreasing score
    and, among equal scores, by decreasing index: ties come in the
    reverse of the indexing order. *)
Lemma stable_ties_in_reverse_index_order {libs : ScoringLibs} r query k :
  0 <= k ->
  StronglySorted (fun i j => ascending_then_index (combined_scores r query) j i)
    (top_idx (sorter := stable) r query k).
Proof.
  intros Hk. unfold top_idx. rewrite (slice_to_nonneg _ _ Hk).
  apply StronglySorted_firstn, StronglySorted_rev. apply stable_argsort_stable.
Qed.

(** *** Examples *)

Lemma two_files_built : __init__ (libs := overlap_libs) two_files = Returned two_files_retriever.
Proof. vm_compute. reflexivity. Qed.

Example retrieve_beverages :
  id <$> default [] (retrieve (sorter := stable) (libs := overlap_libs)
                       two_files_retriever "Beverages return days" 1)
  = ["A::chunk0"].
Proof. vm_compute. reflexivity. Qed.


(** C2, counterexample. No chunk of the scenario's corpus holds the word
    gamma, so both chunks score 0; the ascending argsort lists them 0, 1
    and the reversal returns chunk 1 before chunk 0. And for [k = -1] the
    slice drops the last index only, so one result is returned. *)
Lemma retrieve_ties_reversed :
  id <$> default [] (retrieve (sorter := stable) (libs := overlap_libs) two_files_retriever "gamma" 2)
    = ["B::chunk0"; "A::chunk0"] /\
  ~ retrieve_as_specified (sorter := stable) (libs := overlap_libs) two_files_retriever "gamma" 2 /\
  ~ retrieve_as_specified (sorter := stable) (libs := overlap_libs) two_files_retriever "gamma" (-1).
Proof.
  split; [vm_compute; reflexivity|]. split.
  - intros (results & Hr & _ & _ & Ht).
    vm_compute in Hr. injection Hr as <-.
    assert (Hlt : (1 < 0)%nat); [|lia].
    eapply (Ht 0%nat 1%nat 1%nat 0%nat); try reflexivity; try lia.
    + eexists. split; [reflexivity|]. repeat split.
    + eexists. split; [reflexivity|]. repeat split.
  - intros (results & Hr & Hlen & _).
    vm_compute in Hr. injection Hr as <-. simpl in Hlen. lia.
Qed.

Lemma two_files_built_rounding :
  __init__ (libs := rounding_libs) two_files = Returned two_files_retriever.
Proof. vm_compute. reflexivity. Qed.

(** The two chunks score 1.05 and 1.0499999999999998: the first chunk
    comes first, although the exact combinations are equal. *)
Example retrieve_rounded :
  (fun x => (id x, score x)) <$>
    default [] (retrieve (sorter := stable) (libs := rounding_libs)
                  two_files_retriever "return" 2)
  = [("A::chunk0", 1.05%float); ("B::chunk0", 1.0499999999999998%float)].
Proof. vm_compute. reflexivity. Qed.

Lemma retrieve_ranked_witness :
  exists results,
    retrieve (sorter := stable) (libs := rounding_libs) two_files_retriever "return" 2
      = Some results /\
    Z.of_nat (length results) <= 2 /\
    not_increasing results.
Proof.
  destruct (retrieve_ranked (sorter := stable) (libs := rounding_libs)
              two_files two_files_retriever "return" 2
              two_files_built_rounding ltac:(lia))
    as (results & Hr & _ & _ & Hlen & _ & Hs & _).
  exists results. split; [exact Hr|]. split; [exact Hlen|exact Hs].
Defined.

(** C4, counterexample. A directory without markdown files gives no
    chunk, and building the retriever raises. *)
Lemma empty_corpus_raises :
  _load_docs no_markdown = [] /\
  build_and_retrieve (sorter := stable) (libs := overlap_libs)
    no_markdown "Beverages" 6
    = Raised "division by zero" /\
  ~ empty_corpus_returns_empty (sorter := stable) (libs := overlap_libs)
      no_markdown.
Proof.
  split; [reflexivity|]. split; [reflexivity|].
  intros Hc. specialize (Hc eq_refl "Beverages" 6). discriminate Hc.
Qed.

Lemma empty_corpus_witness :
  __init__ (libs := overlap_libs) [] = Raised "division by zero" /\
  retrieve (sorter := stable) (libs := overlap_libs) no_chunks_retriever "Beverages" 6 = Some [].
Proof.
  destruct (empty_corpus (sorter := stable) (libs := overlap_libs) [] "Beverages" 6 eq_refl)
    as (Hi & _ & Hr).
  split; [exact Hi|]. apply Hr; [reflexivity|]. split; reflexivity.
Defined.

End RetrievalFacts.

(** ** The workflow controller *)

Section WorkflowFacts.
Import Workflow.

Lemma node_router_repairs sv state :
  repairs (node_router sv state) = repairs state.
Proof.
  unfold node_router. destruct (router sv (question state)) as [out|e]; [|reflexivity].
  destruct (Py.truthy (Py.getattr out "hybrid")); reflexivity.
Qed.

Lemma node_retrieve_repairs sv state state' :
  node_retrieve sv state = Returned state' -> repairs state' = repairs state.
Proof.
  unfold node_retrieve. destruct (retriever_retrieve sv _ _); intros [= <-]. reflexivity.
Qed.

Lemma node_planner_repairs sv state state' :
  node_planner sv state = Returned state' -> repairs state' = repairs state.
Proof.
  unfold node_planner. destruct (planner sv _ _); intros [= <-]. reflexivity.
Qed.

Lemma node_sqlgen_repairs sv state :
  repairs (node_sqlgen sv state) = repairs state.
Proof.
  unfold node_sqlgen.
  destruct (nl2sql sv _ _ _) as [[[sql_text|]|]|e]; try reflexivity.
  destruct (Py.truthy sql_text); reflexivity.
Qed.

Lemma node_sqlexec_repairs sv state :
  repairs (node_sqlexec sv state) = repairs state.
Proof. unfold node_sqlexec. case_bool_decide; reflexivity. Qed.

Lemma node_synthesize_repairs sv state :
  repairs (node_synthesize sv state) = repairs state.
Proof. unfold node_synthesize. destruct (synth sv state) as [[out|]|e]; reflexivity. Qed.

(** The repair node alone keeps the counter within its bounds: it has a
    cap of its own. *)
Lemma node_validate_or_repair_bounded state :
  0 <= repairs state <= 2 -> 0 <= repairs (node_validate_or_repair state) <= 2.
Proof.
  intros Hb. unfold node_validate_or_repair.
  destruct (Py.truthy_opt (error state)); [|exact Hb].
  destruct (Z.leb_spec 2 (repairs state)); [exact Hb|]. simpl. lia.
Qed.

Lemma step_preserves_bound sv c : repairs_bounded c -> repairs_bounded (step sv c).
Proof.
  destruct c as [n state|e]; [|trivial].
  destruct n; simpl; intros Hb.
  - rewrite node_router_repairs. exact Hb.
  - destruct (node_retrieve sv state) as [state'|e] eqn:E; simpl; [|trivial].
    rewrite (node_retrieve_repairs _ _ _ E). exact Hb.
  - destruct (node_planner sv state) as [state'|e] eqn:E; simpl; [|trivial].
    rewrite (node_planner_repairs _ _ _ E). exact Hb.
  - rewrite node_sqlgen_repairs. exact Hb.
  - rewrite node_sqlexec_repairs. exact Hb.
  - rewrite node_synthesize_repairs. exact Hb.
  - apply node_validate_or_repair_bounded, Hb.
  - exact Hb.
Qed.

Lemma run_preserves_bound trace : forall c, repairs_bounded c -> repairs_bounded (run trace c).
Proof.
  induction trace as [|sv trace IH]; intros c Hb; [exact Hb|].
  simpl. apply IH, step_preserves_bound, Hb.
Qed.

Lemma should_repair_iff state :
  should_repair state = "repair" <->
  Py.truthy_opt (error state) = true /\ repairs state < 2.
Proof.
  unfold should_repair. destruct (Py.truthy_opt (error state)).
  - destruct (Z.ltb_spec (repairs state) 2); split; try easy; intros [_ ?]; lia.
  - split; [discriminate|intros [? _]; discriminate].
Qed.

(** C1. In every execution of the graph from the input of
    [run_hybrid_agent] (repairs = 0), whatever the collaborators answer
    and however often they fail, the repair counter of every state the
    run goes through lies between 0 and 2; and the decision after the
    synthesizer selects the repair node exactly when an error is set and
    fewer than 2 repairs were made. *)
Theorem repairs_never_exceed_two question format_hint n state :
  reachable question format_hint (At n state) ->
  0 <= repairs state <= 2 /\
  (conditional_edge (should_repair state) = Repair <->
   Py.truthy_opt (error state) = true /\ repairs state < 2).
Proof.
  intros [trace Hrun]. split.
  - change (repairs_bounded (At n state)). rewrite <- Hrun.
    apply run_preserves_bound. simpl. lia.
  - rewrite <- should_repair_iff. unfold conditional_edge.
    case_bool_decide; split; congruence.
Qed.


Lemma repairs_never_exceed_two_witness :
  exists state,
    run failing_trace (initial "How many?" "int") = At END state /\
    repairs state = 2 /\
    (0 <= repairs state <= 2 /\
     (conditional_edge (should_repair state) = Repair <->
      Py.truthy_opt (error state) = true /\ repairs state < 2)).
Proof.
  eexists. split; [vm_compute; reflexivity|]. split; [reflexivity|].
  apply (repairs_never_exceed_two "How many?" "int" END).
  exists failing_trace. vm_compute. reflexivity.
Defined.

(** *** The confidence estimate *)

Lemma compute_confidence_by_conditions state :
  compute_confidence state =
  py_min (0.1 + bonus (error_unset state) 0.4
              + bonus (no_repairs state) 0.3
              + bonus (has_docs state) 0.3)%float 1.0%float.
Proof.
  unfold compute_confidence, error_unset, no_repairs, has_docs.
  destruct (Py.truthy_opt (error state)), (repairs state =? 0),
    (Py.truthy_list (retrieved_docs state)); reflexivity.
Qed.

(** The eight values of the estimate are the binary64 numbers of the
    decimal sums. *)
Lemma compute_confidence_table state :
  compute_confidence state =
  match error_unset state, no_repairs state, has_docs state with
  | true, true, true => 1.0
  | true, true, false => 0.8
  | true, false, true => 0.8
  | true, false, false => 0.5
  | false, true, true => 0.7
  | false, true, false => 0.4
  | false, false, true => 0.4
  | false, false, false => 0.1
  end%float.
Proof.
  rewrite compute_confidence_by_conditions.
  destruct (error_unset state), (no_repairs state), (has_docs state); reflexivity.
Qed.

Lemma conditions_plain state :
  error_unset state = error_absent state /\
  no_repairs state = repairs_zero state /\
  has_docs state = docs_found state.
Proof.
  unfold error_unset, error_absent, no_repairs, repairs_zero, has_docs, docs_found.
  split; [|split].
  - destruct (error state) as [[|c msg]|]; reflexivity.
  - destruct (Z.eqb_spec (repairs state) 0) as [H|H].
    + now rewrite bool_decide_eq_true_2.
    + now rewrite bool_decide_eq_false_2.
  - destruct (retrieved_docs state); reflexivity.
Qed.

(** C5, amended. [compute_confidence] is, in binary64, 0.1 plus 0.4 if
    the error is [None] or the empty text, plus 0.3 if repairs is 0, plus
    0.3 if a document was retrieved, and at most 1.0: one of the eight
    values below, each the binary64 number of the decimal sum. It lies
    between 0.1 and 1.0, and a state that has every condition of another
    one has at least its confidence. An error that is the empty text
    counts as no error, for the code tests the truth value of the field
    and not whether it is [None]. *)
Theorem compute_confidence_values state :
  compute_confidence state =
    match error_absent state, repairs_zero state, docs_found state with
    | true, true, true => 1.0
    | true, true, false => 0.8
    | true, false, true => 0.8
    | true, false, false => 0.5
    | false, true, true => 0.7
    | false, true, false => 0.4
    | false, false, true => 0.4
    | false, false, false => 0.1
    end%float /\
  PrimFloat.leb 0.1 (compute_confidence state) = true /\
  PrimFloat.leb (compute_confidence state) 1.0 = true /\
  (forall state',
     (error_absent state = true -> error_absent state' = true) /\
     (repairs_zero state = true -> repairs_zero state' = true) /\
     (docs_found state = true -> docs_found state' = true) ->
     PrimFloat.leb (compute_confidence state) (compute_confidence state') = true).
Proof.
  assert (Ht : forall st, compute_confidence st =
    match error_absent st, repairs_zero st, docs_found st with
    | true, true, true => 1.0
    | true, true, false => 0.8
    | true, false, true => 0.8
    | true, false, false => 0.5
    | false, true, true => 0.7
    | false, true, false => 0.4
    | false, false, true => 0.4
    | false, false, false => 0.1
    end%float).
  { intros st. rewrite compute_confidence_table.
    destruct (conditions_plain st) as (-> & -> & ->). reflexivity. }
  split; [apply Ht|]. split; [|split].
  - rewrite Ht.
    destruct (error_absent state), (repairs_zero state), (docs_found state); reflexivity.
  - rewrite Ht.
    destruct (error_absent state), (repairs_zero state), (docs_found state); reflexivity.
  - intros state' (He & Hr & Hd). rewrite !Ht.
    destruct (error_absent state), (repairs_zero state), (docs_found state);
      try rewrite (He eq_refl); try rewrite (Hr eq_refl); try rewrite (Hd eq_refl);
      destruct (error_absent state'), (repairs_zero state'), (docs_found state');
      reflexivity.
Qed.

(** C5, counterexample. A synthesizer that raises an exception without a
    message leaves the empty text in the error field. The run ends there,
    with an error that is set and not null, no repair and no document;
    the specification gives 0.1 + 0.3 and the code 0.1 + 0.4 + 0.3. *)
Lemma confidence_counts_empty_error :
  run (replicate 6 executing_services) (initial "How many?" "int")
    = At END silent_end_state /\
  error silent_end_state = Some EmptyString /\
  compute_confidence silent_end_state = 0.8%float /\
  confidence_as_specified silent_end_state = 0.4%float /\
  ~ confidence_is_as_specified.
Proof.
  assert (Hrun : run (replicate 6 executing_services) (initial "How many?" "int")
                 = At END silent_end_state) by (vm_compute; reflexivity).
  split; [exact Hrun|]. split; [reflexivity|]. split; [reflexivity|].
  split; [reflexivity|].
  intros H. specialize (H "How many?" "int" silent_end_state).
  assert (Hreach : reachable "How many?" "int" (At END silent_end_state)).
  { exists (replicate 6 executing_services). exact Hrun. }
  specialize (H Hreach). vm_compute in H. discriminate H.
Qed.


(** *** The repair node *)

(** C6, counterexample. With an error set and repairs = 2 the repair node
    returns the state as it is: it checks the cap itself. *)
Lemma repair_has_its_own_cap :
  node_validate_or_repair exhausted_state = exhausted_state /\
  ~ repair_is_unconditional.
Proof.
  split; [reflexivity|].
  intros H. destruct (H exhausted_state) as [Hr _]. vm_compute in Hr. discriminate.
Qed.

(** C6, amended. The repair node adds one to repairs and empties sql in
    the states the decision function sends to it (error set and repairs
    below 2); in every other state it returns the state unchanged, for it
    tests the error and the cap itself. *)
Theorem repair_follows_decision state :
  (should_repair state = "repair" ->
     repairs (node_validate_or_repair state) = repairs state + 1 /\
     sql (node_validate_or_repair state) = EmptyString) /\
  (should_repair state = "end" -> node_validate_or_repair state = state).
Proof.
  unfold should_repair, node_validate_or_repair.
  destruct (Py.truthy_opt (error state)).
  - destruct (Z.ltb_spec (repairs state) 2), (Z.leb_spec 2 (repairs state));
      try lia; split; try discriminate; intros _; auto.
  - split; [discriminate|reflexivity].
Qed.

Lemma repair_follows_decision_witness :
  should_repair failed_state = "repair" /\
  should_repair exhausted_state = "end" /\
  (repairs (node_validate_or_repair failed_state) = 1 /\
   sql (node_validate_or_repair failed_state) = EmptyString) /\
  node_validate_or_repair exhausted_state = exhausted_state.
Proof.
  split; [reflexivity|]. split; [reflexivity|]. split.
  - apply (proj1 (repair_follows_decision failed_state)). reflexivity.
  - apply (proj2 (repair_follows_decision exhausted_state)). reflexivity.
Defined.

(** C10. In a state with an error set and fewer than 2 repairs, the
    repair node changes repairs (one more) and sql (emptied) and nothing
    else. *)
Theorem repair_frame state :
  Py.truthy_opt (error state) = true -> repairs state < 2 ->
  let state' := node_validate_or_repair state in
  repairs state' = repairs state + 1 /\
  sql state' = EmptyString /\
  question state' = question state /\
  format_hint state' = format_hint state /\
  route state' = route state /\
  retrieved_docs state' = retrieved_docs state /\
  plan state' = plan state /\
  sql_result state' = sql_result state /\
  rows state' = rows state /\
  columns state' = columns state /\
  tables_used state' = tables_used state /\
  error state' = error state /\
  citations state' = citations state /\
  final_answer state' = final_answer state /\
  explanation state' = explanation state.
Proof.
  intros He Hr. unfold node_validate_or_repair. rewrite He.
  destruct (Z.leb_spec 2 (repairs state)); [lia|].
  simpl. repeat split.
Qed.

Lemma repair_frame_witness :
  let state' := node_validate_or_repair failed_state in
  repairs state' = 1 /\ sql state' = EmptyString /\
  error state' = Some "no such table: Missing" /\
  question state' = "How many?".
Proof.
  pose proof (repair_frame failed_state eq_refl eq_refl) as H.
  cbv zeta in H. cbv zeta. 
  destruct H as (H1 & H2 & H3 & _ & _ & _ & _ & _ & _ & _ & _ & H12 & _).
  split; [exact H1|]. split; [exact H2|]. split; [exact H12| exact H3].
Defined.

(** *** The synthesizer *)

(** C7, counterexample. On a [None] output the final answer is a fixed
    notice, not the empty text. *)
Lemma synthesize_none_answer_not_empty :
  final_answer (node_synthesize failing_services failed_state) = "No synthesis output" /\
  ~ synthesize_none_gives_empty failing_services failed_state.
Proof.
  split; [reflexivity|].
  intros H. destruct (H eq_refl) as [Hf _]. vm_compute in Hf. discriminate.
Qed.

(** C7, amended. On a [None] output the synthesizer sets the final answer
    to the notice [No synthesis output], the explanation to the empty
    text and the citations to the empty list, and leaves the error (and
    every other field) as it was. *)
Theorem synthesize_none sv state :
  synth sv state = Returned None ->
  node_synthesize sv state =
    set_citations (PList []) (set_explanation EmptyString
      (set_final_answer "No synthesis output" state)) /\
  final_answer (node_synthesize sv state) = "No synthesis output" /\
  explanation (node_synthesize sv state) = EmptyString /\
  citations (node_synthesize sv state) = PList [] /\
  error (node_synthesize sv state) = error state.
Proof.
  intros H. unfold node_synthesize. rewrite H. repeat split.
Qed.

Lemma synthesize_none_witness :
  final_answer (node_synthesize failing_services failed_state) = "No synthesis output" /\
  error (node_synthesize failing_services failed_state) = Some "no such table: Missing".
Proof.
  destruct (synthesize_none failing_services failed_state eq_refl) as (_ & Hf & _ & _ & He).
  split; [exact Hf | exact He].
Defined.


(** *** The router *)

(** C9, counterexample. The router's text is stripped and put in lower
    case, and stored whatever it is. *)
Lemma route_not_enumerated :
  run [failing_services] (initial "How many?" "int")
    = At Retrieve (set_route "banana" (inputs "How many?" "int")) /\
  ~ route_is_enumerated.
Proof.
  split; [reflexivity|].
  intros H.
  assert (Hin : "banana" ∈ route_values).
  { apply (H "How many?" "int" Retrieve
             (set_route "banana" (inputs "How many?" "int"))); [|discriminate].
    exists [failing_services]. reflexivity. }
  apply list_elem_of_In in Hin. simpl in Hin. intuition discriminate.
Qed.

Lemma node_router_route sv state :
  route (node_router sv state) = routed sv (question state).
Proof.
  unfold node_router, routed. destruct (router sv (question state)) as [out|e]; [|reflexivity].
  destruct (Py.truthy (Py.getattr out "hybrid")); reflexivity.
Qed.

(** Past the router no node assigns the route. *)
Lemma step_keeps_route sv r c : route_kept r c -> route_kept r (step sv c).
Proof.
  destruct c as [n state|e]; [|trivial].
  destruct n; simpl; intros [Hn Hr]; try congruence.
  - unfold node_retrieve. destruct (retriever_retrieve sv _ _); simpl; [|trivial].
    split; [discriminate|exact Hr].
  - unfold node_planner. destruct (planner sv _ _); simpl; [|trivial].
    split; [discriminate|exact Hr].
  - split; [discriminate|]. unfold node_sqlgen.
    destruct (nl2sql sv _ _ _) as [[[sql_text|]|]|e]; try exact Hr.
    destruct (Py.truthy sql_text); exact Hr.
  - split; [discriminate|]. unfold node_sqlexec. case_bool_decide; exact Hr.
  - split.
    + unfold conditional_edge. case_bool_decide; discriminate.
    + unfold node_synthesize. destruct (synth sv state) as [[out|]|e]; exact Hr.
  - split; [discriminate|]. unfold node_validate_or_repair.
    destruct (Py.truthy_opt (error state)); [|exact Hr].
    destruct (2 <=? repairs state); exact Hr.
  - split; [exact Hn|exact Hr].
Qed.

Lemma run_keeps_route trace : forall r c, route_kept r c -> route_kept r (run trace c).
Proof.
  induction trace as [|sv trace IH]; intros r c H; [exact H|].
  simpl. apply IH, step_keeps_route, H.
Qed.

(** C9, amended. Once the router has run, the route of every state of the
    run is what the router stored at the first step: hybrid when the
    router raised or gave no route, else the router's text stripped and
    in lower case, which nothing compares with rag, sql and hybrid. When
    the router raises, the route is hybrid, the first step records the
    error [Router failed:] with the first 100 characters of the message,
    and the run goes on to the retriever. *)
Theorem route_after_router question format_hint sv trace n state :
  run (sv :: trace) (initial question format_hint) = At n state ->
  n <> Router /\
  match router sv question with
  | Raised e =>
      route state = "hybrid" /\
      step sv (initial question format_hint) =
        At Retrieve
          (set_error (Some ("Router failed: " +:+ Py.take 100 e))
             (set_route "hybrid" (inputs question format_hint)))
  | Returned None => route state = "hybrid"
  | Returned (Some out) =>
      route state = if Py.truthy out then Py.lower (Py.strip out) else "hybrid"
  end.
Proof.
  intros Hrun.
  change (run trace (step sv (initial question format_hint)) = At n state) in Hrun.
  assert (Hk : route_kept (routed sv question) (At n state)).
  { rewrite <- Hrun. apply run_keeps_route. simpl.
    split; [discriminate|]. apply node_router_route. }
  destruct Hk as [Hn Hr]. split; [exact Hn|]. rewrite Hr.
  unfold routed. simpl. unfold node_router. simpl.
  destruct (router sv question) as [[out|]|e]; [reflexivity|reflexivity|].
  split; reflexivity.
Qed.

Lemma route_after_router_witness :
  route (set_error (Some "Router failed: Ollama connection failed: refused")
           (set_route "hybrid" (inputs "How many?" "int"))) = "hybrid" /\
  step router_down (initial "How many?" "int") =
    At Retrieve
      (set_error (Some "Router failed: Ollama connection failed: refused")
         (set_route "hybrid" (inputs "How many?" "int"))).
Proof.
  exact (proj2 (route_after_router "How many?" "int" router_down [] Retrieve
                  (set_error (Some "Router failed: Ollama connection failed: refused")
                     (set_route "hybrid" (inputs "How many?" "int")))
                  eq_refl)).
Defined.

End WorkflowFacts.

(** * Further properties *)

(** ** Stripping *)

Section StripFacts.

Lemma lstrip_starts_clean s : starts_clean (Py.lstrip s).
Proof.
  induction s as [|c s IH]; simpl; [exact I|].
  destruct (Py.isspace c) eqn:Hc; [exact IH|exact Hc].
Qed.

Lemma lstrip_clean s : starts_clean s -> Py.lstrip s = s.
Proof. destruct s as [|c s]; simpl; [reflexivity|]. intros ->. reflexivity. Qed.

Lemma rstrip_starts_clean s : starts_clean s -> starts_clean (Py.rstrip s).
Proof.
  destruct s as [|c s]; simpl; [trivial|]. intros Hc.
  destruct (Py.rstrip s); [rewrite Hc|]; exact Hc.
Qed.

Lemma rstrip_keeps_head c s :
  Py.isspace c = false -> exists r, Py.rstrip (String c s) = String c r.
Proof.
  intros Hc. simpl. destruct (Py.rstrip s); [rewrite Hc|]; eexists; reflexivity.
Qed.

Lemma rstrip_idempotent s : Py.rstrip (Py.rstrip s) = Py.rstrip s.
Proof.
  induction s as [|c s IH]; simpl; [reflexivity|].
  destruct (Py.rstrip s) as [|d r] eqn:Hr.
  - destruct (Py.isspace c) eqn:Hc; [reflexivity|]. simpl. rewrite Hc. reflexivity.
  - change (Py.rstrip (String c (String d r))) with
      (match Py.rstrip (String d r) with
       | EmptyString => if Py.isspace c then EmptyString else String c EmptyString
       | r' => String c r'
       end).
    rewrite IH. reflexivity.
Qed.

Lemma strip_starts_clean s : starts_clean (Py.strip s).
Proof. apply rstrip_starts_clean, lstrip_starts_clean. Qed.

(** [strip] is idempotent. *)
Lemma strip_idempotent s : Py.strip (Py.strip s) = Py.strip s.
Proof.
  unfold Py.strip at 1. rewrite (lstrip_clean _ (strip_starts_clean s)).
  unfold Py.strip. apply rstrip_idempotent.
Qed.

End StripFacts.

(** ** Executions of the workflow *)

Section WorkflowRunFacts.
Import Workflow.

Lemma should_repair_cases state :
  (should_repair state = "repair" /\ Py.truthy_opt (error state) = true /\ repairs state < 2) \/
  (should_repair state = "end" /\ (Py.truthy_opt (error state) = false \/ 2 <= repairs state)).
Proof.
  unfold should_repair. destruct (Py.truthy_opt (error state)); [|right; auto].
  destruct (Z.ltb_spec (repairs state) 2); [left|right]; auto.
Qed.

Lemma step_invariant sv c :
  run_invariant c ->
  run_invariant (step sv c) /\ (steps_left (step sv c) <= steps_left c - 1)%nat.
Proof.
  destruct c as [n state|e]; [|simpl; auto].
  destruct n; simpl; intros Hinv.
  - rewrite node_router_repairs. split; [exact Hinv|lia].
  - destruct (node_retrieve sv state) as [state'|e] eqn:E; simpl; [|split; [trivial|lia]].
    rewrite (node_retrieve_repairs _ _ _ E). split; [exact Hinv|lia].
  - destruct (node_planner sv state) as [state'|e] eqn:E; simpl; [|split; [trivial|lia]].
    rewrite (node_planner_repairs _ _ _ E). split; [exact Hinv|lia].
  - rewrite node_sqlgen_repairs. split; [exact Hinv|lia].
  - rewrite node_sqlexec_repairs. split; [exact Hinv|lia].
  - pose proof (node_synthesize_repairs sv state) as Hr.
    destruct (should_repair_cases (node_synthesize sv state)) as [(Hs & He & Hlt)|(Hs & Hc)];
      rewrite Hs; unfold conditional_edge; simpl.
    + rewrite Hr in *. split; [split; [lia|exact He]|lia].
    + rewrite Hr. split; [split; [exact Hinv|reflexivity]|lia].
  - destruct Hinv as [Hb He]. unfold node_validate_or_repair. rewrite He.
    destruct (Z.leb_spec 2 (repairs state)); [lia|]. simpl. split; lia.
  - split; [exact Hinv|lia].
Qed.

Lemma run_invariant_steps trace : forall c,
  run_invariant c ->
  run_invariant (run trace c) /\
  (steps_left (run trace c) <= steps_left c - length trace)%nat.
Proof.
  induction trace as [|sv trace IH]; intros c Hinv; [simpl; split; [exact Hinv|lia]|].
  destruct (step_invariant sv c Hinv) as [Hi Hs].
  destruct (IH (step sv c) Hi) as [Hi' Hs']. simpl. split; [exact Hi'|]. simpl in Hs'. lia.
Qed.

Lemma no_steps_left_terminal c : run_invariant c -> steps_left c = 0%nat -> terminal c.
Proof.
  destruct c as [n state|e]; [|trivial].
  destruct n; simpl; intros Hinv Hz; try exact I; try lia.
Qed.

Lemma initial_invariant question format_hint : run_invariant (initial question format_hint).
Proof. simpl. lia. Qed.

Lemma long_run_terminal question format_hint trace :
  (14 <= length trace)%nat -> terminal (run trace (initial question format_hint)).
Proof.
  intros Hlen.
  destruct (run_invariant_steps trace _ (initial_invariant question format_hint)) as [Hi Hs].
  apply no_steps_left_terminal; [exact Hi|].
  change (steps_left (initial question format_hint)) with 14%nat in Hs. lia.
Qed.

(** X1. An execution of the graph is over after at most 14 steps, whatever
    the collaborators answer: the six nodes of the first pass and twice the
    four nodes of a repair round. 13 steps are not enough when both repairs
    are used. *)
Theorem run_terminates question format_hint :
  (forall trace, (14 <= length trace)%nat ->
     terminal (run trace (initial question format_hint))) /\
  (exists trace, length trace = 13%nat /\
     ~ terminal (run trace (initial question format_hint))).
Proof.
  split.
  - apply long_run_terminal.
  - exists (replicate 13 failing_services). split; [reflexivity|].
    vm_compute. intros H. exact H.
Qed.

Lemma step_steady sv c : steady sv -> ~ aborted c -> ~ aborted (step sv c).
Proof.
  intros [Hr Hp] Hc. destruct c as [n state|e]; [|exact Hc].
  destruct n; simpl; try (intros H; exact H).
  - unfold node_retrieve. destruct (Hr (question state) 6) as [docs ->]. intros H; exact H.
  - unfold node_planner.
    destruct (Hp (question state) (retrieved_docs state)) as [plan_out ->]. intros H; exact H.
Qed.

Lemma run_steady trace : forall c, Forall steady trace -> ~ aborted c -> ~ aborted (run trace c).
Proof.
  induction trace as [|sv trace IH]; intros c Hall Hc; [exact Hc|].
  apply Forall_cons in Hall as [Hsv Hall]. simpl. apply IH; [exact Hall|].
  apply step_steady; assumption.
Qed.

(** X2. Only the retriever and the planner can end a run by an exception:
    when they do not raise, the run reaches END within 14 steps, whatever
    the router, the SQL generator, the database and the synthesizer do. *)
Theorem steady_run_reaches_end question format_hint trace :
  Forall steady trace -> (14 <= length trace)%nat ->
  exists state, run trace (initial question format_hint) = At END state.
Proof.
  intros Hall Hlen.
  pose proof (long_run_terminal question format_hint trace Hlen) as Hterm.
  pose proof (run_steady trace (initial question format_hint) Hall (fun H => H)) as Hna.
  destruct (run trace (initial question format_hint)) as [n state|e]; [|exfalso; apply Hna; exact I].
  destruct n; try contradiction. exists state. reflexivity.
Qed.

Lemma failing_services_steady : steady failing_services.
Proof. split; intros; eexists; reflexivity. Qed.

Lemma steady_run_reaches_end_witness :
  exists state, run failing_trace (initial "How many?" "int") = At END state.
Proof.
  apply (steady_run_reaches_end "How many?" "int" failing_trace).
  - repeat constructor; apply failing_services_steady.
  - vm_compute. lia.
Defined.

Lemma end_no_error_or_exhausted question format_hint state :
  reachable question format_hint (At END state) ->
  Py.truthy_opt (error state) = false \/ repairs state = 2.
Proof.
  intros [trace Hrun].
  destruct (run_invariant_steps trace _ (initial_invariant question format_hint)) as [Hi _].
  rewrite Hrun in Hi. destruct Hi as [Hb Hs].
  destruct (should_repair_cases state) as [(Hs' & _)|(_ & [He|Hr])]; [congruence|left; exact He|right; lia].
Qed.

Lemma failing_trace_end : reachable "How many?" "int" (At END failing_end_state).
Proof. exists failing_trace. vm_compute. reflexivity. Qed.

(** X3. A run ends only when no error is pending or both repairs are used;
    so an answer given with an error still pending comes after two repairs
    and has a confidence of at most 0.4, and an answer without a pending
    error has a confidence of at least 0.5. *)
Theorem confidence_at_end question format_hint state :
  reachable question format_hint (At END state) ->
  (Py.truthy_opt (error state) = false \/ repairs state = 2) /\
  (if Py.truthy_opt (error state)
   then PrimFloat.leb (compute_confidence state) 0.4 = true
   else PrimFloat.leb 0.5 (compute_confidence state) = true).
Proof.
  intros Hreach. pose proof (end_no_error_or_exhausted _ _ _ Hreach) as Hend.
  split; [exact Hend|]. rewrite compute_confidence_table.
  destruct Hend as [He|Hr].
  - unfold error_unset. rewrite He. simpl.
    destruct (no_repairs state), (has_docs state); reflexivity.
  - unfold error_unset, no_repairs. rewrite Hr. simpl.
    destruct (Py.truthy_opt (error state)), (has_docs state); reflexivity.
Qed.

Lemma confidence_at_end_witness :
  repairs failing_end_state = 2 /\
  PrimFloat.leb (compute_confidence failing_end_state) 0.4 = true.
Proof.
  split; [reflexivity|].
  exact (proj2 (confidence_at_end "How many?" "int" failing_end_state failing_trace_end)).
Defined.

Lemma step_keeps_inputs sv n state n' state' :
  step sv (At n state) = At n' state' ->
  question state' = question state /\ format_hint state' = format_hint state /\
  repairs state <= repairs state'.
Proof.
  destruct n; simpl.
  - intros [= <- <-]. rewrite node_router_repairs. unfold node_router.
    destruct (router sv _) as [out|e]; [destruct (Py.truthy _)|]; repeat split; lia.
  - unfold node_retrieve. destruct (retriever_retrieve sv _ _); intros [= <- <-]. repeat split. simpl. lia.
  - unfold node_planner. destruct (planner sv _ _); intros [= <- <-]. repeat split. simpl. lia.
  - intros [= <- <-]. rewrite node_sqlgen_repairs. unfold node_sqlgen.
    destruct (nl2sql sv _ _ _) as [[[sql_text|]|]|e]; [destruct (Py.truthy _)| | |];
      repeat split; lia.
  - intros [= <- <-]. rewrite node_sqlexec_repairs. unfold node_sqlexec.
    case_bool_decide; repeat split; lia.
  - intros [= <- <-]. rewrite node_synthesize_repairs. unfold node_synthesize.
    destruct (synth sv state) as [[out|]|e]; repeat split; lia.
  - intros [= <- <-]. unfold node_validate_or_repair.
    destruct (Py.truthy_opt _); [destruct (2 <=? repairs state)|]; repeat split; simpl; lia.
  - intros [= <- <-]. repeat split. lia.
Qed.

(** X4. Along an execution the question and the format hint stay what they
    were, since no node assigns them, and the repair counter never goes
    down. *)
Theorem run_keeps_inputs trace : forall n state n' state',
  run trace (At n state) = At n' state' ->
  question state' = question state /\ format_hint state' = format_hint state /\
  repairs state <= repairs state'.
Proof.
  induction trace as [|sv trace IH]; intros n state n' state' Hrun.
  - injection Hrun as <- <-. repeat split. lia.
  - change (run trace (step sv (At n state)) = At n' state') in Hrun.
    destruct (step sv (At n state)) as [n1 state1|e] eqn:Hstep.
    + destruct (step_keeps_inputs _ _ _ _ _ Hstep) as (Hq & Hf & Hr).
      destruct (IH _ _ _ _ Hrun) as (Hq' & Hf' & Hr').
      rewrite Hq', Hf', Hq, Hf. repeat split. lia.
    + exfalso. clear -Hrun. induction trace as [|sv' trace IH]; [discriminate|].
      simpl in Hrun. exact (IH Hrun).
Qed.

Lemma run_keeps_inputs_witness :
  question failing_end_state = "How many?" /\ format_hint failing_end_state = "int" /\
  0 <= repairs failing_end_state.
Proof.
  apply (run_keeps_inputs failing_trace Router (inputs "How many?" "int") END failing_end_state).
  vm_compute. reflexivity.
Defined.

End WorkflowRunFacts.

(** ** The SQL nodes *)

Section NodeFacts.
Import Workflow.

(** X5. After the SQL generator the candidate query has no white space
    around it, on every path. *)
Theorem node_sqlgen_sql_stripped sv state :
  Py.strip (sql (node_sqlgen sv state)) = sql (node_sqlgen sv state) /\
  (sql (node_sqlgen sv state) = EmptyString \/
   exists sql_text, nl2sql sv (question state) (plan state) (get_schema_snapshot sv)
                      = Returned (Some (Some sql_text)) /\
                    sql (node_sqlgen sv state) = Py.strip sql_text).
Proof.
  unfold node_sqlgen.
  destruct (nl2sql sv _ _ _) as [[[sql_text|]|]|e]; simpl; try (split; [reflexivity|left; reflexivity]).
  destruct (Py.truthy sql_text); simpl; [|split; [reflexivity|left; reflexivity]].
  split; [apply strip_idempotent|]. right. exists sql_text. split; reflexivity.
Qed.

(** X6. A generated text of white space only is not reported: the generator
    stores the empty query without an error, the executor then skips the
    database, and the error field is what it was before the two nodes. *)
Theorem blank_sql_is_not_an_error sv sv' state sql_text :
  nl2sql sv (question state) (plan state) (get_schema_snapshot sv)
    = Returned (Some (Some sql_text)) ->
  Py.truthy sql_text = true -> Py.strip sql_text = EmptyString ->
  let state' := node_sqlexec sv' (node_sqlgen sv state) in
  state' = set_sql_result (ErrorOnly "Empty SQL.") (set_sql EmptyString state) /\
  error state' = error state /\
  should_repair state' = should_repair state.
Proof.
  intros Hn Ht Hs. cbv zeta. unfold node_sqlgen. rewrite Hn, Ht, Hs.
  unfold node_sqlexec. simpl. repeat split.
Qed.

Lemma blank_sql_is_not_an_error_witness :
  error (node_sqlexec failing_services
           (node_sqlgen blank_sql_services (inputs "How many?" "int"))) = None.
Proof.
  exact (proj1 (proj2 (blank_sql_is_not_an_error blank_sql_services failing_services
                         (inputs "How many?" "int") "  " eq_refl eq_refl eq_refl))).
Defined.

(** X7. The executor on a query that is not empty. The tables are those
    scanned from the query, whatever the database does. The error of the
    state is the outcome of this execution: it is [None] only when the
    statement ran and the commit went through, and then no repair follows,
    so a success clears an earlier error; when the execution itself raises,
    the error is its message and rows and columns are empty. A failure
    after the execution keeps what was assigned before it: the columns of a
    select statement stay in the state next to the error of [fetchall].
    Rows and columns are fetched for a select statement only. *)
Theorem node_sqlexec_outcome sv state :
  sql state <> EmptyString ->
  let state' := node_sqlexec sv state in
  let is_select := Py.startswith "select" (Py.lower (Py.strip (sql state))) in
  tables_used state' = SQLiteTool.extract_tables_used (sql state) /\
  (error state' = None ->
     should_repair state' = "end" /\
     exists cur, engine sv (sql state) = Returned cur /\
                 SQLiteTool.commit cur = Returned tt) /\
  (forall e, engine sv (sql state) = Raised e ->
     error state' = Some e /\ rows state' = [] /\ columns state' = []) /\
  (forall cur cols, engine sv (sql state) = Returned cur -> is_select = true ->
     SQLiteTool.description cur = Some cols ->
     columns state' = cols /\
     (forall e, SQLiteTool.fetchall cur = Raised e ->
        error state' = Some e /\ rows state' = []) /\
     (forall rws, SQLiteTool.fetchall cur = Returned rws ->
        rows state' = rws /\
        error state' = match SQLiteTool.commit cur with
                       | Returned _ => None
                       | Raised e => Some e
                       end)) /\
  (is_select = false -> rows state' = [] /\ columns state' = []).
Proof.
  intros Hne. cbv zeta. unfold node_sqlexec. rewrite bool_decide_eq_false_2 by exact Hne.
  simpl. split; [apply run_sql_tables_used|].
  unfold SQLiteTool.run_sql, SQLiteTool.commit_and_close.
  destruct (engine sv (sql state)) as [cur|e0] eqn:Ee;
    [destruct (Py.startswith _ _) eqn:Es;
       [destruct (SQLiteTool.description cur) as [cols0|] eqn:Ed;
          [destruct (SQLiteTool.fetchall cur) as [rws0|e1] eqn:Ef;
             [destruct (SQLiteTool.commit cur) as [[]|e2] eqn:Ec|]|]
       |destruct (SQLiteTool.commit cur) as [[]|e2] eqn:Ec]|];
    simpl; repeat split; intros; simplify_eq; try reflexivity; eauto.
  all: try (rewrite Ec; reflexivity); congruence.
Qed.

(** A database that describes one column and then fails to fetch. *)
Lemma node_sqlexec_outcome_witness :
  error (node_sqlexec failing_services failed_state) = Some "no such table: Missing" /\
  rows (node_sqlexec failing_services failed_state) = [] /\
  columns (node_sqlexec overflowing_services failed_state) = ["c"] /\
  error (node_sqlexec overflowing_services failed_state) = Some "integer overflow".
Proof.
  destruct (node_sqlexec_outcome failing_services failed_state) as (_ & _ & H & _).
  - discriminate.
  - destruct (H _ eq_refl) as (He & Hr & _).
    destruct (node_sqlexec_outcome overflowing_services failed_state) as (_ & _ & _ & H' & _).
    + discriminate.
    + destruct (H' _ ["c"] eq_refl eq_refl eq_refl) as (Hc & Hf & _).
      destruct (Hf _ eq_refl) as (He' & _).
      split; [exact He|]. split; [exact Hr|]. split; [exact Hc|exact He'].
Defined.

End NodeFacts.

(** ** The error field *)

Section ErrorFacts.
Import Workflow.

Lemma step_error_reset sv n state n' state' :
  step sv (At n state) = At n' state' ->
  error state <> None -> error state' = None ->
  n = SqlExec /\ sql state <> EmptyString /\
  exists cur, engine sv (sql state) = Returned cur.
Proof.
  destruct n; simpl.
  - intros [= <- <-]. unfold node_router.
    destruct (router sv _) as [out|e]; [destruct (Py.truthy _)|]; simpl; intros; congruence.
  - unfold node_retrieve. destruct (retriever_retrieve sv _ _); intros [= <- <-]. simpl. congruence.
  - unfold node_planner. destruct (planner sv _ _); intros [= <- <-]. simpl. congruence.
  - intros [= <- <-]. unfold node_sqlgen.
    destruct (nl2sql sv _ _ _) as [[[sql_text|]|]|e]; [destruct (Py.truthy _)| | |];
      simpl; intros; congruence.
  - intros [= <- <-]. unfold node_sqlexec. case_bool_decide as Hq; [simpl; congruence|].
    unfold SQLiteTool.run_sql. destruct (engine sv (sql state)) as [cur|e] eqn:E.
    + intros _ _. split; [reflexivity|]. split; [exact Hq|]. now exists cur.
    + simpl. congruence.
  - intros [= <- <-]. unfold node_synthesize.
    destruct (synth sv state) as [[out|]|e]; simpl; intros; congruence.
  - intros [= <- <-]. unfold node_validate_or_repair.
    destruct (Py.truthy_opt _); [destruct (2 <=? repairs state)|]; simpl; intros; congruence.
  - intros [= <- <-]. congruence.
Qed.

(** X26. An error is reset to [None] by a successful execution of a query
    and by nothing else: if a state of an execution has an error and a later
    one has none, then at a step between them the executor ran, on a query
    that is not empty and that the database executed. *)
Theorem error_reset_only_by_execution trace : forall n state n' state',
  run trace (At n state) = At n' state' ->
  error state <> None -> error state' = None ->
  exists before sv after st cur,
    trace = (before ++ sv :: after)%list /\
    run before (At n state) = At SqlExec st /\
    sql st <> EmptyString /\ engine sv (sql st) = Returned cur.
Proof.
  induction trace as [|sv trace IH]; intros n state n' state' Hrun He He'.
  - simpl in Hrun. injection Hrun as <- <-. congruence.
  - change (run trace (step sv (At n state)) = At n' state') in Hrun.
    destruct (step sv (At n state)) as [n1 state1|e1] eqn:Es.
    + destruct (error state1) as [e|] eqn:E1.
      * destruct (IH n1 state1 n' state' Hrun) as (before & sv' & after & st & cur & -> & Hb & Hq & Hcur);
          [congruence|exact He'|].
        exists (sv :: before), sv', after, st, cur. split; [reflexivity|].
        split; [|now split].
        change (run before (step sv (At n state)) = At SqlExec st). now rewrite Es.
      * destruct (step_error_reset sv n state n1 state1 Es He E1) as (-> & Hq & cur & Hcur).
        exists [], sv, trace, state, cur. repeat split; assumption.
    + exfalso. clear -Hrun. induction trace as [|sv' trace IH]; [discriminate|].
      apply IH. exact Hrun.
Qed.

Lemma error_reset_only_by_execution_witness :
  exists before sv after st cur,
    [executing_services] = (before ++ sv :: after)%list /\
    run before (At SqlExec failed_state) = At SqlExec st /\
    sql st <> EmptyString /\ engine sv (sql st) = Returned cur.
Proof.
  apply (error_reset_only_by_execution [executing_services] SqlExec failed_state
           Synthesize (node_sqlexec executing_services failed_state)).
  - reflexivity.
  - discriminate.
  - reflexivity.
Defined.

(** X27. An exception without a message is not seen as an error. When the
    synthesizer raises one, the error of the state becomes the empty text,
    whatever error was pending: no repair follows, the answer is the bare
    fallback text, and the confidence is at least 0.5. *)
Theorem exception_without_message sv state :
  synth sv state = Raised EmptyString ->
  let state' := node_synthesize sv state in
  error state' = Some EmptyString /\
  should_repair state' = "end" /\
  step sv (At Synthesize state) = At END state' /\
  final_answer state' = "Unable to synthesize answer: " /\
  PrimFloat.leb 0.5 (compute_confidence state') = true.
Proof.
  intros Hs. cbv zeta. simpl. unfold node_synthesize. rewrite Hs.
  repeat split.
  rewrite compute_confidence_table. unfold error_unset. simpl.
  destruct (no_repairs _), (has_docs _); reflexivity.
Qed.

Lemma exception_without_message_witness :
  should_repair (node_synthesize executing_services failed_state) = "end" /\
  PrimFloat.leb 0.5 (compute_confidence (node_synthesize executing_services failed_state)) = true.
Proof.
  destruct (exception_without_message executing_services failed_state) as (_ & Hd & _ & _ & Hc).
  - reflexivity.
  - split; [exact Hd|exact Hc].
Defined.

End ErrorFacts.

(** ** The chunks of the corpus *)

Section LoadDocsFacts.
Import Retrieval.

Lemma paragraphs_spec content p :
  p ∈ paragraphs content -> p <> EmptyString /\ Py.strip p = p.
Proof.
  unfold paragraphs. intros Hp. apply list_elem_of_filter in Hp as [Ht Hp].
  apply list_elem_of_fmap in Hp as (x & -> & _). split.
  - intros He. rewrite He in Ht. exact Ht.
  - apply strip_idempotent.
Qed.

Lemma file_chunks_lookup filename content i c :
  file_chunks filename content !! i = Some c ->
  exists p, paragraphs content !! i = Some p /\
    c = {| c_id := chunk_id_of filename i; c_text := p; c_source := filename |}.
Proof.
  unfold file_chunks. rewrite list_lookup_imap.
  destruct (paragraphs content !! i) as [p|]; [|discriminate].
  intros [= <-]. exists p. split; reflexivity.
Qed.

Lemma load_docs_origin listing c :
  c ∈ _load_docs listing ->
  exists filename content i p,
    (filename, content) ∈ listing /\ Py.endswith ".md" filename = true /\
    paragraphs content !! i = Some p /\
    c = {| c_id := chunk_id_of filename i; c_text := p; c_source := filename |}.
Proof.
  unfold _load_docs. intros Hc. apply list_elem_of_In, in_flat_map in Hc as ([filename content] & Hin & Hc).
  simpl in Hc. destruct (Py.endswith ".md" filename) eqn:He; [|destruct Hc].
  apply list_elem_of_In, list_elem_of_lookup in Hc as [i Hi].
  apply file_chunks_lookup in Hi as (p & Hp & ->).
  exists filename, content, i, p. repeat split; [apply list_elem_of_In, Hin|exact He|exact Hp].
Qed.

(** X8. Every chunk that [_load_docs] makes comes from a listed markdown
    file, and its text is a paragraph that is stripped and not empty. *)
Theorem load_docs_chunks listing c :
  c ∈ _load_docs listing ->
  c_text c <> EmptyString /\ Py.strip (c_text c) = c_text c /\
  Py.endswith ".md" (c_source c) = true /\
  exists content i,
    (c_source c, content) ∈ listing /\
    paragraphs content !! i = Some (c_text c) /\
    c_id c = chunk_id_of (c_source c) i.
Proof.
  intros Hc. destruct (load_docs_origin listing c Hc) as (filename & content & i & p & Hin & He & Hp & ->).
  simpl. destruct (paragraphs_spec content p) as [Hne Hs]; [eapply list_elem_of_lookup_2, Hp|].
  repeat split; try assumption.
  exists content, i. repeat split; [exact Hin|exact Hp].
Qed.

Lemma load_docs_chunks_witness :
  Py.strip "Beverages return within 30 days." = "Beverages return within 30 days." /\
  Py.endswith ".md" "A.md" = true.
Proof.
  destruct (load_docs_chunks two_files
              {| c_id := "A::chunk0"; c_text := "Beverages return within 30 days.";
                 c_source := "A.md" |}) as (_ & Hs & He & _).
  - vm_compute. left.
  - split; [exact Hs|exact He].
Defined.

Lemma chunk_id_of_inj filename : Inj (=) (=) (chunk_id_of filename).
Proof.
  intros i j Hij. unfold chunk_id_of in Hij.
  apply String.app_inj, String.app_inj in Hij. apply (inj pretty) in Hij. exact Hij.
Qed.

(** X9. The chunks of one file are numbered from 0 in the order of its
    paragraphs, so their ids differ from each other. *)
Theorem file_chunks_ids filename content :
  map c_id (file_chunks filename content)
    = map (chunk_id_of filename) (seq 0 (length (paragraphs content))) /\
  NoDup (map c_id (file_chunks filename content)).
Proof.
  assert (Hids : map c_id (file_chunks filename content)
                 = map (chunk_id_of filename) (seq 0 (length (paragraphs content)))).
  { unfold file_chunks. change (map c_id ?l) with (c_id <$> l).
    rewrite fmap_imap. change (map ?f ?l) with (f <$> l).
    rewrite <- (imap_seq_0 (paragraphs content) (chunk_id_of filename)).
    apply imap_ext. intros i p _. reflexivity. }
  split; [exact Hids|]. rewrite Hids.
  change (map ?f ?l) with (f <$> l).
  apply (@NoDup_fmap_2 _ _ (chunk_id_of filename) (chunk_id_of_inj filename)), NoDup_seq.
Qed.

End LoadDocsFacts.

(** ** Building the retriever *)

Section BuildFacts.
Import Retrieval.

Lemma lower_char_isspace c : Py.isspace (Py.lower_char c) = Py.isspace c.
Proof. destruct c as [[] [] [] [] [] [] [] []]; reflexivity. Qed.

Lemma split_ws_go_some cur s : Py.split_ws_go (Some cur) s <> [].
Proof.
  revert cur. induction s as [|a s IH]; intros cur; simpl; [discriminate|].
  destruct (Py.isspace a); [discriminate|apply IH].
Qed.

(** A text that is stripped and not empty has a token, also in lower case. *)
Lemma tokens_of_clean_text s :
  s <> EmptyString -> starts_clean s -> Py.split_ws (Py.lower s) <> [].
Proof.
  destruct s as [|c s]; [congruence|]. simpl. intros _ Hc.
  unfold Py.split_ws. simpl. rewrite lower_char_isspace, Hc. apply split_ws_go_some.
Qed.

Lemma chunk_has_token listing c :
  c ∈ _load_docs listing -> Py.split_ws (Py.lower (c_text c)) <> [].
Proof.
  intros Hc. destruct (load_docs_origin listing c Hc) as (filename & content & i & p & _ & _ & Hp & ->).
  simpl. destruct (paragraphs_spec content p) as [Hne Hs]; [eapply list_elem_of_lookup_2, Hp|].
  apply tokens_of_clean_text; [exact Hne|]. rewrite <- Hs. apply strip_starts_clean.
Qed.

Section WithLibraries.
Context {libs : ScoringLibs}.

(** X10. The outcome of building the retriever: division by zero when no
    chunk was loaded; otherwise the BM25 index is built, for every chunk has
    a token, and the outcome is that of fitting the TF-IDF matrix. *)
Theorem init_outcome listing :
  match _load_docs listing with
  | [] => __init__ listing = Raised "division by zero"
  | chks =>
      match tfidf_fit (map c_text chks) with
      | Returned _ =>
          exists r, __init__ listing = Returned r /\ chunks r = chks /\ indexed r
      | Raised e => __init__ listing = Raised e
      end
  end.
Proof.
  unfold __init__. destruct (_load_docs listing) as [|c chks] eqn:Hl; [reflexivity|].
  assert (Htok : Py.split_ws (Py.lower (c_text c)) <> []).
  { apply (chunk_has_token listing). rewrite Hl. left. }
  unfold _build_indexes, BM25Okapi_init. simpl length. simpl Nat.eqb. cbv iota.
  simpl map at 1. simpl forallb.
  destruct (Py.split_ws (Py.lower (c_text c))) as [|t ts] eqn:Ht; [congruence|].
  simpl. destruct (tfidf_fit _) as [u|e]; [|reflexivity].
  eexists. split; [reflexivity|]. split; [reflexivity|].
  unfold indexed. simpl. rewrite !length_map. split; reflexivity.
Qed.

End WithLibraries.
End BuildFacts.

(** ** The ranking for any [k] *)

Section RankingFacts.
Import Retrieval.
Context {sorter : ArgSort} {libs : ScoringLibs}.

Lemma ranking_perm r query :
  indexed r -> Permutation (ranking r query) (seq 0 (length (chunks r))).
Proof.
  intros Hix. unfold ranking. rewrite <- Permutation_rev, argsort_perm.
  rewrite combined_scores_length by exact Hix. reflexivity.
Qed.

Lemma ranking_length r query : indexed r -> length (ranking r query) = length (chunks r).
Proof.
  intros Hix. rewrite (Permutation_length (ranking_perm r query Hix)). apply length_seq.
Qed.

Lemma ranking_sorted r query :
  StronglySorted (fun i j => ascending (combined_scores r query) j i) (ranking r query).
Proof. apply StronglySorted_rev, argsort_sorted. Qed.

Lemma top_idx_kept r query k :
  indexed r ->
  top_idx r query k = firstn (kept k (length (chunks r))) (ranking r query).
Proof.
  intros Hix. unfold top_idx, Py.slice_to, kept. fold (ranking r query).
  rewrite (ranking_length r query Hix).
  destruct (0 <=? k); [|reflexivity].
  rewrite <- (ranking_length r query Hix). symmetry.
  destruct (Nat.le_ge_cases (Z.to_nat k) (length (ranking r query))) as [Hle|Hge].
  - rewrite Nat.min_l by exact Hle. reflexivity.
  - rewrite Nat.min_r by exact Hge. rewrite !firstn_all2 by lia. reflexivity.
Qed.

Lemma top_idx_in_range r query k idx :
  indexed r -> idx ∈ top_idx r query k -> (idx < length (chunks r))%nat.
Proof.
  intros Hix Hin. rewrite (top_idx_kept _ _ _ Hix) in Hin.
  apply elem_of_take in Hin as (i & Hi & _). apply list_elem_of_lookup_2 in Hi.
  apply list_elem_of_In in Hi. apply (Permutation_in _ (ranking_perm r query Hix)) in Hi.
  apply in_seq in Hi. lia.
Qed.

Lemma retrieve_returns r query k :
  indexed r ->
  exists results,
    retrieve r query k = Some results /\
    Forall2 (result_of r query) (firstn (kept k (length (chunks r))) (ranking r query)) results /\
    length results = kept k (length (chunks r)).
Proof.
  intros Hix.
  destruct (results_of_indices r query (top_idx r query k) Hix) as (results & Hm & Hf).
  { apply Forall_forall. intros idx. apply top_idx_in_range, Hix. }
  exists results. split; [exact Hm|]. rewrite (top_idx_kept _ _ _ Hix) in Hf.
  split; [exact Hf|].
  rewrite <- (Forall2_length _ _ _ Hf), length_take, (ranking_length _ _ Hix).
  unfold kept. destruct (0 <=? k); lia.
Qed.

(** X11. For every integer [k] the loop of [retrieve] stays within the
    chunks, so [retrieve] returns: [min k n] results for [k >= 0], and for
    a negative [k] all but the last [-k] of the ranking, that is
    [n - min n (-k)] results. The results are a prefix of the ranking, each
    with the combined score that binary64 computes, and their scores do
    not increase in numpy's order. *)
Theorem retrieve_any_k listing r query k :
  __init__ listing = Returned r ->
  exists results,
    retrieve r query k = Some results /\
    Forall2 (result_of r query) (firstn (kept k (length (chunks r))) (ranking r query)) results /\
    length results = kept k (length (chunks r)) /\
    not_increasing results.
Proof.
  intros Hinit. apply build_indexes_indexed in Hinit as (_ & Hix & _).
  destruct (retrieve_returns r query k Hix) as (results & Hm & Hf & Hl).
  exists results. split; [exact Hm|]. split; [exact Hf|]. split; [exact Hl|].
  unfold not_increasing.
  eapply (StronglySorted_Forall2 (result_of r query)
            (fun i j => ascending (combined_scores r query) j i)); [|exact Hf|].
  - intros i j x y (ci & Hci & _ & _ & _ & Hsi) (cj & Hcj & _ & _ & _ & Hsj) Hasc.
    apply lookup_lt_Some in Hci, Hcj. rewrite Hsi, Hsj.
    cbv beta in Hasc. unfold ascending in Hasc.
    rewrite !nth_combined in Hasc by assumption. exact Hasc.
  - apply StronglySorted_firstn, ranking_sorted.
Qed.

(** X12. The results are the best ones by the scores as binary64 computes
    them: a chunk that is returned never comes before a chunk that is
    left out in numpy's order, so no chunk that is left out has a greater
    computed score than a chunk that is returned. *)
Theorem retrieve_keeps_the_best listing r query k i j :
  __init__ listing = Returned r ->
  i ∈ top_idx r query k ->
  (j < length (chunks r))%nat -> j ∉ top_idx r query k ->
  np_lt (chunk_score r query i) (chunk_score r query j) = false /\
  (chunk_score r query i <? chunk_score r query j)%float = false.
Proof.
  intros Hinit Hi Hj Hnj. apply build_indexes_indexed in Hinit as (_ & Hix & _).
  pose proof (top_idx_in_range _ _ _ _ Hix Hi) as Hil.
  rewrite (top_idx_kept _ _ _ Hix) in Hi, Hnj.
  set (m := kept k (length (chunks r))) in *.
  pose proof (ranking_sorted r query) as Hs.
  rewrite <- (take_drop m (ranking r query)) in Hs.
  apply StronglySorted_app in Hs as (Hcross & _ & _).
  assert (Hjr : j ∈ drop m (ranking r query)).
  { assert (Hjin : j ∈ ranking r query).
    { apply list_elem_of_In. apply (Permutation_in _ (Permutation_sym (ranking_perm r query Hix))).
      apply in_seq. lia. }
    rewrite <- (take_drop m (ranking r query)) in Hjin.
    apply elem_of_app in Hjin as [Hjin|Hjin]; [contradiction|exact Hjin]. }
  specialize (Hcross i j Hi Hjr). unfold ascending in Hcross.
  rewrite !nth_combined in Hcross by assumption. split; [exact Hcross|].
  unfold np_lt in Hcross. apply orb_false_iff in Hcross as [Hlt _]. exact Hlt.
Qed.

(** X13. With [k] at least the number of chunks every chunk is returned,
    each one once. *)
Theorem retrieve_all listing r query k :
  __init__ listing = Returned r -> Z.of_nat (length (chunks r)) <= k ->
  Permutation (top_idx r query k) (seq 0 (length (chunks r))) /\
  exists results, retrieve r query k = Some results /\
    length results = length (chunks r).
Proof.
  intros Hinit Hk. pose proof Hinit as Hb. apply build_indexes_indexed in Hb as (_ & Hix & _).
  assert (Hkept : kept k (length (chunks r)) = length (chunks r)).
  { unfold kept. destruct (Z.leb_spec 0 k); lia. }
  split.
  - rewrite (top_idx_kept _ _ _ Hix), Hkept.
    rewrite firstn_all2 by (rewrite ranking_length by exact Hix; lia).
    apply ranking_perm, Hix.
  - destruct (retrieve_returns r query k Hix) as (results & Hr & _ & Hl).
    exists results. split; [exact Hr|]. rewrite Hl. exact Hkept.
Qed.

End RankingFacts.

Section RankingExamples.
Import Retrieval.

Lemma two_files_top1 :
  top_idx (sorter := stable) (libs := rounding_libs) two_files_retriever
    "return" 1 = [0%nat].
Proof. vm_compute. reflexivity. Qed.

Lemma retrieve_any_k_witness :
  exists results,
    retrieve (sorter := stable) (libs := overlap_libs) two_files_retriever
      "Beverages return days" (-1) = Some results /\
    length results = 1%nat.
Proof.
  destruct (retrieve_any_k (sorter := stable) (libs := overlap_libs)
              two_files two_files_retriever "Beverages return days" (-1) two_files_built)
    as (results & Hr & _ & Hl & _).
  exists results. split; [exact Hr|exact Hl].
Defined.

Lemma retrieve_keeps_the_best_witness :
  np_lt (chunk_score (libs := rounding_libs) two_files_retriever "return" 0)
        (chunk_score (libs := rounding_libs) two_files_retriever "return" 1) = false /\
  (chunk_score (libs := rounding_libs) two_files_retriever "return" 0
   <? chunk_score (libs := rounding_libs) two_files_retriever "return" 1)%float = false.
Proof.
  apply (retrieve_keeps_the_best (sorter := stable) (libs := rounding_libs)
           two_files two_files_retriever "return" 1 0%nat 1%nat two_files_built_rounding).
  - rewrite two_files_top1. apply list_elem_of_In. left. reflexivity.
  - simpl. lia.
  - rewrite two_files_top1. intros H. apply list_elem_of_In in H.
    destruct H as [H|[]]. discriminate H.
Defined.

Lemma retrieve_all_witness :
  Permutation
    (top_idx (sorter := stable) (libs := overlap_libs) two_files_retriever "gamma" 6)
    [0%nat; 1%nat].
Proof.
  apply (retrieve_all (sorter := stable) (libs := overlap_libs)
           two_files two_files_retriever "gamma" 6 two_files_built).
  simpl. lia.
Defined.

End RankingExamples.

(** ** What the normalizer keeps and what it adds *)

Section NormalizerMoreFacts.
Import Normalizer.

Lemma lookup_setdefault_keeps key key' v x (d : gmap string pyvalue) :
  d !! key' = Some x -> setdefault key v d !! key' = Some x.
Proof.
  intros Hx. destruct (decide (key = key')) as [->|Hne].
  - rewrite lookup_setdefault_eq, Hx. reflexivity.
  - rewrite lookup_setdefault_ne by exact Hne. exact Hx.
Qed.

Lemma add_marker_keeps text out fld key x :
  out !! key = Some x -> fld <> key -> add_marker text out fld !! key = Some x.
Proof.
  intros Hx Hne. unfold add_marker. destruct (extract_marker fld text) as [val|]; [|exact Hx].
  destruct (Py.truthy val); [|exact Hx]. rewrite lookup_insert_ne by exact Hne. exact Hx.
Qed.

Lemma add_marker_found text out fld v :
  extract_marker fld text = Some v -> Py.truthy v = true ->
  add_marker text out fld !! fld = Some (PStr v).
Proof. intros He Ht. unfold add_marker. rewrite He, Ht. apply lookup_insert_eq. Qed.

Lemma markers_found text fld v :
  In fld wanted -> extract_marker fld text = Some v -> Py.truthy v = true ->
  markers text !! fld = Some (PStr v).
Proof.
  intros Hin He Ht. unfold markers, wanted. simpl.
  simpl in Hin. destruct Hin as [<-|[<-|[<-|[<-|[]]]]].
  - repeat (apply add_marker_keeps; [|discriminate]). apply add_marker_found; assumption.
  - repeat (apply add_marker_keeps; [|discriminate]). apply add_marker_found; assumption.
  - repeat (apply add_marker_keeps; [|discriminate]). apply add_marker_found; assumption.
  - apply add_marker_found; assumption.
Qed.

Lemma has_key_true (d : gmap string pyvalue) key x : d !! key = Some x -> has_key d key = true.
Proof. intros Hx. unfold has_key. apply bool_decide_eq_true_2. eexists. exact Hx. Qed.

Lemma insert_absent_keeps (out : gmap string pyvalue) k v key x :
  out !! key = Some x -> has_key out k = false -> <[k := v]> out !! key = Some x.
Proof.
  intros Hx Hk. apply has_key_false in Hk.
  rewrite lookup_insert_ne by congruence. exact Hx.
Qed.

Lemma stage_keeps (out : gmap string pyvalue) k (o : option string)
    (f : string -> pyvalue) key x :
  out !! key = Some x ->
  (if has_key out k then out
   else match o with
        | Some v => <[k := f v]> out
        | None => out
        end) !! key = Some x.
Proof.
  intros Hx. destruct (has_key out k) eqn:E; [exact Hx|].
  destruct o; [|exact Hx]. apply insert_absent_keeps; assumption.
Qed.

(** The headings and the keyword never replace a field that is there. *)
Lemma headings_keeps text out key x :
  out !! key = Some x -> headings text out !! key = Some x.
Proof.
  intros Hx. unfold headings. cbv zeta.
  apply (stage_keeps _ "citations" (heading citations_heading text)
           (fun ctext => PList (map PStr (citation_items ctext)))).
  apply (stage_keeps _ "explanation" (heading explanation_heading text) PStr).
  apply (stage_keeps _ "final_answer" (heading final_answer_heading text) PStr).
  exact Hx.
Qed.

Lemma sniff_keeps text out key x : out !! key = Some x -> sniff text out !! key = Some x.
Proof.
  intros Hx. unfold sniff. destruct (sql_like text); simpl; [|exact Hx].
  destruct (has_key out "sql") eqn:E; simpl; [exact Hx|].
  apply insert_absent_keeps; assumption.
Qed.

Section WithParsers.
Context {parsers : Parsers}.

Lemma infer_route_keeps candidates (mapped : gmap string pyvalue) key x :
  mapped !! "route" = None -> mapped !! key = Some x ->
  infer_route candidates mapped !! key = Some x.
Proof.
  intros Hr Hx. rewrite infer_route_other; [exact Hx|congruence].
Qed.

Lemma infer_sql_keeps candidates (mapped : gmap string pyvalue) key x :
  mapped !! "sql" = None -> mapped !! key = Some x ->
  infer_sql candidates mapped !! key = Some x.
Proof.
  intros Hr Hx. rewrite infer_sql_other; [exact Hx|congruence].
Qed.

(** [fill] never replaces a field that is there. *)
Lemma fill_keeps text out key x : out !! key = Some x -> fill text out !! key = Some x.
Proof.
  intros Hx. unfold fill.
  repeat apply lookup_setdefault_keeps.
  assert (H1 : (if has_key out "route" then out
                else infer_route ["explanation"; "final_answer"; "plan"] out) !! key = Some x).
  { destruct (has_key out "route") eqn:E; [exact Hx|].
    apply infer_route_keeps; [apply has_key_false, E|exact Hx]. }
  destruct (has_key _ "sql") eqn:E; [exact H1|].
  apply infer_sql_keeps; [apply has_key_false, E|exact H1].
Qed.

(** X14. A marker with a value takes precedence for each of the four fields,
    and what was extracted is in the record that [normalize] returns,
    unchanged. *)
Theorem normalize_keeps_extracted text :
  no_mapping text ->
  (forall fld v, In fld wanted ->
     extract_marker fld (strip_fence text) = Some v -> Py.truthy v = true ->
     extract (strip_fence text) !! fld = Some (PStr v)) /\
  (forall key x, extract (strip_fence text) !! key = Some x ->
     exists fields, normalize text = Json fields /\ fields !! key = Some x).
Proof.
  intros Hn. split.
  - intros fld v Hin He Ht. unfold extract.
    apply sniff_keeps, headings_keeps, markers_found; assumption.
  - intros key x Hx. unfold normalize. rewrite (from_parsed_no_mapping _ Hn).
    rewrite bool_decide_eq_false_2.
    + eexists. split; [reflexivity|]. apply fill_keeps, Hx.
    + intros He. rewrite He, lookup_empty in Hx. discriminate.
Qed.

Lemma record_keys_spec key :
  key ∈ record_keys <->
  key = "final_answer" \/ key = "explanation" \/ key = "citations" \/
  key = "route" \/ key = "sql" \/ key = "plan".
Proof.
  unfold record_keys. rewrite !elem_of_union, !elem_of_singleton. tauto.
Qed.

(** Which keys a filled record has: the six of [record_keys]. *)
Lemma fill_other text (out : gmap string pyvalue) key :
  key ∉ record_keys -> fill text out !! key = out !! key.
Proof.
  intros Hk. rewrite record_keys_spec in Hk.
  assert (Hne : key <> "final_answer" /\ key <> "explanation" /\ key <> "citations" /\
                key <> "route" /\ key <> "sql" /\ key <> "plan") by tauto.
  destruct Hne as (H1 & H2 & H3 & H4 & H5 & H6).
  unfold fill. rewrite !lookup_setdefault_ne by congruence.
  destruct (has_key _ "sql").
  - destruct (has_key out "route"); [reflexivity|]. apply infer_route_other. congruence.
  - rewrite infer_sql_other by congruence.
    destruct (has_key out "route"); [reflexivity|]. apply infer_route_other. congruence.
Qed.

Lemma setdefault_is_Some key key' v (d : gmap string pyvalue) :
  is_Some (d !! key') -> is_Some (setdefault key v d !! key').
Proof. intros [x Hx]. exists x. apply lookup_setdefault_keeps, Hx. Qed.

Lemma setdefault_sets key v (d : gmap string pyvalue) : is_Some (setdefault key v d !! key).
Proof. rewrite lookup_setdefault_eq. eexists. reflexivity. Qed.

(** X15. A record that [normalize] builds from extracted fields has the six
    keys final_answer, explanation, citations, route, sql and plan, and no
    other. *)
Theorem normalize_record_keys text :
  no_mapping text -> extract (strip_fence text) <> ∅ ->
  exists fields, normalize text = Json fields /\ dom fields = record_keys.
Proof.
  intros Hn Hne. unfold normalize. rewrite (from_parsed_no_mapping _ Hn).
  rewrite bool_decide_eq_false_2 by exact Hne.
  eexists. split; [reflexivity|].
  apply set_eq. intros key. rewrite elem_of_dom. split.
  - intros Hs. destruct (decide (key ∈ record_keys)) as [Hin|Hnin]; [exact Hin|].
    rewrite (fill_other _ _ _ Hnin) in Hs. apply extract_keys in Hs.
    apply record_keys_spec. simpl in Hs.
    destruct Hs as [<-|[<-|[<-|[<-|[]]]]]; tauto.
  - intros Hin. apply record_keys_spec in Hin as Hk.
    unfold fill.
    destruct Hk as [->|[->|[->|[->|[->| ->]]]]];
      repeat first [apply setdefault_sets | apply setdefault_is_Some].
Qed.

End WithParsers.

Lemma normalize_keeps_extracted_witness :
  exists fields,
    normalize (parsers := strict_parsers) "Final Answer: 12" = Json fields /\
    fields !! "final_answer" = Some (PStr "12").
Proof.
  apply (proj2 (normalize_keeps_extracted (parsers := strict_parsers) "Final Answer: 12"
                  ltac:(intros d Hd; discriminate Hd))).
  vm_compute. reflexivity.
Defined.

Lemma normalize_record_keys_witness :
  exists fields,
    normalize (parsers := strict_parsers) "Final Answer: 12" = Json fields /\
    dom fields = record_keys.
Proof.
  apply (normalize_record_keys (parsers := strict_parsers) "Final Answer: 12").
  - intros d Hd. discriminate Hd.
  - vm_compute. discriminate.
Defined.

End NormalizerMoreFacts.

(** ** The path of a parsed mapping *)

Section ParsedFacts.
Import Normalizer.

Lemma dumps_ok_spec d : dumps_ok d = true <-> all_serialisable d.
Proof.
  unfold dumps_ok, all_serialisable. rewrite forallb_forall. split.
  - intros H key x Hx. apply (H (key, x)). apply list_elem_of_In, elem_of_map_to_list, Hx.
  - intros H [key x] Hin. apply list_elem_of_In, elem_of_map_to_list in Hin. exact (H key x Hin).
Qed.

Lemma setdefault_serialisable key v d :
  serialisable v = true -> all_serialisable d -> all_serialisable (setdefault key v d).
Proof.
  intros Hv Hd key' x Hx. destruct (decide (key = key')) as [<-|Hne].
  - rewrite lookup_setdefault_eq in Hx. injection Hx as <-.
    destruct (d !! key) as [y|] eqn:Hy; [exact (Hd key y Hy)|exact Hv].
  - rewrite lookup_setdefault_ne in Hx by exact Hne. exact (Hd key' x Hx).
Qed.

Section WithParsers.
Context {parsers : Parsers}.

(** X16. A parsed mapping that has one of the four wanted fields, no text
    entry and values that can be serialised is returned at once: its entries
    are kept, final_answer falls back to sql and then to the empty text,
    explanation and citations get empty values, and nothing else is added,
    so route, sql and plan are in the result only if they were in the
    mapping. *)
Theorem parsed_mapping_returned text d :
  parse text = Some (ParsedDict d) ->
  (forall t, d !! "text" <> Some (PStr t)) ->
  existsb (has_key d) wanted = true ->
  all_serialisable d ->
  exists fields,
    normalize text = Json fields /\
    (forall key x, d !! key = Some x -> fields !! key = Some x) /\
    (forall key, ~ In key backfilled -> fields !! key = d !! key) /\
    fields !! "final_answer"
      = Some (default (default (PStr EmptyString) (d !! "sql")) (d !! "final_answer")) /\
    fields !! "explanation" = Some (default (PStr EmptyString) (d !! "explanation")) /\
    fields !! "citations" = Some (default (PList []) (d !! "citations")).
Proof.
  intros Hp Ht Hw Hs.
  assert (Hok : dumps_ok (setdefault "citations" (PList [])
                   (setdefault "explanation" (PStr EmptyString)
                      (setdefault "final_answer"
                         (default (PStr EmptyString) (d !! "sql")) d))) = true).
  { apply dumps_ok_spec. repeat apply setdefault_serialisable; try reflexivity; [|exact Hs].
    destruct (d !! "sql") as [y|] eqn:Hy; [exact (Hs "sql" y Hy)|reflexivity]. }
  assert (Hrest : from_parsed (Some (ParsedDict d)) text
                  = inl (Json (setdefault "citations" (PList [])
                          (setdefault "explanation" (PStr EmptyString)
                             (setdefault "final_answer"
                                (default (PStr EmptyString) (d !! "sql")) d))))).
  { unfold from_parsed.
    destruct (d !! "text") as [[]|] eqn:Hd; rewrite ?Hw; cbv zeta; rewrite ?Hok; try reflexivity.
    exfalso. exact (Ht _ eq_refl). }
  unfold normalize. rewrite Hp.
  rewrite Hrest. eexists. split; [reflexivity|]. split; [|split; [|split; [|split]]].
  - intros key x Hx. repeat apply lookup_setdefault_keeps. exact Hx.
  - intros key Hk. unfold backfilled in Hk. simpl in Hk.
    rewrite !lookup_setdefault_ne by tauto. reflexivity.
  - rewrite !(lookup_setdefault_ne _ "final_answer") by discriminate.
    apply lookup_setdefault_eq.
  - rewrite (lookup_setdefault_ne _ "explanation") by discriminate.
    rewrite lookup_setdefault_eq. rewrite lookup_setdefault_ne by discriminate. reflexivity.
  - rewrite lookup_setdefault_eq. rewrite !lookup_setdefault_ne by discriminate. reflexivity.
Qed.

End WithParsers.

Lemma parsed_mapping_returned_witness :
  exists fields,
    normalize (parsers := sql_only_parsers) sql_only_text = Json fields /\
    fields !! "final_answer" = Some (PStr "SELECT 1") /\
    fields !! "route" = None.
Proof.
  destruct (parsed_mapping_returned (parsers := sql_only_parsers) sql_only_text
              {["sql" := PStr "SELECT 1"]}) as (fields & Hn & _ & Ho & Hf & _).
  - reflexivity.
  - intros t Ht. vm_compute in Ht. discriminate Ht.
  - reflexivity.
  - intros key x Hx. apply lookup_singleton_Some in Hx as [_ <-]. reflexivity.
  - exists fields. split; [exact Hn|]. split; [exact Hf|].
    rewrite Ho; [reflexivity|]. simpl. intros [H|[H|[H|[]]]]; discriminate H.
Defined.

End ParsedFacts.

(** ** The fence step *)

Section FenceFacts.
Import Normalizer.

Lemma string_app_cons c s t : String c s +:+ t = String c (s +:+ t).
Proof. reflexivity. Qed.

Lemma string_app_empty_r s : s +:+ EmptyString = s.
Proof. induction s as [|c s IH]; [reflexivity|]. rewrite string_app_cons, IH. reflexivity. Qed.

Lemma string_take_app_length a b : Py.take (String.length a) (a +:+ b) = a.
Proof.
  unfold Py.take. induction a as [|c a IH].
  - destruct b; reflexivity.
  - rewrite string_app_cons. simpl. rewrite IH. reflexivity.
Qed.

Lemma string_drop_app_length a b n : Py.drop (String.length a + n) (a +:+ b) = Py.drop n b.
Proof. induction a as [|c a IH]; [reflexivity|]. rewrite string_app_cons. simpl. exact IH. Qed.

(** A text without a backtick. *)
Lemma no_tick_cons c s :
  Py.contains "`" (String c s) = false -> c <> "`"%char /\ Py.contains "`" s = false.
Proof.
  unfold Py.contains.
  change (Py.find "`" (String c s))
    with (if String.prefix "`" (String c s) then Some 0%nat else S <$> Py.find "`" s).
  assert (Hp : String.prefix "`" (String c s) = if ascii_dec "`" c then true else false).
  { change (String.prefix "`" (String c s))
      with (if ascii_dec "`" c then String.prefix EmptyString s else false).
    destruct (ascii_dec "`" c); [destruct s|]; reflexivity. }
  rewrite Hp. destruct (ascii_dec "`" c) as [<-|Hne]; [discriminate|].
  destruct (Py.find "`" s); [discriminate|]. intros _. split; [congruence|reflexivity].
Qed.

Lemma find_fence_after inner rest :
  Py.contains "`" inner = false ->
  Py.find fence (inner +:+ fence +:+ rest) = Some (String.length inner).
Proof.
  induction inner as [|c inner IH]; intros Hn; [destruct rest; reflexivity|].
  apply no_tick_cons in Hn as [Hc Hn]. rewrite string_app_cons.
  change (Py.find fence (String c (inner +:+ fence +:+ rest)))
    with (if String.prefix fence (String c (inner +:+ fence +:+ rest)) then Some 0%nat
          else S <$> Py.find fence (inner +:+ fence +:+ rest)).
  assert (Hp : String.prefix fence (String c (inner +:+ fence +:+ rest)) = false).
  { change (String.prefix fence (String c (inner +:+ fence +:+ rest)))
      with (if ascii_dec "`" c then String.prefix "``" (inner +:+ fence +:+ rest) else false).
    destruct (ascii_dec "`" c); [congruence|reflexivity]. }
  rewrite Hp, (IH Hn). reflexivity.
Qed.

Lemma split_fence_head fuel rest :
  Py.split_fuel (S fuel) fence (String "`" (String "`" (String "`" rest)))
  = EmptyString :: Py.split_fuel fuel fence rest.
Proof. destruct rest; reflexivity. Qed.

(** The three parts that the fence step splits a fenced text into. *)
Lemma fenced_parts inner tail :
  Py.contains "`" inner = false ->
  Py.split_max fence (fence +:+ inner +:+ fence +:+ tail) 2 = [EmptyString; inner; tail].
Proof.
  intros Hn. unfold Py.split_max.
  change (fence +:+ inner +:+ fence +:+ tail)
    with (String "`" (String "`" (String "`" (inner +:+ fence +:+ tail)))).
  change (Nat.min 2 (String.length (String "`" (String "`" (String "`" (inner +:+ fence +:+ tail))))))
    with 2%nat.
  rewrite split_fence_head. f_equal.
  change (Py.split_fuel 1 fence (inner +:+ fence +:+ tail))
    with (match Py.find fence (inner +:+ fence +:+ tail) with
          | None => [inner +:+ fence +:+ tail]
          | Some i => Py.take i (inner +:+ fence +:+ tail)
                      :: [Py.drop (i + String.length fence) (inner +:+ fence +:+ tail)]
          end).
  rewrite (find_fence_after inner tail Hn).
  rewrite string_take_app_length. f_equal.
  change (String.length fence) with 3%nat.
  rewrite string_drop_app_length. reflexivity.
Qed.

(** The fence step on a text that opens with a fenced block: the block
    is dropped and the text goes on with what follows the closing fence,
    up to the last fence in it. *)
Lemma strip_fence_fenced inner tail :
  Py.contains "`" inner = false ->
  strip_fence (fence +:+ inner +:+ fence +:+ tail)
    = Py.strip (Py.rsplit1_head fence tail).
Proof.
  intros Hn. unfold strip_fence.
  assert (Hs : Py.startswith fence (fence +:+ inner +:+ fence +:+ tail) = true)
    by (destruct (inner +:+ fence +:+ tail); reflexivity).
  assert (Hc : Py.contains fence (Py.drop 3 (fence +:+ inner +:+ fence +:+ tail)) = true).
  { change (Py.drop 3 (fence +:+ inner +:+ fence +:+ tail)) with (inner +:+ fence +:+ tail).
    unfold Py.contains. rewrite (find_fence_after inner tail Hn). reflexivity. }
  rewrite Hs, Hc, (fenced_parts inner tail Hn). reflexivity.
Qed.

Section WithParsers.
Context {parsers : Parsers}.

(** X17. The fence step keeps what follows a fenced block, not the block: a
    text that opens with a fenced block (without a backtick inside) goes on
    as the text after the closing fence; so a completion that is one fenced
    block, such as a fenced SQL query, is normalized to the empty text. *)
Theorem fenced_block_is_dropped inner :
  Py.contains "`" inner = false ->
  (forall tail,
     strip_fence (fence +:+ inner +:+ fence +:+ tail)
       = Py.strip (Py.rsplit1_head fence tail)) /\
  normalize (fence +:+ inner +:+ fence) = Raw EmptyString.
Proof.
  intros Hn. split; [intros tail; apply strip_fence_fenced, Hn|].
  assert (Hp : parse (fence +:+ inner +:+ fence) = None).
  { unfold parse, Py.strip.
    change (fence +:+ inner +:+ fence)
      with (String "`" (String "`" (String "`" (inner +:+ fence)))).
    change (Py.lstrip (String "`" ?s)) with (String "`" s).
    destruct (rstrip_keeps_head "`" (String "`" (String "`" (inner +:+ fence))) eq_refl)
      as [r ->].
    reflexivity. }
  unfold normalize. rewrite Hp. simpl from_parsed.
  rewrite <- (string_app_empty_r (fence +:+ inner +:+ fence)).
  replace ((fence +:+ inner +:+ fence) +:+ EmptyString)
    with (fence +:+ inner +:+ fence +:+ EmptyString).
  - rewrite (strip_fence_fenced inner EmptyString Hn). reflexivity.
  - rewrite !string_app_empty_r. reflexivity.
Qed.

End WithParsers.

Lemma fenced_block_is_dropped_witness :
  normalize (parsers := strict_parsers)
    (fence +:+ ("sql" +:+ newline_text +:+ "SELECT 1" +:+ newline_text) +:+ fence)
  = Raw EmptyString.
Proof.
  apply (fenced_block_is_dropped (parsers := strict_parsers)
           ("sql" +:+ newline_text +:+ "SELECT 1" +:+ newline_text)).
  reflexivity.
Defined.

End FenceFacts.

(** ** The matcher on the pattern of the table names *)

Section MatcherFacts.
Import Re.

(** A greedy star hands over what is left after a run of the class. *)
Lemma star_greedy_some {R} p s (k : string -> option R) x :
  star_greedy p s k = Some x ->
  exists pre rest, s = pre +:+ rest /\ forall_chars p pre = true /\ k rest = Some x.
Proof.
  induction s as [|c s IH]; simpl; intros H.
  - exists EmptyString, EmptyString. repeat split. exact H.
  - destruct (p c) eqn:Hc.
    + destruct (star_greedy p s k) as [y|] eqn:Hs.
      * injection H as <-. destruct (IH eq_refl) as (pre & rest & -> & Hp & Hk).
        exists (String c pre), rest. rewrite string_app_cons. simpl. rewrite Hc, Hp. auto.
      * exists EmptyString, (String c s). repeat split. exact H.
    + exists EmptyString, (String c s). repeat split. exact H.
Qed.

(** A literal does not touch the groups. *)
Lemma run_lit_some {R} lit s g (k : string -> groups -> option R) x :
  run (lit_i lit) s g k = Some x -> exists rest, k rest g = Some x.
Proof.
  revert s. induction lit as [|c lit IH]; simpl; intros s H.
  - exists s. exact H.
  - destruct s as [|a s]; [discriminate|]. destruct (ci c a); [|discriminate].
    apply IH in H. exact H.
Qed.

Lemma string_length_app a b : String.length (a +:+ b) = (String.length a + String.length b)%nat.
Proof. induction a as [|c a IH]; [reflexivity|]. rewrite string_app_cons. simpl. rewrite IH. reflexivity. Qed.

Lemma run_seq {R} r1 r2 s g (k : string -> groups -> option R) :
  run (Seq r1 r2) s g k = run r1 s g (fun s1 g1 => run r2 s1 g1 k).
Proof. reflexivity. Qed.

Lemma run_alt_some {R} r1 r2 s g (k : string -> groups -> option R) x :
  run (Alt r1 r2) s g k = Some x -> run r1 s g k = Some x \/ run r2 s g k = Some x.
Proof. simpl. destruct (run r1 s g k); [left|right]; assumption. Qed.

Lemma run_chr_some {R} p s g (k : string -> groups -> option R) x :
  run (Chr p) s g k = Some x ->
  exists c rest, s = String c rest /\ p c = true /\ k rest g = Some x.
Proof.
  simpl. destruct s as [|c rest]; [discriminate|]. destruct (p c) eqn:Hc; [|discriminate].
  intros H. exists c, rest. auto.
Qed.

Lemma run_star_some {R} p s g (k : string -> groups -> option R) x :
  run (Star p) s g k = Some x ->
  exists pre rest, s = pre +:+ rest /\ forall_chars p pre = true /\ k rest g = Some x.
Proof. simpl. apply star_greedy_some. Qed.

Lemma run_group {R} i r s g (k : string -> groups -> option R) :
  run (Group i r) s g k
  = run r s g (fun s1 g1 =>
      k s1 (<[i := Py.take (String.length s - String.length s1) s]> g1)).
Proof. reflexivity. Qed.

(** What group 1 of the table pattern captures: a character of the first
    class and a run of the second. *)
Lemma match_here_pattern s n g :
  match_here SQLiteTool.pattern s = Some (n, g) ->
  exists c pre,
    g !! 1%nat = Some (String c pre) /\
    SQLiteTool.ident_start c = true /\
    forall_chars SQLiteTool.ident_rest pre = true.
Proof.
  unfold match_here, SQLiteTool.pattern, Plus. intros H.
  rewrite run_seq in H.
  assert (Hk : exists rest,
    run (Seq (Seq (Chr Py.isspace) (Star Py.isspace))
           (Group 1 (Seq (Chr SQLiteTool.ident_start) (Star SQLiteTool.ident_rest))))
      rest ∅ (fun s1 g0 => Some ((String.length s - String.length s1)%nat, g0))
    = Some (n, g)).
  { apply run_alt_some in H as [H|H]; apply run_lit_some in H; exact H. }
  clear H. destruct Hk as (rest & H).
  rewrite !run_seq in H.
  apply run_chr_some in H as (w & rest1 & _ & _ & H).
  apply run_star_some in H as (_ & s2 & _ & _ & H).
  rewrite run_group, run_seq in H.
  apply run_chr_some in H as (c & s2' & -> & Hc & H).
  apply run_star_some in H as (pre & s3 & -> & Hp & H).
  injection H as _ <-. exists c, pre. split; [|split; assumption].
  unfold groups. rewrite lookup_insert_eq. f_equal.
  assert (Hlen : (S (String.length (pre +:+ s3)) - String.length s3)%nat
                 = String.length (String c pre)).
  { simpl. rewrite string_length_app. lia. }
  rewrite Hlen, <- string_app_cons. apply string_take_app_length.
Qed.

Lemma findall_from_matches r s : forall skip m,
  m ∈ findall_from r s skip ->
  exists s' n g, match_here r s' = Some (n, g) /\ m = default EmptyString (g !! 1%nat).
Proof.
  induction s as [|c s IH]; intros skip m Hm.
  - destruct skip; simpl in Hm; [|inversion Hm].
    destruct (match_here r EmptyString) as [[n g]|] eqn:Hh; [|inversion Hm].
    apply list_elem_of_singleton in Hm as ->. eauto.
  - destruct skip; simpl in Hm; [|eapply IH, Hm].
    destruct (match_here r (String c s)) as [[n g]|] eqn:Hh; [|eapply IH, Hm].
    apply elem_of_cons in Hm as [->|Hm]; [eauto|eapply IH, Hm].
Qed.

End MatcherFacts.

(** ** The names of the tables *)

Section TableNameFacts.
Import SQLiteTool.

Lemma ident_start_not_space c : ident_start c = true -> Py.isspace c = false.
Proof. destruct c as [[] [] [] [] [] [] [] []]; intros H; try reflexivity; discriminate H. Qed.

Lemma ident_start_rest c : ident_start c = true -> ident_rest c = true.
Proof. destruct c as [[] [] [] [] [] [] [] []]; intros H; try reflexivity; discriminate H. Qed.

Lemma forall_chars_rstrip p s : forall_chars p s = true -> forall_chars p (Py.rstrip s) = true.
Proof.
  induction s as [|c s IH]; simpl; [trivial|]. intros H.
  apply andb_true_iff in H as [Hc Hs]. specialize (IH Hs).
  destruct (Py.rstrip s) as [|d r].
  - destruct (Py.isspace c); simpl; [reflexivity|]. rewrite Hc. reflexivity.
  - simpl. simpl in IH. rewrite Hc, IH. reflexivity.
Qed.

Lemma find_absent_char p q s :
  p q = false -> forall_chars p s = true -> Py.find (String q EmptyString) s = None.
Proof.
  intros Hq. induction s as [|c s IH]; simpl forall_chars; intros H; [reflexivity|].
  apply andb_true_iff in H as [Hc Hs].
  change (Py.find (String q EmptyString) (String c s))
    with (if String.prefix (String q EmptyString) (String c s) then Some 0%nat
          else S <$> Py.find (String q EmptyString) s).
  change (String.prefix (String q EmptyString) (String c s))
    with (if ascii_dec q c then String.prefix EmptyString s else false).
  destruct (ascii_dec q c) as [->|_]; [congruence|]. rewrite (IH Hs). reflexivity.
Qed.

Lemma remove_absent old s : Py.find old s = None -> Py.remove old s = s.
Proof.
  intros Hf. unfold Py.remove, Py.split.
  destruct (String.length s); simpl; [reflexivity|]. rewrite Hf. reflexivity.
Qed.

(** The shape of a captured text once it is stripped. *)
Lemma strip_capture c pre :
  ident_start c = true -> forall_chars ident_rest pre = true ->
  exists rest, Py.strip (String c pre) = String c rest /\
    forall_chars ident_rest rest = true.
Proof.
  intros Hc Hp. pose proof (ident_start_not_space c Hc) as Hs.
  unfold Py.strip. change (Py.lstrip (String c pre)) with
    (if Py.isspace c then Py.lstrip pre else String c pre). rewrite Hs.
  destruct (rstrip_keeps_head c pre Hs) as [rest Hr]. exists rest. split; [exact Hr|].
  assert (Hall : forall_chars ident_rest (Py.rstrip (String c pre)) = true).
  { apply forall_chars_rstrip. simpl. rewrite (ident_start_rest c Hc), Hp. reflexivity. }
  rewrite Hr in Hall. simpl in Hall. apply andb_true_iff in Hall as [_ Hall]. exact Hall.
Qed.

(** X18. Every name that [extract_tables_used] returns is a stripped capture
    of the pattern: it begins with a letter or an underscore, goes on with
    letters, digits, underscores and spaces only, and has no white space
    around it; removing the double quotes never changes a name. *)
Theorem table_names_shape query name :
  name ∈ extract_tables_used query ->
  exists m c rest,
    m ∈ Re.findall pattern query /\
    name = Py.strip m /\ Py.remove dquote (Py.strip m) = Py.strip m /\
    name = String c rest /\ ident_start c = true /\
    forall_chars ident_rest rest = true /\
    Py.strip name = name.
Proof.
  unfold extract_tables_used. intros Hn. apply elem_of_list_to_set in Hn.
  apply list_elem_of_fmap in Hn as (m & -> & Hm).
  pose proof Hm as Hm'. apply findall_from_matches in Hm' as (s' & n & g & Hh & ->).
  apply match_here_pattern in Hh as (c & pre & Hg & Hc & Hp). rewrite Hg in *. simpl in *.
  destruct (strip_capture c pre Hc Hp) as (rest & Hs & Hr).
  assert (Hq : Py.remove dquote (Py.strip (String c pre)) = Py.strip (String c pre)).
  { apply remove_absent. rewrite Hs. apply (find_absent_char ident_rest); [reflexivity|].
    simpl. rewrite (ident_start_rest c Hc), Hr. reflexivity. }
  exists (String c pre), c, rest. rewrite Hq.
  split; [exact Hm|]. split; [reflexivity|]. split; [reflexivity|].
  split; [exact Hs|]. split; [exact Hc|]. split; [exact Hr|]. apply strip_idempotent.
Qed.

Lemma table_names_shape_witness :
  exists c rest, "Products LIMIT 1" = String c rest /\ ident_start c = true.
Proof.
  destruct (table_names_shape products_query "Products LIMIT 1")
    as (m & c & rest & _ & _ & _ & Hn & Hc & _).
  - vm_compute. reflexivity.
  - exists c, rest. split; [exact Hn|exact Hc].
Defined.

(** *** A query without the keywords *)

Lemma contains_cons sub c s :
  Py.contains sub (String c s) = false ->
  String.prefix sub (String c s) = false /\ Py.contains sub s = false.
Proof.
  unfold Py.contains.
  change (Py.find sub (String c s))
    with (if String.prefix sub (String c s) then Some 0%nat else S <$> Py.find sub s).
  destruct (String.prefix sub (String c s)); [discriminate|].
  destruct (Py.find sub s); [discriminate|]. auto.
Qed.

Lemma contains_nil sub : Py.contains sub EmptyString = false ->
  String.prefix sub EmptyString = false.
Proof.
  unfold Py.contains. change (Py.find sub EmptyString)
    with (if String.prefix sub EmptyString then Some 0%nat else None).
  destruct (String.prefix sub EmptyString); [discriminate|reflexivity].
Qed.

(** A literal matches only where the text, in lower case, begins with
    the literal in lower case. *)
Lemma run_lit_none {R} lit s g (k : string -> Re.groups -> option R) :
  String.prefix (Py.lower lit) (Py.lower s) = false -> Re.run (Re.lit_i lit) s g k = None.
Proof.
  revert s. induction lit as [|c lit IH]; intros s.
  - destruct s; discriminate.
  - destruct s as [|a s]; [reflexivity|].
    change (Re.run (Re.lit_i (String c lit)) (String a s) g k)
      with (if Re.ci c a then Re.run (Re.lit_i lit) s g k else None).
    change (String.prefix (Py.lower (String c lit)) (Py.lower (String a s)))
      with (if ascii_dec (Py.lower_char c) (Py.lower_char a)
            then String.prefix (Py.lower lit) (Py.lower s) else false).
    unfold Re.ci. case_bool_decide as Hd.
    + destruct (ascii_dec _ _); [apply IH|congruence].
    + reflexivity.
Qed.

Lemma match_here_no_keyword s :
  String.prefix "from" (Py.lower s) = false ->
  String.prefix "join" (Py.lower s) = false ->
  Re.match_here pattern s = None.
Proof.
  intros Hf Hj. unfold Re.match_here, pattern. rewrite run_seq.
  change (Re.run (Re.Alt ?a ?b) s ∅ ?k)
    with (match Re.run a s ∅ k with Some x => Some x | None => Re.run b s ∅ k end).
  rewrite (run_lit_none "FROM") by exact Hf. apply (run_lit_none "JOIN"). exact Hj.
Qed.

Lemma findall_no_keyword s :
  Py.contains "from" (Py.lower s) = false ->
  Py.contains "join" (Py.lower s) = false ->
  Re.findall_from pattern s 0 = [].
Proof.
  induction s as [|c s IH]; intros Hf Hj.
  - change (Re.findall_from pattern EmptyString 0)
      with (match Re.match_here pattern EmptyString with
            | Some (n, g) => [default EmptyString (g !! 1%nat)]
            | None => []
            end).
    rewrite match_here_no_keyword; [reflexivity| |]; apply contains_nil; assumption.
  - change (Py.lower (String c s)) with (String (Py.lower_char c) (Py.lower s)) in Hf, Hj.
    apply contains_cons in Hf as [Hf Hf'], Hj as [Hj Hj'].
    change (Re.findall_from pattern (String c s) 0)
      with (match Re.match_here pattern (String c s) with
            | Some (n, g) => default EmptyString (g !! 1%nat)
                             :: Re.findall_from pattern s (n - 1)
            | None => Re.findall_from pattern s 0
            end).
    rewrite match_here_no_keyword by assumption. apply IH; assumption.
Qed.

(** X19. A query in which neither FROM nor JOIN occurs, in any case, uses no
    table. *)
Theorem no_keyword_no_table query :
  Py.contains "from" (Py.lower query) = false ->
  Py.contains "join" (Py.lower query) = false ->
  extract_tables_used query = ∅.
Proof.
  intros Hf Hj. unfold extract_tables_used, Re.findall.
  rewrite (findall_no_keyword query Hf Hj). reflexivity.
Qed.

Lemma no_keyword_no_table_witness : extract_tables_used "PRAGMA table_info('Orders')" = ∅.
Proof. apply no_keyword_no_table; reflexivity. Defined.

End TableNameFacts.

(** ** The schema snapshot *)

Section IntrospectionFacts.
Import SQLiteIntrospection.

Lemma snapshot_fold db tables : forall (schema : gmap string (list string)) t,
  foldl (fun schema t => <[t := get_table_columns db t]> schema) schema tables !! t =
  if bool_decide (t ∈ tables) then Some (get_table_columns db t) else schema !! t.
Proof.
  induction tables as [|t' tables IH]; intros schema t.
  - case_bool_decide as Hin; [|reflexivity]. now apply elem_of_nil in Hin.
  - change (foldl ?f schema (t' :: tables)) with (foldl f (f schema t') tables).
    rewrite IH. repeat case_bool_decide; try reflexivity.
    + exfalso. rewrite elem_of_cons in *. tauto.
    + rewrite elem_of_cons in *. destruct (decide (t = t')) as [->|Hne].
      * now rewrite lookup_insert_eq.
      * tauto.
    + rewrite elem_of_cons in *. rewrite lookup_insert_ne; [reflexivity|]. intros ->. tauto.
Qed.

(** X20. The schema snapshot has exactly the tables that the database lists,
    each with the columns that [get_table_columns] gives for it (the empty
    list when the description of the table fails); when the listing fails
    the snapshot is empty. *)
Theorem schema_snapshot_tables db :
  (forall t, get_schema_snapshot db !! t =
     if bool_decide (t ∈ get_tables db) then Some (get_table_columns db t) else None) /\
  (forall e, master_tables db = Raised e -> get_schema_snapshot db = ∅) /\
  (forall t e, t ∈ get_tables db -> table_info db t = Raised e ->
     get_schema_snapshot db !! t = Some []).
Proof.
  assert (H : forall t, get_schema_snapshot db !! t =
     if bool_decide (t ∈ get_tables db) then Some (get_table_columns db t) else None).
  { intros t. unfold get_schema_snapshot. rewrite snapshot_fold. now rewrite lookup_empty. }
  split; [exact H|]. split.
  - intros e He. unfold get_schema_snapshot, get_tables. now rewrite He.
  - intros t e Hin He. rewrite H, bool_decide_eq_true_2 by exact Hin.
    unfold get_table_columns. now rewrite He.
Qed.

End IntrospectionFacts.

(** ** The calls of the wrapper *)

Section OllamaFacts.
Import Ollama.
Context {parsers : Normalizer.Parsers}.

Lemma truthy_app_r a b : Py.truthy b = true -> Py.truthy (a +:+ b) = true.
Proof. destruct a; [intros H; exact H|reflexivity]. Qed.

Lemma message_line_truthy msg : Py.truthy (message_line msg) = true.
Proof.
  destruct msg; unfold message_line.
  - apply truthy_app_r. apply truthy_app_r. apply truthy_app_r. reflexivity.
  - apply truthy_app_r. reflexivity.
Qed.

Lemma prompt_fold_truthy messages : forall acc,
  Py.truthy acc = true \/ messages <> [] ->
  Py.truthy (foldl (fun prompt_text msg => prompt_text +:+ message_line msg) acc messages) = true.
Proof.
  induction messages as [|msg messages IH]; intros acc H; simpl.
  - destruct H as [H|H]; [exact H|contradiction].
  - apply IH. left. apply truthy_app_r, message_line_truthy.
Qed.

(** X21. With a list of messages that is not empty, [__call__] sends the
    lines of the messages and nothing of its [prompt] argument, never raises
    the error of a missing prompt, and returns the one completion of
    [basic_request] in a list. *)
Theorem call_with_messages service prompt messages :
  messages <> [] ->
  __call__ service prompt messages =
    match basic_request service (prompt_of_messages messages) with
    | Returned response_text => Returned [response_text]
    | Raised e => Raised e
    end.
Proof.
  intros Hne. unfold __call__.
  destruct messages as [|msg messages]; [contradiction|].
  change (Py.truthy_list (msg :: messages)) with true. cbv iota.
  unfold prompt_of_messages. rewrite prompt_fold_truthy; [reflexivity|]. now right.
Qed.

End OllamaFacts.

Section OllamaExamples.
Import Ollama.

Lemma call_with_messages_witness :
  [RoleContent (Some "user") None] <> [] /\
  @__call__ strict_parsers (fun _ => Failed "refused") (Some "ignored")
     [RoleContent (Some "user") None] =
  Raised "Ollama connection failed: refused".
Proof.
  split; [discriminate|].
  rewrite (@call_with_messages strict_parsers) by discriminate. reflexivity.
Defined.

End OllamaExamples.

(** ** The entry point of the agent *)

Section AgentFacts.
Import Workflow Agent.

Lemma run_app trace1 trace2 c : run (trace1 ++ trace2) c = run trace2 (run trace1 c).
Proof. unfold run. apply foldl_app. Qed.

Lemma run_terminal trace : forall c, terminal c -> run trace c = c.
Proof.
  induction trace as [|sv trace IH]; intros c Hc; [reflexivity|].
  change (run trace (step sv c) = c).
  destruct c as [n state|e]; [destruct n; try contradiction|]; apply IH; exact I.
Qed.

(** X22. The limit on the number of steps never decides the outcome of
    [run_hybrid_agent]: the first 14 steps under the answers of the
    collaborators end the execution, and [run_hybrid_agent] returns the
    record of the state in which they reach END, with an empty id and the
    confidence of that state, or raises the exception with which they
    abort. *)
Theorem run_hybrid_agent_outcome answers question format_hint :
  match run (map answers (seq 0 14)) (initial question format_hint) with
  | At END out =>
      run_hybrid_agent answers question format_hint = Returned (final_of out) /\
      f_id (final_of out) = PStr EmptyString /\
      f_confidence (final_of out) = compute_confidence out
  | At _ _ => False
  | Aborted e => run_hybrid_agent answers question format_hint = Raised e
  end.
Proof.
  pose proof (long_run_terminal question format_hint (map answers (seq 0 14))) as Ht.
  rewrite length_map, length_seq in Ht. specialize (Ht (Nat.le_refl 14)).
  assert (Hrun : run (map answers (seq 0 recursion_limit)) (At Router (inputs question format_hint))
                 = run (map answers (seq 0 14)) (initial question format_hint)).
  { change (seq 0 recursion_limit) with (seq 0 14 ++ seq 14 11)%list.
    rewrite map_app, run_app. apply run_terminal, Ht. }
  unfold run_hybrid_agent, invoke. rewrite Hrun.
  destruct (run (map answers (seq 0 14)) (initial question format_hint)) as [n out|e].
  - destruct n; try contradiction. repeat split.
  - reflexivity.
Qed.

(** X23. When the retriever and the planner do not raise, [run_hybrid_agent]
    returns. *)
Theorem run_hybrid_agent_returns answers question format_hint :
  (forall i, steady (answers i)) ->
  exists result, run_hybrid_agent answers question format_hint = Returned result.
Proof.
  intros Hsteady. unfold run_hybrid_agent, invoke.
  set (trace := map answers (seq 0 recursion_limit)).
  assert (Ht : terminal (run trace (initial question format_hint))).
  { apply long_run_terminal. unfold trace. rewrite length_map, length_seq. unfold recursion_limit. lia. }
  assert (Hna : ~ aborted (run trace (initial question format_hint))).
  { apply run_steady; [|intros H; exact H].
    apply Forall_forall. intros sv Hin. apply list_elem_of_In, in_map_iff in Hin.
    destruct Hin as (i & <- & _). apply Hsteady. }
  change (At Router (inputs question format_hint)) with (initial question format_hint).
  destruct (run trace (initial question format_hint)) as [n out|e] eqn:E.
  - destruct n; try contradiction. eauto.
  - exfalso. apply Hna. exact I.
Qed.

Lemma run_hybrid_agent_returns_witness :
  (forall i : nat, steady ((fun _ => failing_services) i)) /\
  exists result, run_hybrid_agent (fun _ => failing_services) "How many?" "int" = Returned result.
Proof.
  split; [intros _; exact failing_services_steady|].
  apply run_hybrid_agent_returns. intros _. exact failing_services_steady.
Defined.

End AgentFacts.

(** ** The batch driver *)

Section DriverFacts.
Import Driver.

Lemma process_skips agent it rest outputs :
  answerable it <> true -> process agent (it :: rest) outputs = process agent rest outputs.
Proof.
  unfold answerable. simpl. destruct (item_question it) as [q|]; [|reflexivity].
  destruct (Py.truthy q); [congruence|reflexivity].
Qed.

Lemma process_raises agent it rest outputs e :
  answerable it = true -> call agent it = Raised e ->
  process agent (it :: rest) outputs = Raised e.
Proof.
  unfold answerable, call, qid_of. simpl. destruct (item_question it) as [q|]; [|discriminate].
  intros ->. simpl. destruct (agent q _ _) as [r0|e0]; [discriminate|]. now intros [= ->].
Qed.

Lemma process_returns agent it rest outputs result :
  answerable it = true -> call agent it = Returned result ->
  process agent (it :: rest) outputs = process agent rest (outputs ++ [result]).
Proof.
  unfold answerable, call, qid_of. simpl. destruct (item_question it) as [q|]; [|discriminate].
  intros ->. simpl. destruct (agent q _ _) as [r0|e0]; [|discriminate]. now intros [= <-].
Qed.

Lemma process_app agent inputs : forall outputs results,
  Forall2 (fun it result => call agent it = Returned result)
          (filter (fun it => answerable it = true) inputs) results ->
  forall rest, process agent (inputs ++ rest) outputs = process agent rest (outputs ++ results).
Proof.
  induction inputs as [|it inputs IH]; intros outputs results H rest.
  - inversion H. simpl. now rewrite app_nil_r.
  - rewrite filter_cons in H. rewrite <- app_comm_cons.
    destruct (decide (answerable it = true)) as [Ha|Ha].
    + inversion H as [|? result ? results' Hc Hrest]; subst.
      rewrite (process_returns _ _ _ _ _ Ha Hc), (IH _ _ Hrest). now rewrite <- app_assoc.
    + rewrite (process_skips _ _ _ _ Ha). now apply IH.
Qed.

Lemma calls_return agent inputs :
  Forall (fun it => answerable it = true -> exists result, call agent it = Returned result) inputs ->
  exists results,
    Forall2 (fun it result => call agent it = Returned result)
            (filter (fun it => answerable it = true) inputs) results.
Proof.
  induction 1 as [|it inputs Hit Hall IH].
  - exists []. constructor.
  - destruct IH as [results IH]. rewrite filter_cons.
    destruct (decide (answerable it = true)) as [Ha|Ha].
    + destruct (Hit Ha) as [result Hr]. exists (result :: results). now constructor.
    + exists results. exact IH.
Qed.

(** X24. When every call of the agent returns, [main] collects one record
    for each input that has a question, in the order of the inputs: the
    record of the agent for it, under the id of the input; inputs without a
    question leave no record. *)
Theorem main_collects_all json_loads agent lines :
  read_inputs json_loads lines <> [] ->
  Forall (fun it => answerable it = true -> exists result, call agent it = Returned result)
         (read_inputs json_loads lines) ->
  exists outputs,
    main json_loads agent lines = Returned (Some outputs) /\
    Forall2 (fun it result => call agent it = Returned result /\ Agent.f_id result = qid_of it)
            (filter (fun it => answerable it = true) (read_inputs json_loads lines)) outputs.
Proof.
  intros Hne Hall. unfold main.
  destruct (read_inputs json_loads lines) as [|it0 inputs0] eqn:E; [contradiction|].
  change (Py.truthy_list (it0 :: inputs0)) with true. cbv iota.
  revert Hall. generalize (it0 :: inputs0). clear. intros inputs Hall.
  destruct (calls_return agent inputs Hall) as [results Hres]. exists results.
  pose proof (process_app agent inputs [] results Hres []) as Hp.
  rewrite app_nil_r in Hp. rewrite Hp. simpl. split; [reflexivity|].
  eapply Forall2_impl; [exact Hres|]. intros it result Hc. split; [exact Hc|].
  unfold call in Hc. destruct (agent _ _ _); [|discriminate]. now injection Hc as <-.
Qed.

(** X25. [main] does not catch an exception of the agent: the first input
    with a question for which the call raises makes [main] raise that
    exception, before the output file is opened, whatever the calls before
    it returned. *)
Theorem main_stops_at_first_exception json_loads agent lines before it after e :
  read_inputs json_loads lines = (before ++ it :: after)%list ->
  Forall (fun it => answerable it = true -> exists result, call agent it = Returned result) before ->
  answerable it = true ->
  call agent it = Raised e ->
  main json_loads agent lines = Raised e.
Proof.
  intros E Hall Ha Hc. unfold main. rewrite E.
  replace (Py.truthy_list (before ++ it :: after)) with true by (now destruct before).
  destruct (calls_return agent before Hall) as [results Hres].
  rewrite (process_app agent before [] results Hres).
  now rewrite (process_raises agent it after _ e Ha Hc).
Qed.

Lemma main_collects_all_witness :
  read_inputs batch_loads batch_lines <> [] /\
  Forall (fun it => answerable it = true -> exists result, call echo_agent it = Returned result)
         (read_inputs batch_loads batch_lines) /\
  exists outputs,
    main batch_loads echo_agent batch_lines = Returned (Some outputs) /\
    Forall2 (fun it result => call echo_agent it = Returned result /\ Agent.f_id result = qid_of it)
            (filter (fun it => answerable it = true) (read_inputs batch_loads batch_lines)) outputs.
Proof.
  assert (Hne : read_inputs batch_loads batch_lines <> []) by (vm_compute; discriminate).
  assert (Hall : Forall (fun it => answerable it = true ->
                           exists result, call echo_agent it = Returned result)
                        (read_inputs batch_loads batch_lines)).
  { apply Forall_forall. intros it _ _. unfold call, echo_agent. eauto. }
  split; [exact Hne|]. split; [exact Hall|].
  exact (main_collects_all batch_loads echo_agent batch_lines Hne Hall).
Defined.

Lemma main_stops_at_first_exception_witness :
  main batch_loads raising_agent batch_lines = Raised "no documents".
Proof.
  apply (main_stops_at_first_exception batch_loads raising_agent batch_lines []
           {| item_id := Some (PStr "q1"); item_question := Some "How many?";
              item_format_hint := None |}
           [{| item_id := None; item_question := None; item_format_hint := Some "int" |}]).
  - vm_compute. reflexivity.
  - constructor.
  - reflexivity.
  - reflexivity.
Defined.

End DriverFacts.
